(** * Device authorization grant (RFC 8628) handlers and request limiter of dex

    A shallow embedding of [server/deviceHandlers.go], of the request limiter
    ([limiter.RequestLimiter]) and of the rate-limiting middleware, together
    with the properties of the specification that concern them.

    Conventions of the embedding:
    - Go's [int] and [int64] are 64-bit two's complement integers, carried by
      [Z] with the wrap-around written out ([wrap64]);
    - a [time.Time] is an instant counted in nanoseconds from Go's zero
      instant, a [time.Duration] a 64-bit count of nanoseconds;
    - a handler runs in a state monad over a [World]: the storage, the
      injected clock, the calls received by the [http.ResponseWriter] and
      the lines handed to the logger;
    - functions of Go's standard library and of other files of the
      repository are fields of an environment record [Env];
    - the locks of the limiter are not represented: a call runs alone from
      one call of the storage to the next;
    - D1 ([handleDeviceCode]) enters the properties through the two records
      it creates in the storage. *)

From Stdlib Require Import ZArith List String Ascii Bool Lia.
From stdpp Require Import base option gmap strings list pretty.

Local Open Scope string_scope.
Local Open Scope Z_scope.

(** ** Machine integers and time *)

Module GoInt.

Definition wrap64 (z : Z) : Z := (z + 2 ^ 63) mod 2 ^ 64 - 2 ^ 63.

Definition in_int64 (z : Z) : Prop := - 2 ^ 63 <= z < 2 ^ 63.

Definition add (a b : Z) : Z := wrap64 (a + b).
Definition mul (a b : Z) : Z := wrap64 (a * b).

End GoInt.

Module GoTime.

(** Instants and durations, both in nanoseconds. *)
Definition Time := Z.
Definition Duration := Z.

Definition Second : Duration := 1000000000.

(** [t.Add(d)] *)
Definition Add (t : Time) (d : Duration) : Time := t + d.
(** [t.Before(u)] and [t.After(u)] *)
Definition Before (t u : Time) : bool := t <? u.
Definition After (t u : Time) : bool := u <? t.

(** [time.Second * time.Duration(n)] for an [int] [n]. *)
Definition seconds (n : Z) : Duration := GoInt.mul Second n.

End GoTime.

Export GoTime.

(** ** Strings and form values *)

Module GoStrings.

Definition is_ascii_byte (c : ascii) : bool := (N_of_ascii c <? 128)%N.
Definition is_lower (c : ascii) : bool :=
  ((97 <=? N_of_ascii c) && (N_of_ascii c <=? 122))%N.
Definition upper_byte (c : ascii) : ascii :=
  if is_lower c then ascii_of_N (N_of_ascii c - 32) else c.

Fixpoint all_bytes (p : ascii -> bool) (s : string) : bool :=
  match s with
  | EmptyString => true
  | String c s' => p c && all_bytes p s'
  end.

Fixpoint map_bytes (f : ascii -> ascii) (s : string) : string :=
  match s with
  | EmptyString => EmptyString
  | String c s' => String (f c) (map_bytes f s')
  end.

(** [strings.ToUpper]: the ASCII fast path of the library is spelled out;
    a string with a byte outside ASCII goes through the Unicode mapping
    [unicode_upper] ([strings.Map(unicode.ToUpper, s)]). *)
Definition ToUpper (unicode_upper : string -> string) (s : string) : string :=
  if all_bytes is_ascii_byte s then map_bytes upper_byte s
  else unicode_upper s.

(** [strings.Join(elems, sep)] *)
Fixpoint Join (elems : list string) (sep : string) : string :=
  match elems with
  | [] => ""
  | [e] => e
  | e :: rest => e ++ sep ++ Join rest sep
  end.

End GoStrings.

(** [url.Values], [http.Header]: a map from keys to lists of values. *)
Module Values.

Abbreviation t := (gmap string (list string)).

(** [v.Get(key)]: the first value of the key, the empty string without. *)
Definition Get (v : t) (key : string) : string :=
  match v !! key with
  | Some (x :: _) => x
  | _ => ""
  end.

(** [v.Set(key, value)] replaces the values of the key. *)
Definition Set_ (key value : string) (v : t) : t := <[key := [value]]> v.

End Values.

(** ** Errors *)

(** Go's [error] values: [nil] is [None]. [storage.ErrNotFound] and
    [storage.ErrAlreadyExists] are the storage package's distinguished
    errors; every other error ([errors.New], a backend failure) is an
    [ErrOther]. *)
Inductive error : Type :=
| ErrNotFound
| ErrAlreadyExists
| ErrOther (msg : string).

#[global] Instance error_eq_dec : EqDecision error.
Proof. solve_decision. Defined.

(** [err != nil] and [err != storage.ErrNotFound] *)
Definition not_nil (err : option error) : bool :=
  match err with
  | None => false
  | Some _ => true
  end.
Definition not_ErrNotFound (err : option error) : bool :=
  match err with
  | Some ErrNotFound => false
  | _ => true
  end.

(** ** Stored entities (package [storage]) *)

Module DeviceRequest.
Record t : Type := mk {
  UserCode : string;
  DeviceCode : string;
  ClientID : string;
  Scopes : list string;
  Expiry : Time }.
Definition zero : t := mk "" "" "" [] 0.
End DeviceRequest.

Module DeviceToken.
Record t : Type := mk {
  DeviceCode : string;
  Status : string;
  Token : string;
  Expiry : Time;
  LastRequestTime : Time;
  PollIntervalSeconds : Z }.
Definition zero : t := mk "" "" "" 0 0 0.
End DeviceToken.

Module RequestLimit.
Record t : Type := mk {
  Key : string;
  Interval : Z;
  LastSeen : Time;
  Expiry : Time }.
Definition zero : t := mk "" 0 0 0.
End RequestLimit.

Module AuthCode.
Record t : Type := mk {
  ID : string;
  Expiry : Time }.
Definition zero : t := mk "" 0.
End AuthCode.

Module Client.
Record t : Type := mk {
  ID : string;
  Name : string }.
Definition zero : t := mk "" "".
End Client.

(** ** The world a handler runs in *)

(** Calls received by the [http.ResponseWriter], in order. The helpers
    [tokenErrHelper], [renderError] and the templates live in other files
    of the server package: a call to one of them is recorded with its
    arguments. *)
Inductive Event : Type :=
| HeaderSet (key value : string)
| HeaderAdd (key value : string)
| TokenErr (typ description : string) (status : Z)
| RenderError (status : Z) (message : string)
| HttpError (message : string) (status : Z)
| HttpRedirect (url : string) (status : Z)
| TemplateDevice (postURL userCode : string) (invalid : bool)
| TemplateDeviceSuccess (clientName : string)
| Write (body : string).

#[global] Instance Event_eq_dec : EqDecision Event.
Proof. solve_decision. Defined.

Inductive Level : Type := LInfo | LWarn | LError.

(** A line handed to the logger: level, format string, error argument. *)
Record LogLine : Type := Logged {
  log_level : Level;
  log_format : string;
  log_err : option error }.

(** The tables of the storage and its availability. *)
Record Storage : Type := mkStorage {
  deviceRequests : gmap string DeviceRequest.t;
  deviceTokens : gmap string DeviceToken.t;
  requestLimits : gmap string RequestLimit.t;
  authCodes : gmap string AuthCode.t;
  clients : gmap string Client.t;
  fault : option string }.

(** [clock] lists the successive results of the injected [now()]; [ticks]
    counts the calls made so far. *)
Record World : Type := mkWorld {
  store : Storage;
  clock : nat -> Time;
  ticks : nat;
  resp : list Event;
  logs : list LogLine }.

Definition with_store (st : Storage) (w : World) : World :=
  mkWorld st (clock w) (ticks w) (resp w) (logs w).

(** The state monad of handlers. *)
Definition M (A : Type) : Type := World -> A * World.

Definition ret {A} (a : A) : M A := fun w => (a, w).
Definition bind {A B} (m : M A) (k : A -> M B) : M B :=
  fun w => let (a, w') := m w in k a w'.

Declare Scope go_scope.
Delimit Scope go_scope with go.
Bind Scope go_scope with M.
Notation "x <- m ;; k" := (bind m (fun x => k))
  (at level 20, m at level 99, k at level 200, only parsing) : go_scope.
Notation "' pat <- m ;; k" := (bind m (fun x => match x with pat => k end))
  (at level 20, pat pattern, m at level 99, k at level 200, only parsing)
  : go_scope.
Notation "m ;; k" := (bind m (fun _ => k))
  (at level 100, k at level 200, right associativity, only parsing)
  : go_scope.
Local Open Scope go_scope.

(** The final world of a computation. *)
Definition exec {A} (m : M A) (w : World) : World := snd (m w).

(** [s.now()], [l.now()] *)
Definition now : M Time :=
  fun w => (clock w (ticks w),
            mkWorld (store w) (clock w) (S (ticks w)) (resp w) (logs w)).

Definition emit (e : Event) : M unit :=
  fun w => (tt, mkWorld (store w) (clock w) (ticks w) (resp w ++ [e]) (logs w)).

Definition logf (lvl : Level) (format : string) (err : option error) : M unit :=
  fun w => (tt, mkWorld (store w) (clock w) (ticks w) (resp w)
                  (logs w ++ [Logged lvl format err])).

(** ** The storage contract *)

(** Modelled from the spec: the storage package is not among the sources;
    section 4.B of the specification gives its contract. [Get] fails with
    the distinguished [ErrNotFound] on an absent key; [Update] runs the
    updater on the current value inside the critical section of the key and
    stores its result unless the updater rejects; [Create] refuses a key
    that is taken. A backend that is down ([fault]) fails every call with an
    error other than [ErrNotFound]. *)
Module Store.

Section Table.
Context {V : Type} (zero : V).
Context (tbl : Storage -> gmap string V).
Context (put : gmap string V -> Storage -> Storage).

Definition get (key : string) : M (V * option error) := fun w =>
  match fault (store w) with
  | Some msg => ((zero, Some (ErrOther msg)), w)
  | None =>
      match tbl (store w) !! key with
      | Some v => ((v, None), w)
      | None => ((zero, Some ErrNotFound), w)
      end
  end.

Definition create (key : string) (v : V) : M (option error) := fun w =>
  match fault (store w) with
  | Some msg => (Some (ErrOther msg), w)
  | None =>
      match tbl (store w) !! key with
      | Some _ => (Some ErrAlreadyExists, w)
      | None => (None, with_store (put (<[key := v]> (tbl (store w))) (store w)) w)
      end
  end.

Definition update (key : string) (updater : V -> M (V * option error))
  : M (option error) := fun w =>
  match fault (store w) with
  | Some msg => (Some (ErrOther msg), w)
  | None =>
      match tbl (store w) !! key with
      | None => (Some ErrNotFound, w)
      | Some cur =>
          let (res, w') := updater cur w in
          match snd res with
          | Some e => (Some e, w')
          | None =>
              (None,
               with_store (put (<[key := fst res]> (tbl (store w'))) (store w')) w')
          end
      end
  end.

End Table.

Definition put_deviceRequests m (st : Storage) : Storage :=
  mkStorage m (deviceTokens st) (requestLimits st) (authCodes st) (clients st) (fault st).
Definition put_deviceTokens m (st : Storage) : Storage :=
  mkStorage (deviceRequests st) m (requestLimits st) (authCodes st) (clients st) (fault st).
Definition put_requestLimits m (st : Storage) : Storage :=
  mkStorage (deviceRequests st) (deviceTokens st) m (authCodes st) (clients st) (fault st).

Definition GetDeviceRequest := get DeviceRequest.zero deviceRequests.
Definition GetDeviceToken := get DeviceToken.zero deviceTokens.
Definition GetRequestLimit := get RequestLimit.zero requestLimits.
Definition GetAuthCode := get AuthCode.zero authCodes.
Definition GetClient := get Client.zero clients.

Definition CreateDeviceRequest (d : DeviceRequest.t) :=
  create deviceRequests put_deviceRequests (DeviceRequest.UserCode d) d.
Definition CreateDeviceToken (t : DeviceToken.t) :=
  create deviceTokens put_deviceTokens (DeviceToken.DeviceCode t) t.
Definition CreateRequestLimit (r : RequestLimit.t) :=
  create requestLimits put_requestLimits (RequestLimit.Key r) r.

Definition UpdateDeviceToken := update deviceTokens put_deviceTokens.
Definition UpdateRequestLimit := update requestLimits put_requestLimits.

End Store.

(** ** Requests and the environment *)

Module URL.
Record t : Type := mk {
  Scheme : string;
  Host : string;
  Path : string;
  RawQuery : string }.
Definition with_RawQuery (q : string) (u : t) : t :=
  mk (Scheme u) (Host u) (Path u) q.
End URL.

(** An [http.Request] as the handlers read it. [ParseFormErr] is the result
    of [r.ParseForm()]; [Form] and [PostForm] are the parsed values. *)
Record Request : Type := mkRequest {
  Method : string;
  URLPath : string;
  URLQuery : Values.t;
  RemoteAddr : string;
  Header : Values.t;
  ParseFormErr : option error;
  Form : Values.t;
  PostForm : Values.t }.

Definition MethodGet : string := "GET".
Definition MethodPost : string := "POST".

Definition StatusOK : Z := 200.
Definition StatusFound : Z := 302.
Definition StatusBadRequest : Z := 400.
Definition StatusUnauthorized : Z := 401.
Definition StatusInternalServerError : Z := 500.

(** Functions of Go's library and of the rest of the repository that the
    sources call. [Resp] is the token response that [exchangeAuthCode]
    mints. *)
Record Env (Resp : Type) : Type := mkEnv {
  (** [strings.Map(unicode.ToUpper, s)] *)
  unicode_upper : string -> string;
  (** [path.Join(elem...)] *)
  path_Join : list string -> string;
  (** [url.Parse(rawURL)] *)
  url_Parse : string -> URL.t * option error;
  (** [u.Query()] *)
  URL_Query : URL.t -> Values.t;
  (** [v.Encode()] *)
  Values_Encode : Values.t -> string;
  (** [u.String()] *)
  URL_String : URL.t -> string;
  (** [json.MarshalIndent(resp, prefix, indent)] *)
  json_MarshalIndent : Resp -> string -> string -> string * option error;
  (** [int(d.Seconds())] *)
  Duration_Seconds : Duration -> Z;
  (** [s.exchangeAuthCode(w, authCode, client)] *)
  exchangeAuthCode : AuthCode.t -> Client.t -> M (Resp * option error);
  (** [GetIP(r)] *)
  GetIP : Request -> string;
  (** the error, if any, returned by the rendering of a template *)
  template_err : Event -> option error }.

Arguments unicode_upper {Resp} _ _.
Arguments path_Join {Resp} _ _.
Arguments url_Parse {Resp} _ _.
Arguments URL_Query {Resp} _ _.
Arguments Values_Encode {Resp} _ _.
Arguments URL_String {Resp} _ _.
Arguments json_MarshalIndent {Resp} _ _ _ _.
Arguments Duration_Seconds {Resp} _ _.
Arguments exchangeAuthCode {Resp} _ _ _.
Arguments GetIP {Resp} _ _.
Arguments template_err {Resp} _ _.

(** ** The request limiter (package [limiter]) *)

Module Limiter.

(** [RequestLimiter]; its store, logger and clock are those of the world.
    [onLimitReached] is [None] for Go's nil function value. *)
Record RequestLimiter : Type := mkRequestLimiter {
  baseRequestInterval : Duration;
  defaultExpireTime : Duration;
  backoff : bool;
  onLimitReached : option (Request -> Z -> M unit) }.

Definition NewRequestLimiter (requestInterval expireDuration : Duration)
    (backoff : bool) : RequestLimiter :=
  mkRequestLimiter requestInterval expireDuration backoff None.

Definition SetOnLimitReached (l : RequestLimiter) (fn : Request -> Z -> M unit)
  : RequestLimiter :=
  mkRequestLimiter (baseRequestInterval l) (defaultExpireTime l) (backoff l) (Some fn).

Definition ExecOnLimitReached (l : RequestLimiter) (r : Request)
    (delaySeconds : Z) : M unit :=
  let fn := onLimitReached l in
  match fn with
  | Some fn => fn r delaySeconds
  | None => ret tt
  end.

Definition IsLimited (l : RequestLimiter) (r : RequestLimit.t) : M bool :=
  let d := GoInt.mul (RequestLimit.Interval r) Second in
  t <- now ;;
  ret (Before t (Add (RequestLimit.LastSeen r) d)).

Section WithEnv.
Context {Resp : Type} (env : Env Resp).

(** [int(l.baseRequestInterval.Seconds())] *)
Definition baseSeconds (l : RequestLimiter) : Z :=
  GoInt.wrap64 (Duration_Seconds env (baseRequestInterval l)).

Definition GetLastRequest (l : RequestLimiter) (key : string)
  : M (RequestLimit.t * option error) :=
  '(req, err) <- Store.GetRequestLimit key ;;
  if not_nil err then
    if not_ErrNotFound err then ret (req, err)
    else
      lastSeen <- now ;;
      t <- now ;;
      let req := RequestLimit.mk key 0 lastSeen (Add t (defaultExpireTime l)) in
      err <- Store.CreateRequestLimit req ;;
      ret (req, err)
  else ret (req, err).

(** The closure handed to [UpdateRequestLimit]. *)
Definition updater (l : RequestLimiter) (limit : RequestLimit.t)
  : M (RequestLimit.t * option error) :=
  limited <- IsLimited l limit ;;
  let interval :=
    if limited && backoff l
    then GoInt.add (RequestLimit.Interval limit) (baseSeconds l)
    else baseSeconds l in
  lastSeen <- now ;;
  t <- now ;;
  ret (RequestLimit.mk (RequestLimit.Key limit) interval lastSeen
         (Add t (defaultExpireTime l)), None).

Definition UpdateRequest (l : RequestLimiter) (req : RequestLimit.t)
  : M (option error) :=
  err <- Store.UpdateRequestLimit (RequestLimit.Key req) (updater l) ;;
  match err with
  | Some e =>
      logf LError "failed to update device token: %v" (Some e) ;;
      ret (Some e)
  | None => ret None
  end.

End WithEnv.

End Limiter.

(** ** The server: rate-limiting middleware *)

Record Server : Type := mkServer {
  issuerURL : URL.t;
  deviceRequestsValidFor : Duration }.

Section Handlers.
Context {Resp : Type} (env : Env Resp) (s : Server).

Definition renderError (status : Z) (message : string) : M unit :=
  emit (RenderError status message).

Definition tokenErrHelper (typ description : string) (status : Z) : M unit :=
  emit (TokenErr typ description status).

Definition setResponseHeaders (r : Request) : M unit :=
  emit (HeaderAdd "X-Rate-Limit-Duration" "1") ;;
  emit (HeaderAdd "X-Rate-Limit-Request-Forwarded-For"
          (Values.Get (Header r) "X-Forwarded-For")) ;;
  emit (HeaderAdd "X-Rate-Limit-Request-Remote-Addr" (RemoteAddr r)).

Definition LimitByRequest (lmt : Limiter.RequestLimiter) (r : Request)
  : M (RequestLimit.t * option error) :=
  setResponseHeaders r ;;
  let remoteIP := GetIP env r in
  let path := URLPath r in
  let method := Method r in
  let key := [method; remoteIP; path] in
  Limiter.GetLastRequest lmt (GoStrings.Join key "-").

Definition RequestLimitHandler (lmt : Limiter.RequestLimiter)
    (next : Request -> M unit) (r : Request) : M unit :=
  '(req, err) <- LimitByRequest lmt r ;;
  match err with
  | Some e =>
      logf LError "Unexpected error getting request limit: %v" (Some e) ;;
      renderError StatusInternalServerError ""
  | None =>
      err <- Limiter.UpdateRequest env lmt req ;;
      match err with
      | Some e =>
          logf LError "Unexpected error updating request limit: %v" (Some e) ;;
          renderError StatusInternalServerError ""
      | None =>
          limited <- Limiter.IsLimited lmt req ;;
          if limited
          then Limiter.ExecOnLimitReached lmt r (RequestLimit.Interval req)
          else next r
      end
  end.

Definition RequestLimitFuncHandler (lmt : Limiter.RequestLimiter)
    (nextFunc : Request -> M unit) : Request -> M unit :=
  RequestLimitHandler lmt nextFunc.

End Handlers.

(** ** The server: device-flow handlers ([server/deviceHandlers.go]) *)

(** Modelled from the spec: the constants of the server package that the
    handlers name are declared in another file; sections 4.D, 6 and 7 of the
    specification give their wire values. *)
Definition errInvalidRequest : string := "invalid_request".
Definition errInvalidGrant : string := "invalid_grant".
Definition errServerError : string := "server_error".
Definition deviceTokenPending : string := "authorization_pending".
Definition deviceTokenComplete : string := "complete".
Definition deviceTokenSlowDown : string := "slow_down".
Definition deviceTokenExpired : string := "expired_token".
Definition grantTypeDeviceCode : string :=
  "urn:ietf:params:oauth:grant-type:device_code".

(** [strconv.ParseBool] *)
Definition ParseBool (str : string) : bool * option error :=
  if (str =? "1")%string || (str =? "t")%string || (str =? "T")%string
     || (str =? "TRUE")%string || (str =? "true")%string || (str =? "True")%string
  then (true, None)
  else if (str =? "0")%string || (str =? "f")%string || (str =? "F")%string
     || (str =? "FALSE")%string || (str =? "false")%string || (str =? "False")%string
  then (false, None)
  else (false, Some (ErrOther "invalid syntax")).

(** [err != nil || s.now().After(expiry)]: the clock is read only when the
    lookup succeeded. *)
Definition failed_or_expired (err : option error) (expiry : Time) : M bool :=
  if not_nil err then ret true
  else t <- now ;; ret (After t expiry).

Section DeviceHandlers.
Context {Resp : Type} (env : Env Resp) (s : Server).

Definition getDeviceAuthURI : string :=
  path_Join env [URL.Path (issuerURL s); "/device/auth/verify_code"].

(** [s.templates.device(r, w, postURL, userCode, invalid)] *)
Definition templates_device (postURL userCode : string) (invalid : bool)
  : M (option error) :=
  emit (TemplateDevice postURL userCode invalid) ;;
  ret (template_err env (TemplateDevice postURL userCode invalid)).

(** [s.templates.deviceSuccess(r, w, clientName)] *)
Definition templates_deviceSuccess (clientName : string) : M (option error) :=
  emit (TemplateDeviceSuccess clientName) ;;
  ret (template_err env (TemplateDeviceSuccess clientName)).

Definition log_template_error (err : option error) : M unit :=
  match err with
  | Some e => logf LError "Server template error: %v" (Some e)
  | None => ret tt
  end.

(** D2, [GET /device] *)
Definition handleDeviceExchange (r : Request) : M unit :=
  if (Method r =? MethodGet)%string then
    let userCode := Values.Get (URLQuery r) "user_code" in
    let '(invalidAttempt, err) := ParseBool (Values.Get (URLQuery r) "invalid") in
    let invalidAttempt := if not_nil err then false else invalidAttempt in
    err <- templates_device getDeviceAuthURI userCode invalidAttempt ;;
    log_template_error err
  else
    renderError StatusBadRequest "Requested resource does not exist.".

(** The closure that the pending branch of D5 hands to [UpdateDeviceToken]. *)
Definition tokenPollUpdater (pollInterval : Z) (now : Time) (old : DeviceToken.t)
  : M (DeviceToken.t * option error) :=
  ret (DeviceToken.mk (DeviceToken.DeviceCode old) (DeviceToken.Status old)
         (DeviceToken.Token old) (DeviceToken.Expiry old) now pollInterval,
       None).

(** D5, [POST /device/token] *)
Definition handleDeviceToken (r : Request) : M unit :=
  emit (HeaderSet "Content-Type" "application/json") ;;
  if (Method r =? MethodPost)%string then
    match ParseFormErr r with
    | Some err =>
        let message := "Could not parse Device Token Request body" in
        logf LWarn "%s : %v" (Some err) ;;
        tokenErrHelper errInvalidRequest message StatusBadRequest
    | None =>
        let deviceCode := Values.Get (Form r) "device_code" in
        if (deviceCode =? "")%string then
          let message := "No device code received" in
          tokenErrHelper errInvalidRequest message StatusBadRequest
        else
          let grantType := Values.Get (PostForm r) "grant_type" in
          if negb (grantType =? grantTypeDeviceCode)%string then
            tokenErrHelper errInvalidGrant
              "Unsupported grant type.  Must be device_code" StatusBadRequest
          else
            now <- now ;;
            '(deviceToken, err) <- Store.GetDeviceToken deviceCode ;;
            if not_nil err || After now (DeviceToken.Expiry deviceToken) then
              if not_ErrNotFound err then
                logf LError "failed to get device code: %v" err ;;
                tokenErrHelper errServerError "Device code not found"
                  StatusInternalServerError
              else
                tokenErrHelper deviceTokenExpired
                  "Invalid or expired device code parameter." StatusBadRequest
            else
              let pollInterval := DeviceToken.PollIntervalSeconds deviceToken in
              let minRequestTime :=
                Add (DeviceToken.LastRequestTime deviceToken) (seconds pollInterval) in
              pollInterval <-
                (if Before now minRequestTime then
                   tokenErrHelper deviceTokenSlowDown "" StatusBadRequest ;;
                   ret (GoInt.add pollInterval 5)
                 else ret 5) ;;
              if (DeviceToken.Status deviceToken =? deviceTokenPending)%string then
                err <- Store.UpdateDeviceToken deviceCode
                         (tokenPollUpdater pollInterval now) ;;
                match err with
                | Some e =>
                    logf LError "failed to update device token: %v" (Some e) ;;
                    renderError StatusInternalServerError ""
                | None =>
                    tokenErrHelper deviceTokenPending "" StatusUnauthorized
                end
              else if (DeviceToken.Status deviceToken =? deviceTokenComplete)%string then
                emit (Write (DeviceToken.Token deviceToken))
              else ret tt
    end
  else
    renderError StatusBadRequest "Requested resource does not exist.".

(** The closure that D4 hands to [UpdateDeviceToken]. *)
Definition tokenCompleteUpdater (resp : Resp) (old : DeviceToken.t)
  : M (DeviceToken.t * option error) :=
  if (DeviceToken.Status old =? deviceTokenComplete)%string then
    ret (old, Some (ErrOther "device token already complete"))
  else
    let '(respStr, err) := json_MarshalIndent env resp "" "  " in
    match err with
    | Some e =>
        logf LError "failed to marshal device token response: %v" (Some e) ;;
        renderError StatusInternalServerError "" ;;
        ret (old, Some e)
    | None =>
        ret (DeviceToken.mk (DeviceToken.DeviceCode old) deviceTokenComplete
               respStr (DeviceToken.Expiry old) (DeviceToken.LastRequestTime old)
               (DeviceToken.PollIntervalSeconds old),
             None)
    end.

(** The last two steps of D4: the conditional update of the device token
    and the success page. *)
Definition attachDeviceToken (deviceReq : DeviceRequest.t) (reqClient : Client.t)
    (resp : Resp) : M unit :=
  err <- Store.UpdateDeviceToken (DeviceRequest.DeviceCode deviceReq)
           (tokenCompleteUpdater resp) ;;
  match err with
  | Some e =>
      logf LError "failed to update device token: %v" (Some e) ;;
      renderError StatusInternalServerError ""
  | None =>
      err <- templates_deviceSuccess (Client.Name reqClient) ;;
      log_template_error err
  end.

Definition log_unless_not_found (format : string) (err : option error) : M unit :=
  if not_ErrNotFound err then logf LError format err else ret tt.

(** D4, [GET /device/callback] *)
Definition handleDeviceCallback (r : Request) : M unit :=
  if (Method r =? MethodGet)%string then
    let userCode := Values.Get (Form r) "state" in
    let code := Values.Get (Form r) "code" in
    if (userCode =? "")%string || (code =? "")%string then
      renderError StatusBadRequest "Request was missing parameters"
    else
      let errMsg := Values.Get (Form r) "error" in
      if negb (errMsg =? "")%string then
        emit (HttpError (errMsg ++ ": " ++ Values.Get (Form r) "error_description")
                StatusBadRequest)
      else
        '(authCode, err) <- Store.GetAuthCode code ;;
        bad <- failed_or_expired err (AuthCode.Expiry authCode) ;;
        if bad then
          log_unless_not_found "failed to get auth code: %v" err ;;
          renderError StatusBadRequest "Invalid or expired auth code."
        else
          '(deviceReq, err) <- Store.GetDeviceRequest userCode ;;
          bad <- failed_or_expired err (DeviceRequest.Expiry deviceReq) ;;
          if bad then
            log_unless_not_found "failed to get device code: %v" err ;;
            renderError StatusInternalServerError "Invalid or expired device code."
          else
            '(reqClient, err) <- Store.GetClient (DeviceRequest.ClientID deviceReq) ;;
            if not_nil err then
              logf LError "Failed to get reqClient %q: %v" err ;;
              renderError StatusInternalServerError "Failed to retrieve device client."
            else
              '(resp, err) <- exchangeAuthCode env authCode reqClient ;;
              if not_nil err then
                logf LError "Could not exchange auth code for client %q: %v" err ;;
                renderError StatusInternalServerError "Failed to exchange auth code."
              else
                '(old, err) <- Store.GetDeviceToken (DeviceRequest.DeviceCode deviceReq) ;;
                bad <- failed_or_expired err (DeviceToken.Expiry old) ;;
                if bad then
                  log_unless_not_found "failed to get device token: %v" err ;;
                  renderError StatusInternalServerError "Invalid or expired device code."
                else
                  attachDeviceToken deviceReq reqClient resp
  else
    emit (HttpError ("method not implemented: " ++ Method r) StatusBadRequest).

(** The query of the redirect that D3 builds on the parsed [/auth] URL. *)
Definition authQuery (deviceRequest : DeviceRequest.t) (q : Values.t) : Values.t :=
  let q := Values.Set_ "client_id" (DeviceRequest.ClientID deviceRequest) q in
  let q := Values.Set_ "state" (DeviceRequest.UserCode deviceRequest) q in
  let q := Values.Set_ "response_type" "code" q in
  let q := Values.Set_ "redirect_uri"
             (path_Join env [URL.Path (issuerURL s); "/device/callback"]) q in
  Values.Set_ "scope" (GoStrings.Join (DeviceRequest.Scopes deviceRequest) " ") q.

(** D3, [POST /device/auth/verify_code] *)
Definition verifyUserCode (r : Request) : M unit :=
  if (Method r =? MethodPost)%string then
    match ParseFormErr r with
    | Some err =>
        let message := "Could not parse user code verification Request body" in
        logf LWarn "%s : %v" (Some err) ;;
        tokenErrHelper errInvalidRequest message StatusBadRequest
    | None =>
        let userCode := Values.Get (Form r) "user_code" in
        if (userCode =? "")%string then
          renderError StatusBadRequest "No user code received"
        else
          let userCode := GoStrings.ToUpper (unicode_upper env) userCode in
          '(deviceRequest, err) <- Store.GetDeviceRequest userCode ;;
          bad <- failed_or_expired err (DeviceRequest.Expiry deviceRequest) ;;
          if bad then
            (if not_ErrNotFound err then
               logf LError "failed to get device request: %v" err ;;
               tokenErrHelper errServerError "" StatusInternalServerError
             else ret tt) ;;
            err <- templates_device getDeviceAuthURI userCode true ;;
            log_template_error err
          else
            let authURL := path_Join env [URL.Path (issuerURL s); "/auth"] in
            let '(u, err) := url_Parse env authURL in
            if not_nil err then
              renderError StatusInternalServerError "Invalid auth URI."
            else
              let q := URL_Query env u in
              let q := authQuery deviceRequest q in
              let u := URL.with_RawQuery (Values_Encode env q) u in
              emit (HttpRedirect (URL_String env u) StatusFound)
    end
  else
    renderError StatusBadRequest "Requested resource does not exist.".

End DeviceHandlers.

(** ** What the client receives *)

(** Modelled from the spec: [net/http] and the helpers of the server package
    are not among the sources. The status line of a response is fixed by the
    first call that writes to the [http.ResponseWriter]: the helpers send
    the status they are given (sections 4.D and 6), a body written before
    any status is sent with status 200; setting a header sends nothing. *)
Definition eventStatus (e : Event) : option Z :=
  match e with
  | HeaderSet _ _ | HeaderAdd _ _ => None
  | TokenErr _ _ status => Some status
  | RenderError status _ => Some status
  | HttpError _ status => Some status
  | HttpRedirect _ status => Some status
  | TemplateDevice _ _ _ | TemplateDeviceSuccess _ | Write _ => Some StatusOK
  end.

Fixpoint responseStatus (evs : list Event) : option Z :=
  match evs with
  | [] => None
  | e :: rest =>
      match eventStatus e with
      | Some status => Some status
      | None => responseStatus rest
      end
  end.

(** The calls that a computation adds to the response of a world whose
    response is still empty. *)
Definition response {A} (m : M A) (w : World) : list Event :=
  resp (exec m (mkWorld (store w) (clock w) (ticks w) [] (logs w))).

(** ** The server: D1 ([handleDeviceCode]) *)

Module DeviceCodeResponse.
(** [deviceCodeResponse] *)
Record t : Type := mk {
  DeviceCode : string;
  UserCode : string;
  VerificationURI : string;
  VerificationURIComplete : string;
  ExpireTime : Z;
  PollInterval : Z }.
End DeviceCodeResponse.

(** What D1 draws from outside the world: the codes that
    [storage.NewDeviceCode()] and [storage.NewUserCode()] return and the two
    readings of [time.Now()], in the order of the calls. *)
Module Drawn.
Record t : Type := mk {
  NewDeviceCode : string;
  NewUserCode : string;
  Now1 : Time;
  Now2 : Time }.
End Drawn.

(** [u.Path = path] *)
Definition URL_with_Path (path : string) (u : URL.t) : URL.t :=
  URL.mk (URL.Scheme u) (URL.Host u) path (URL.RawQuery u).

Section DeviceCode.
Context {Resp : Type} (env : Env Resp) (s : Server).
(** [json.NewEncoder(w)] with [SetIndent("", "   ")], and the text of an
    error under [%v]. *)
Context (encodeJSON : DeviceCodeResponse.t -> string).
Context (errorText : error -> string).

(** D1, [POST /device/code] *)
Definition handleDeviceCode (drawn : Drawn.t) (r : Request) : M unit :=
  let pollIntervalSeconds := 5 in
  if (Method r =? MethodPost)%string then
    match ParseFormErr r with
    | Some err =>
        let message := "Could not parse Device Request body: " ++ errorText err in
        logf LError message None ;;
        tokenErrHelper errInvalidRequest message StatusBadRequest
    | None =>
        let clientID := Values.Get (Form r) "client_id" in
        let scopes := default [] (Form r !! "scope") in
        logf LInfo "Received device request for client %v with scopes %v" None ;;
        let deviceCode := Drawn.NewDeviceCode drawn in
        let userCode := Drawn.NewUserCode drawn in
        let expireTime := Add (Drawn.Now1 drawn) (deviceRequestsValidFor s) in
        let deviceReq :=
          DeviceRequest.mk userCode deviceCode clientID scopes expireTime in
        err <- Store.CreateDeviceRequest deviceReq ;;
        match err with
        | Some e =>
            logf LError "Failed to store device request; %v" (Some e) ;;
            tokenErrHelper errServerError "Could not create device request"
              StatusInternalServerError
        | None =>
            let deviceToken :=
              DeviceToken.mk deviceCode deviceTokenPending "" expireTime
                (Drawn.Now2 drawn) 5 in
            err <- Store.CreateDeviceToken deviceToken ;;
            match err with
            | Some e =>
                logf LError "Failed to store device token %v" (Some e) ;;
                tokenErrHelper errServerError "Could not create device token"
                  StatusInternalServerError
            | None =>
                let '(u, err) := url_Parse env (URL_String env (issuerURL s)) in
                if not_nil err then
                  logf LError "Could not parse issuer URL %v" err ;;
                  renderError StatusInternalServerError ""
                else
                  let u := URL_with_Path (path_Join env [URL.Path u; "device"]) u in
                  let vURI := URL_String env u in
                  let q := URL_Query env u in
                  let q := Values.Set_ "user_code" userCode q in
                  let u := URL.with_RawQuery (Values_Encode env q) u in
                  let vURIComplete := URL_String env u in
                  let code :=
                    DeviceCodeResponse.mk deviceCode userCode vURI vURIComplete
                      (GoInt.wrap64 (Duration_Seconds env (deviceRequestsValidFor s)))
                      pollIntervalSeconds in
                  emit (Write (encodeJSON code))
            end
        end
    end
  else
    renderError StatusBadRequest "Invalid device code request type" ;;
    tokenErrHelper errInvalidRequest "Invalid device code request type"
      StatusBadRequest.

(** [s.NewLimiter(requestInterval, expireInterval, backoff)]: the storage,
    the logger and the clock of the server are those of the world. *)
Definition NewLimiter (requestInterval expireInterval : Duration) (backoff : bool)
  : Limiter.RequestLimiter :=
  Limiter.NewRequestLimiter requestInterval expireInterval backoff.

End DeviceCode.

(** * Vocabulary of the properties *)

(** ** D5 *)

(** Requests that pass the validation of D5. *)
Record validTokenRequest (r : Request) (deviceCode : string) : Prop := {
  vt_method : Method r = MethodPost;
  vt_parsed : ParseFormErr r = None;
  vt_code : Values.Get (Form r) "device_code" = deviceCode;
  vt_code_given : deviceCode <> "";
  vt_grant : Values.Get (PostForm r) "grant_type" = grantTypeDeviceCode }.

(** The rate check of D5 on a stored token, at the instant [t]. *)
Definition tooFast (t : Time) (tok : DeviceToken.t) : bool :=
  Before t (Add (DeviceToken.LastRequestTime tok)
              (seconds (DeviceToken.PollIntervalSeconds tok))).

Definition prospectiveInterval (t : Time) (tok : DeviceToken.t) : Z :=
  if tooFast t tok then GoInt.add (DeviceToken.PollIntervalSeconds tok) 5 else 5.

Definition slowDown (t : Time) (tok : DeviceToken.t) : list Event :=
  if tooFast t tok then [TokenErr deviceTokenSlowDown "" StatusBadRequest] else [].

(** The record that the pending branch stores. *)
Definition polled (t : Time) (tok : DeviceToken.t) : DeviceToken.t :=
  DeviceToken.mk (DeviceToken.DeviceCode tok) (DeviceToken.Status tok)
    (DeviceToken.Token tok) (DeviceToken.Expiry tok) t (prospectiveInterval t tok).

Definition contentTypeJSON : Event := HeaderSet "Content-Type" "application/json".

(** The world after a poll of a live token. *)
Definition polledWorld (code : string) (tok : DeviceToken.t) (w : World) : World :=
  let t := clock w (ticks w) in
  mkWorld
    (if (DeviceToken.Status tok =? deviceTokenPending)%string
     then Store.put_deviceTokens
            (<[code := polled t tok]> (deviceTokens (store w))) (store w)
     else store w)
    (clock w) (S (ticks w))
    (resp w ++ [contentTypeJSON] ++ slowDown t tok ++
       (if (DeviceToken.Status tok =? deviceTokenPending)%string
        then [TokenErr deviceTokenPending "" StatusUnauthorized]
        else if (DeviceToken.Status tok =? deviceTokenComplete)%string
        then [Write (DeviceToken.Token tok)]
        else []))
    (logs w).

(** ** D3 *)

(** Requests that pass the validation of D3. *)
Record validVerifyRequest (r : Request) (userCode : string) : Prop := {
  vv_method : Method r = MethodPost;
  vv_parsed : ParseFormErr r = None;
  vv_code : Values.Get (Form r) "user_code" = userCode;
  vv_code_given : userCode <> "" }.

(** The [redirect_uri] in the words of the specification: the issuer
    followed by [/device/callback]. *)
Definition claimedRedirectURI {Resp} (env : Env Resp) (s : Server) : string :=
  URL_String env (issuerURL s) ++ "/device/callback".

(** The line logged when the rendering of a page fails. *)
Definition templateLog {Resp} (env : Env Resp) (page : Event) : list LogLine :=
  match template_err env page with
  | Some e => [Logged LError "Server template error: %v" (Some e)]
  | None => []
  end.

(** Lowercase spelling of a code, byte by byte, and the codes that have no
    lowercase letter and no byte outside ASCII. *)
Definition is_upper (c : ascii) : bool :=
  ((65 <=? N_of_ascii c) && (N_of_ascii c <=? 90))%N.
Definition lower_byte (c : ascii) : ascii :=
  if is_upper c then ascii_of_N (N_of_ascii c + 32) else c.
Definition lowercased (code : string) : string :=
  GoStrings.map_bytes lower_byte code.
Definition uppercaseCode (code : string) : bool :=
  GoStrings.all_bytes
    (fun c => GoStrings.is_ascii_byte c && negb (GoStrings.is_lower c)) code.

(** ** D4 and the life of a device token *)

(** The record that a successful D4 stores. *)
Definition completed (body : string) (tok : DeviceToken.t) : DeviceToken.t :=
  DeviceToken.mk (DeviceToken.DeviceCode tok) deviceTokenComplete body
    (DeviceToken.Expiry tok) (DeviceToken.LastRequestTime tok)
    (DeviceToken.PollIntervalSeconds tok).

Definition alreadyComplete : error := ErrOther "device token already complete".

(** The requests of the device flow that the server handles, one after the
    other, each on the world the previous one left; the clock and the
    response of the next request are free. D1 ([handleDeviceCode]) reaches
    the storage through [CreateDeviceRequest] and [CreateDeviceToken] only:
    its steps are these two calls, on any record. *)
Inductive Step {Resp} (env : Env Resp) (s : Server) : World -> World -> Prop :=
| step_poll r w :
    Step env s w (snd (handleDeviceToken r w))
| step_callback r w :
    Step env s w (snd (handleDeviceCallback env r w))
| step_verify r w :
    Step env s w (snd (verifyUserCode env s r w))
| step_page r w :
    Step env s w (snd (handleDeviceExchange env s r w))
| step_create_request d w :
    Step env s w (snd (Store.CreateDeviceRequest d w))
| step_create_token tok w :
    Step env s w (snd (Store.CreateDeviceToken tok w))
| step_env w clk n evs lines :
    Step env s w (mkWorld (store w) clk n evs lines).

Inductive Steps {Resp} (env : Env Resp) (s : Server) : World -> World -> Prop :=
| steps_nil w : Steps env s w w
| steps_cons w1 w2 w3 : Step env s w1 w2 -> Steps env s w2 w3 -> Steps env s w1 w3.

(** The token exchange does not touch the table of device tokens. *)
Definition exchangeKeepsTokens {Resp} (env : Env Resp) : Prop :=
  forall a c w,
    deviceTokens (store (snd (exchangeAuthCode env a c w))) = deviceTokens (store w).

(** What a step may do to the table of device tokens: nothing, or add a
    record under a key that is free, or rewrite the polling fields of one
    record, or complete one record that was not complete. *)
Inductive tokensChange (m m' : gmap string DeviceToken.t) : Prop :=
| tokens_same : m' = m -> tokensChange m m'
| tokens_created code tok :
    m !! code = None -> m' = <[code := tok]> m -> tokensChange m m'
| tokens_polled code tok t p :
    m !! code = Some tok ->
    m' = <[code := DeviceToken.mk (DeviceToken.DeviceCode tok) (DeviceToken.Status tok)
                     (DeviceToken.Token tok) (DeviceToken.Expiry tok) t p]> m ->
    tokensChange m m'
| tokens_completed code tok body :
    m !! code = Some tok ->
    DeviceToken.Status tok <> deviceTokenComplete ->
    m' = <[code := completed body tok]> m ->
    tokensChange m m'.

(** ** The request limiter and the middleware *)

(** [is_limited] of a record at the instant [t]. *)
Definition limitedAt (t : Time) (r : RequestLimit.t) : bool :=
  Before t (Add (RequestLimit.LastSeen r) (GoInt.mul (RequestLimit.Interval r) Second)).

(** The record by which [UpdateRequest] replaces the stored record [limit]
    in the world [w]: the clock is read three times, for the limit check,
    for [LastSeen] and for [Expiry]. *)
Definition advanced {Resp} (env : Env Resp) (l : Limiter.RequestLimiter)
    (w : World) (limit : RequestLimit.t) : RequestLimit.t :=
  RequestLimit.mk (RequestLimit.Key limit)
    (if limitedAt (clock w (ticks w)) limit && Limiter.backoff l
     then GoInt.add (RequestLimit.Interval limit) (Limiter.baseSeconds env l)
     else Limiter.baseSeconds env l)
    (clock w (1 + ticks w)%nat)
    (Add (clock w (2 + ticks w)%nat) (Limiter.defaultExpireTime l)).

(** The world after [n] more readings of the clock. *)
Definition tick (n : nat) (w : World) : World :=
  mkWorld (store w) (clock w) (n + ticks w) (resp w) (logs w).

Definition storeLimit (key : string) (r : RequestLimit.t) (w : World) : World :=
  mkWorld
    (Store.put_requestLimits (<[key := r]> (requestLimits (store w))) (store w))
    (clock w) (ticks w) (resp w) (logs w).

(** Updates of the record of [key] that each find the stored record
    limited, with anything in between that leaves that record and the
    availability of the storage alone. *)
Inductive LimitedUpdates {Resp} (env : Env Resp) (l : Limiter.RequestLimiter)
    (key : string) : nat -> World -> World -> Prop :=
| limited_none w : LimitedUpdates env l key 0 w w
| limited_update n w w1 limit req :
    LimitedUpdates env l key n w w1 ->
    requestLimits (store w1) !! key = Some limit ->
    RequestLimit.Key req = key ->
    limitedAt (clock w1 (ticks w1)) limit = true ->
    LimitedUpdates env l key (S n) w (snd (Limiter.UpdateRequest env l req w1))
| limited_between n w w1 w2 :
    LimitedUpdates env l key n w w1 ->
    requestLimits (store w2) !! key = requestLimits (store w1) !! key ->
    fault (store w2) = fault (store w1) ->
    LimitedUpdates env l key n w w2.

(** The key under which the middleware files a request, the headers it
    adds, and the world after more calls on the response. *)
Definition requestKey {Resp} (env : Env Resp) (r : Request) : string :=
  GoStrings.Join [Method r; GetIP env r; URLPath r] "-".

Definition rateHeaders (r : Request) : list Event :=
  [HeaderAdd "X-Rate-Limit-Duration" "1";
   HeaderAdd "X-Rate-Limit-Request-Forwarded-For"
     (Values.Get (Header r) "X-Forwarded-For");
   HeaderAdd "X-Rate-Limit-Request-Remote-Addr" (RemoteAddr r)].

Definition respond (evs : list Event) (w : World) : World :=
  mkWorld (store w) (clock w) (ticks w) (resp w ++ evs) (logs w).

(** The record that [GetLastRequest] creates for a key it does not know. *)
Definition firstVisit (l : Limiter.RequestLimiter) (key : string) (w : World)
  : RequestLimit.t :=
  RequestLimit.mk key 0 (clock w (ticks w))
    (Add (clock w (1 + ticks w)%nat) (Limiter.defaultExpireTime l)).

(** ** More of D5 *)

(** The answer of D5 to a request that fails its validation, in the order
    of the checks. *)
Definition invalidTokenRequest (r : Request) : Prop :=
  Method r <> MethodPost \/ ParseFormErr r <> None \/
  Values.Get (Form r) "device_code" = "" \/
  Values.Get (PostForm r) "grant_type" <> grantTypeDeviceCode.

Definition tokenRequestError (r : Request) : Event :=
  if negb (Method r =? MethodPost)%string then
    RenderError StatusBadRequest "Requested resource does not exist."
  else if not_nil (ParseFormErr r) then
    TokenErr errInvalidRequest "Could not parse Device Token Request body"
      StatusBadRequest
  else if (Values.Get (Form r) "device_code" =? "")%string then
    TokenErr errInvalidRequest "No device code received" StatusBadRequest
  else
    TokenErr errInvalidGrant "Unsupported grant type.  Must be device_code"
      StatusBadRequest.

(** The requests of a list, served one after the other. *)
Fixpoint serveAll (h : Request -> M unit) (rs : list Request) : M unit :=
  match rs with
  | [] => ret tt
  | r :: rest => h r ;; serveAll h rest
  end.

(** Polls of the token of [code] that each come before
    [last_request_time + poll_interval_seconds] of the pending record they
    find, with anything in between that leaves that record and the
    availability of the storage alone. *)
Inductive EarlyPolls (code : string) : nat -> World -> World -> Prop :=
| early_none w : EarlyPolls code 0 w w
| early_poll n w w1 r tok :
    EarlyPolls code n w w1 ->
    validTokenRequest r code ->
    deviceTokens (store w1) !! code = Some tok ->
    DeviceToken.Status tok = deviceTokenPending ->
    After (clock w1 (ticks w1)) (DeviceToken.Expiry tok) = false ->
    tooFast (clock w1 (ticks w1)) tok = true ->
    EarlyPolls code (S n) w (snd (handleDeviceToken r w1))
| early_between n w w1 w2 :
    EarlyPolls code n w w1 ->
    deviceTokens (store w2) !! code = deviceTokens (store w1) !! code ->
    fault (store w2) = fault (store w1) ->
    EarlyPolls code n w w2.

(** ** More of D4 *)

(** The answer of D4 to a request that fails its validation, in the order
    of the checks; [None] for a request that passes. *)
Definition callbackRequestError (r : Request) : option Event :=
  if negb (Method r =? MethodGet)%string then
    Some (HttpError ("method not implemented: " ++ Method r) StatusBadRequest)
  else if (Values.Get (Form r) "state" =? "")%string
          || (Values.Get (Form r) "code" =? "")%string then
    Some (RenderError StatusBadRequest "Request was missing parameters")
  else if negb (Values.Get (Form r) "error" =? "")%string then
    Some (HttpError (Values.Get (Form r) "error" ++ ": " ++
                     Values.Get (Form r) "error_description") StatusBadRequest)
  else None.

(** The answer of D4 when one of the lookups that come before the token
    exchange fails, in the order of the lookups; [None] when the auth code,
    the device request and the client are found and nothing is expired. *)
Definition callbackLookupError (r : Request) (w : World) : option Event :=
  let badCode := RenderError StatusBadRequest "Invalid or expired auth code." in
  let badRequest :=
    RenderError StatusInternalServerError "Invalid or expired device code." in
  match fault (store w) with
  | Some _ => Some badCode
  | None =>
      match authCodes (store w) !! Values.Get (Form r) "code" with
      | None => Some badCode
      | Some a =>
          if After (clock w (ticks w)) (AuthCode.Expiry a) then Some badCode
          else
            match deviceRequests (store w) !! Values.Get (Form r) "state" with
            | None => Some badRequest
            | Some d =>
                if After (clock w (1 + ticks w)%nat) (DeviceRequest.Expiry d)
                then Some badRequest
                else
                  match clients (store w) !! DeviceRequest.ClientID d with
                  | None =>
                      Some (RenderError StatusInternalServerError
                              "Failed to retrieve device client.")
                  | Some _ => None
                  end
            end
      end
  end.

(** A callback whose auth code [a], device request [d] and client [c] are
    found and not expired. *)
Record callbackFound (r : Request) (w : World)
    (a : AuthCode.t) (d : DeviceRequest.t) (c : Client.t) : Prop := {
  cf_valid : callbackRequestError r = None;
  cf_store : fault (store w) = None;
  cf_code : authCodes (store w) !! Values.Get (Form r) "code" = Some a;
  cf_code_live : After (clock w (ticks w)) (AuthCode.Expiry a) = false;
  cf_request : deviceRequests (store w) !! Values.Get (Form r) "state" = Some d;
  cf_request_live :
    After (clock w (1 + ticks w)%nat) (DeviceRequest.Expiry d) = false;
  cf_client : clients (store w) !! DeviceRequest.ClientID d = Some c }.

(** A callback that reaches the conditional update of the device token: its
    lookups succeed, the token exchange answers [tr] without error and
    leaves the world [w2], and there the device token [tok] of the device
    request is found and not expired. *)
Record reachesUpdate {Resp} (env : Env Resp) (r : Request) (w : World)
    (a : AuthCode.t) (d : DeviceRequest.t) (c : Client.t)
    (tr : Resp) (w2 : World) (tok : DeviceToken.t) : Prop := {
  ru_found : callbackFound r w a d c;
  ru_exchange : exchangeAuthCode env a c (tick 2 w) = ((tr, None), w2);
  ru_store : fault (store w2) = None;
  ru_token : deviceTokens (store w2) !! DeviceRequest.DeviceCode d = Some tok;
  ru_token_live : After (clock w2 (ticks w2)) (DeviceToken.Expiry tok) = false }.

(** ** More of D2 and D3 *)

(** The answer of D3 to a request that fails its validation, in the order
    of the checks; [None] for a request that passes. *)
Definition verifyRequestError (r : Request) : option Event :=
  if negb (Method r =? MethodPost)%string then
    Some (RenderError StatusBadRequest "Requested resource does not exist.")
  else if not_nil (ParseFormErr r) then
    Some (TokenErr errInvalidRequest
            "Could not parse user code verification Request body" StatusBadRequest)
  else if (Values.Get (Form r) "user_code" =? "")%string then
    Some (RenderError StatusBadRequest "No user code received")
  else None.

(** The spellings that [strconv.ParseBool] reads as true. *)
Definition spellsTrue (str : string) : Prop :=
  In str ["1"; "t"; "T"; "TRUE"; "true"; "True"].

(** ** More of the limiter and of the middleware *)

(** The table of request limits files every record under its [Key]. *)
Definition limitsKeyed (st : Storage) : Prop :=
  forall k r, requestLimits st !! k = Some r -> RequestLimit.Key r = k.

(** Strings without the separator of the request key. *)
Definition noDash (str : string) : bool :=
  GoStrings.all_bytes (fun c => negb (Ascii.eqb c "-"%char)) str.

(** The intervals, in seconds, whose count of nanoseconds fits 64 bits. *)
Definition intervalFits (n : Z) : Prop := - 9223372036 <= n <= 9223372036.

(** ** D1 *)

(** The records that D1 creates for what it drew and what the form holds. *)
Definition requestCreated (s : Server) (drawn : Drawn.t) (r : Request)
  : DeviceRequest.t :=
  DeviceRequest.mk (Drawn.NewUserCode drawn) (Drawn.NewDeviceCode drawn)
    (Values.Get (Form r) "client_id") (default [] (Form r !! "scope"))
    (Add (Drawn.Now1 drawn) (deviceRequestsValidFor s)).

Definition tokenCreated (s : Server) (drawn : Drawn.t) : DeviceToken.t :=
  DeviceToken.mk (Drawn.NewDeviceCode drawn) deviceTokenPending ""
    (Add (Drawn.Now1 drawn) (deviceRequestsValidFor s)) (Drawn.Now2 drawn) 5.

(** A D1 request that parses, on an available storage in which the codes
    drawn are free. *)
Record deviceCodeFresh (drawn : Drawn.t) (r : Request) (w : World) : Prop := {
  dc_method : Method r = MethodPost;
  dc_parsed : ParseFormErr r = None;
  dc_store : fault (store w) = None;
  dc_user_code : deviceRequests (store w) !! Drawn.NewUserCode drawn = None;
  dc_device_code : deviceTokens (store w) !! Drawn.NewDeviceCode drawn = None }.

(** * Concrete instances *)

(** An environment, a server and worlds on which the handlers evaluate. The
    library functions are replaced by doubles that agree with them on the
    inputs used here: clean path elements, whole seconds, ASCII codes. *)
Module Fixture.

(** [url.QueryEscape]: letters, digits, [-], [_], [.] and [~] are kept, a
    space becomes [+] and any other byte [%XX] in uppercase hexadecimal. *)
Definition unreserved (c : ascii) : bool :=
  let n := N_of_ascii c in
  ((48 <=? n) && (n <=? 57) || (65 <=? n) && (n <=? 90)
   || (97 <=? n) && (n <=? 122)
   || (n =? 45) || (n =? 95) || (n =? 46) || (n =? 126))%N.

Definition hexDigit (n : N) : ascii :=
  match String.get (N.to_nat n) "0123456789ABCDEF" with
  | Some c => c
  | None => "0"%char
  end.

Fixpoint QueryEscape (str : string) : string :=
  match str with
  | EmptyString => EmptyString
  | String c rest =>
      if unreserved c then String c (QueryEscape rest)
      else if Ascii.eqb c " " then String "+" (QueryEscape rest)
      else String "%" (String (hexDigit (N_of_ascii c / 16))
                         (String (hexDigit (N_of_ascii c mod 16))
                            (QueryEscape rest)))
  end.

(** [url.Values.Encode]: the keys in byte order, each value of a key as
    [key=value] with both escaped, joined by [&]. *)
Fixpoint insertKey (kv : string * list string) (l : list (string * list string))
  : list (string * list string) :=
  match l with
  | [] => [kv]
  | kv' :: rest =>
      if String.leb (fst kv) (fst kv') then kv :: l else kv' :: insertKey kv rest
  end.

Definition sortedKeys (q : Values.t) : list (string * list string) :=
  fold_right insertKey [] (map_to_list q).

Definition encode (q : Values.t) : string :=
  String.concat "&"
    (flat_map (fun kv => map (fun v => QueryEscape (fst kv) ++ "=" ++ QueryEscape v)
                           (snd kv))
       (sortedKeys q)).

Definition env : Env string := {|
  unicode_upper := fun str => str;
  path_Join := fun elems => String.concat "" elems;
  url_Parse := fun raw => (URL.mk "" "" raw "", None);
  URL_Query := fun _ => empty;
  Values_Encode := encode;
  URL_String := fun u => URL.Path u ++ "?" ++ URL.RawQuery u;
  json_MarshalIndent := fun resp _ _ => (resp, None);
  Duration_Seconds := fun d => Z.quot d Second;
  exchangeAuthCode := fun a _ => ret ("token for " ++ AuthCode.ID a, None);
  GetIP := RemoteAddr;
  template_err := fun _ => None |}.

Definition server : Server :=
  mkServer (URL.mk "https" "dex.example.com" "/dex" "") (600 * Second).

(** A clock that returns the listed instants, then stays at the last. *)
Definition clockOf (readings : list Time) : nat -> Time :=
  fun n => List.nth n readings (List.last readings 0).

Definition sec (n : Z) : Time := n * Second.

Definition world (st : Storage) (readings : list Time) : World :=
  mkWorld st (clockOf readings) 0 [] [].

Definition emptyStorage : Storage := mkStorage empty empty empty empty empty None.

(** The records that D1 stores at instant 0 for a validity of 600 s. *)
Definition request1 : DeviceRequest.t :=
  DeviceRequest.mk "BCDFGHJK" "dev1" "c1" ["openid"; "email"] (sec 600).
Definition pending1 : DeviceToken.t :=
  DeviceToken.mk "dev1" deviceTokenPending "" (sec 600) 0 5.
Definition complete1 : DeviceToken.t :=
  DeviceToken.mk "dev1" deviceTokenComplete "{token}" (sec 600) 0 5.

Definition storageWith (tok : DeviceToken.t) : Storage :=
  mkStorage {[ "BCDFGHJK" := request1 ]} {[ "dev1" := tok ]} empty
    {[ "ac1" := AuthCode.mk "ac1" (sec 300); "ac2" := AuthCode.mk "ac2" (sec 300) ]}
    {[ "c1" := Client.mk "c1" "Client One" ]} None.

Definition form (kvs : list (string * string)) : Values.t :=
  list_to_map (map (fun kv => (fst kv, [snd kv])) kvs).

Definition post (url : string) (kvs : list (string * string)) : Request :=
  mkRequest MethodPost url empty "10.0.0.1" empty None (form kvs) (form kvs).

Definition get_ (url : string) (kvs : list (string * string)) : Request :=
  mkRequest MethodGet url (form kvs) "10.0.0.1" empty None (form kvs) empty.

Definition pollRequest : Request :=
  post "/dex/device/token"
    [("device_code", "dev1"); ("grant_type", grantTypeDeviceCode)].

Definition verifyRequest : Request :=
  post "/dex/device/auth/verify_code" [("user_code", "bcdfghjk")].

Definition callbackRequest (code : string) : Request :=
  get_ "/dex/device/callback" [("state", "BCDFGHJK"); ("code", code)].

(** A limiter of base interval 5 s with backoff, and a rejection hook. *)
Definition limiter : Limiter.RequestLimiter :=
  Limiter.NewRequestLimiter (5 * Second) (60 * Second) true.

Definition tooManyRequests : Request -> Z -> M unit :=
  fun _ delaySeconds =>
    emit (HeaderSet "Retry-After" (pretty delaySeconds)) ;;
    emit (RenderError 429 "").

Definition pollKey : string := "POST-10.0.0.1-/dex/device/token".

Definition limit1 : RequestLimit.t := RequestLimit.mk pollKey 5 0 (sec 60).

Definition storageLimited : Storage :=
  mkStorage empty empty {[ pollKey := limit1 ]} empty empty None.

(** The wrapped handler of the middleware. *)
Definition next : Request -> M unit := handleDeviceToken.

(** A storage that is down, a form that did not parse, what D1 draws, and
    doubles of the encoder of D1 and of the text of an error. *)
Definition storageDown : Storage :=
  mkStorage empty empty empty empty empty (Some "connection refused").

Definition unparsed (r : Request) : Request :=
  mkRequest (Method r) (URLPath r) (URLQuery r) (RemoteAddr r) (Header r)
    (Some (ErrOther "invalid semicolon separator in query")) empty empty.

Definition codeRequest : Request :=
  post "/dex/device/code" [("client_id", "c1"); ("scope", "openid")].

Definition drawn1 : Drawn.t := Drawn.mk "dev1" "BCDFGHJK" 0 0.

Definition encodeJSON (c : DeviceCodeResponse.t) : string :=
  DeviceCodeResponse.DeviceCode c ++ " " ++ DeviceCodeResponse.UserCode c ++ " " ++
  DeviceCodeResponse.VerificationURIComplete c ++ " " ++
  pretty (DeviceCodeResponse.ExpireTime c) ++ " " ++
  pretty (DeviceCodeResponse.PollInterval c).

Definition errorText (e : error) : string :=
  match e with
  | ErrNotFound => "not found"
  | ErrAlreadyExists => "ID already exists"
  | ErrOther msg => msg
  end.

Definition D1 : Drawn.t -> Request -> M unit :=
  handleDeviceCode env server encodeJSON errorText.

(** An environment for D1, whose doubles of [path.Join], [url.Parse] and
    [u.String()] agree with the library on the issuer URL of [server]. *)
Definition joinPath (elems : list string) : string :=
  fold_left (fun acc e =>
               match e with
               | String "/" _ => acc ++ e
               | _ => acc ++ "/" ++ e
               end) elems "".

Definition urlString (u : URL.t) : string :=
  (if (URL.Scheme u =? "")%string then "" else URL.Scheme u ++ "://" ++ URL.Host u)
  ++ URL.Path u
  ++ (if (URL.RawQuery u =? "")%string then "" else "?" ++ URL.RawQuery u).

Definition env1 : Env string := {|
  unicode_upper := fun str => str;
  path_Join := joinPath;
  url_Parse := fun raw =>
    if (raw =? "https://dex.example.com/dex")%string
    then (URL.mk "https" "dex.example.com" "/dex" "", None)
    else (URL.mk "" "" raw "", None);
  URL_Query := fun _ => empty;
  Values_Encode := encode;
  URL_String := urlString;
  json_MarshalIndent := fun resp _ _ => (resp, None);
  Duration_Seconds := fun d => Z.quot d Second;
  exchangeAuthCode := fun a _ => ret ("token for " ++ AuthCode.ID a, None);
  GetIP := RemoteAddr;
  template_err := fun _ => None |}.

Definition D1' : Drawn.t -> Request -> M unit :=
  handleDeviceCode env1 server encodeJSON errorText.

Definition storageNoToken : Storage :=
  mkStorage {[ "BCDFGHJK" := request1 ]} empty empty
    {[ "ac1" := AuthCode.mk "ac1" (sec 300) ]}
    {[ "c1" := Client.mk "c1" "Client One" ]} None.

End Fixture.

(** * Properties *)

(** ** Evaluation of the monad *)

Ltac go_unfold :=
  unfold bind, ret, tokenErrHelper, renderError, emit, logf, now, with_store,
    failed_or_expired, log_unless_not_found, log_template_error.

Ltac go_run := go_unfold; cbn.

Ltac go_done := rewrite <- ?app_assoc; reflexivity.

(** ** Machine integers and form values *)

Lemma wrap64_range z : GoInt.in_int64 (GoInt.wrap64 z).
Proof.
  unfold GoInt.in_int64, GoInt.wrap64.
  pose proof (Z.mod_pos_bound (z + 2 ^ 63) (2 ^ 64) ltac:(lia)). lia.
Qed.

Lemma wrap64_id z : GoInt.in_int64 z -> GoInt.wrap64 z = z.
Proof.
  unfold GoInt.in_int64, GoInt.wrap64. intros Hz.
  rewrite Z.mod_small by lia. lia.
Qed.

Lemma wrap64_add_l a b : GoInt.wrap64 (GoInt.wrap64 a + b) = GoInt.wrap64 (a + b).
Proof.
  unfold GoInt.wrap64.
  replace (((a + 2 ^ 63) mod 2 ^ 64 - 2 ^ 63) + b + 2 ^ 63)
    with ((a + 2 ^ 63) mod 2 ^ 64 + b) by lia.
  rewrite Zplus_mod_idemp_l. f_equal. f_equal. lia.
Qed.

Lemma Get_Set_eq v k x : Values.Get (Values.Set_ k x v) k = x.
Proof. unfold Values.Get, Values.Set_. by rewrite lookup_insert_eq. Qed.

Lemma Get_Set_ne v k k' x : k <> k' -> Values.Get (Values.Set_ k x v) k' = Values.Get v k'.
Proof. intros Hne. unfold Values.Get, Values.Set_. by rewrite lookup_insert_ne. Qed.

(** ** D5: polling the device token *)

Section DeviceTokenProperties.
Context {Resp : Type} (env : Env Resp) (s : Server).

Lemma handleDeviceToken_not_found r code w :
  validTokenRequest r code ->
  fault (store w) = None ->
  deviceTokens (store w) !! code = None ->
  handleDeviceToken r w =
    (tt, mkWorld (store w) (clock w) (S (ticks w))
           (resp w ++ [contentTypeJSON;
                       TokenErr deviceTokenExpired
                         "Invalid or expired device code parameter."
                         StatusBadRequest])
           (logs w)).
Proof.
  intros [Hm Hp Hc Hne Hg] Hf Hk.
  unfold handleDeviceToken.
  rewrite Hm, Hp, Hc, Hg, (proj2 (String.eqb_neq _ _) Hne).
  unfold Store.GetDeviceToken, Store.get. go_run.
  rewrite Hf, Hk. cbn. go_done.
Qed.

Lemma handleDeviceToken_storage_error r code w msg :
  validTokenRequest r code ->
  fault (store w) = Some msg ->
  handleDeviceToken r w =
    (tt, mkWorld (store w) (clock w) (S (ticks w))
           (resp w ++ [contentTypeJSON;
                       TokenErr errServerError "Device code not found"
                         StatusInternalServerError])
           (logs w ++ [Logged LError "failed to get device code: %v"
                         (Some (ErrOther msg))])).
Proof.
  intros [Hm Hp Hc Hne Hg] Hf.
  unfold handleDeviceToken.
  rewrite Hm, Hp, Hc, Hg, (proj2 (String.eqb_neq _ _) Hne).
  unfold Store.GetDeviceToken, Store.get. go_run.
  rewrite Hf. cbn. go_done.
Qed.

(** A stored token whose expiry has passed is answered like a storage
    failure: the lookup returned no error, and no error is not
    [ErrNotFound]. *)
Lemma handleDeviceToken_expired r code w tok :
  validTokenRequest r code ->
  fault (store w) = None ->
  deviceTokens (store w) !! code = Some tok ->
  After (clock w (ticks w)) (DeviceToken.Expiry tok) = true ->
  handleDeviceToken r w =
    (tt, mkWorld (store w) (clock w) (S (ticks w))
           (resp w ++ [contentTypeJSON;
                       TokenErr errServerError "Device code not found"
                         StatusInternalServerError])
           (logs w ++ [Logged LError "failed to get device code: %v" None])).
Proof.
  intros [Hm Hp Hc Hne Hg] Hf Hk Hexp.
  unfold handleDeviceToken.
  rewrite Hm, Hp, Hc, Hg, (proj2 (String.eqb_neq _ _) Hne).
  unfold Store.GetDeviceToken, Store.get. go_run.
  rewrite Hf, Hk. cbn. rewrite Hexp. cbn. go_done.
Qed.

Lemma handleDeviceToken_live r code w tok :
  validTokenRequest r code ->
  fault (store w) = None ->
  deviceTokens (store w) !! code = Some tok ->
  After (clock w (ticks w)) (DeviceToken.Expiry tok) = false ->
  handleDeviceToken r w = (tt, polledWorld code tok w).
Proof.
  intros [Hm Hp Hc Hne Hg] Hf Hk Hexp.
  unfold handleDeviceToken, polledWorld.
  rewrite Hm, Hp, Hc, Hg, (proj2 (String.eqb_neq _ _) Hne).
  unfold Store.GetDeviceToken, Store.UpdateDeviceToken, Store.get, Store.update,
    tokenPollUpdater, slowDown, polled, prospectiveInterval, tooFast.
  go_run. rewrite Hf, Hk. cbn. rewrite Hexp. cbn.
  destruct (Before _ _); cbn;
    destruct (DeviceToken.Status tok =? deviceTokenPending)%string; cbn;
    rewrite ?Hf, ?Hk; cbn;
    try destruct (DeviceToken.Status tok =? deviceTokenComplete)%string; cbn;
    rewrite <- ?app_assoc; cbn; rewrite ?app_nil_r; reflexivity.
Qed.

End DeviceTokenProperties.

(** ** Claims on D5 *)

Section DeviceTokenClaims.
Context {Resp : Type} (env : Env Resp) (s : Server).

(** C4, as amended: a D5 call on a live pending token stores the token with
    [last_request_time] set to the current instant and with the prospective
    poll interval, also when the call is rejected with [slow_down]: the
    interval stored is then the old one raised by 5 seconds (64-bit
    addition), and 5 when the rate check passed. The storage is unchanged
    when the token is not pending: the poll interval is written on the
    pending branch only, whether or not the rate check passed. *)
Theorem slow_down_interval_persisted r code w tok :
  validTokenRequest r code ->
  fault (store w) = None ->
  deviceTokens (store w) !! code = Some tok ->
  After (clock w (ticks w)) (DeviceToken.Expiry tok) = false ->
  let t := clock w (ticks w) in
  let w' := snd (handleDeviceToken r w) in
  (tooFast t tok = true ->
   exists rest,
     resp w' = (resp w ++ contentTypeJSON ::
                  TokenErr deviceTokenSlowDown "" StatusBadRequest :: rest)%list) /\
  (DeviceToken.Status tok = deviceTokenPending ->
   deviceTokens (store w') !! code =
     Some (DeviceToken.mk (DeviceToken.DeviceCode tok) (DeviceToken.Status tok)
             (DeviceToken.Token tok) (DeviceToken.Expiry tok) t
             (if tooFast t tok
              then GoInt.add (DeviceToken.PollIntervalSeconds tok) 5
              else 5))) /\
  (DeviceToken.Status tok <> deviceTokenPending -> store w' = store w).
Proof.
  intros Hv Hf Hk Hlive t w'. subst t w'.
  rewrite (handleDeviceToken_live r code w tok Hv Hf Hk Hlive).
  unfold polledWorld, slowDown, polled, prospectiveInterval.
  cbn [snd resp store]. split; [|split].
  - intros ->. eexists; reflexivity.
  - intros Hst. rewrite Hst. cbn. by rewrite lookup_insert_eq.
  - intros Hst. by rewrite (proj2 (String.eqb_neq _ _) Hst).
Qed.

(** C5, as amended: every D5 call that reaches a live pending token stores
    the current instant as its [last_request_time], also when the call is
    rejected with [slow_down]; a call that reaches a live token that is not
    pending (a completed one) leaves the storage unchanged. *)
Theorem poll_advances_last_request_time r code w tok :
  validTokenRequest r code ->
  fault (store w) = None ->
  deviceTokens (store w) !! code = Some tok ->
  After (clock w (ticks w)) (DeviceToken.Expiry tok) = false ->
  let w' := snd (handleDeviceToken r w) in
  (DeviceToken.Status tok = deviceTokenPending ->
   DeviceToken.LastRequestTime <$> deviceTokens (store w') !! code =
     Some (clock w (ticks w))) /\
  (DeviceToken.Status tok <> deviceTokenPending -> store w' = store w).
Proof.
  intros Hv Hf Hk Hlive w'. subst w'.
  rewrite (handleDeviceToken_live r code w tok Hv Hf Hk Hlive).
  unfold polledWorld. cbn [snd store]. split.
  - intros Hst. rewrite Hst. cbn. by rewrite lookup_insert_eq.
  - intros Hst. by rewrite (proj2 (String.eqb_neq _ _) Hst).
Qed.

End DeviceTokenClaims.

(** ** D3: verification of the user code *)

Lemma upper_lower_byte c :
  GoStrings.is_ascii_byte c && negb (GoStrings.is_lower c) = true ->
  GoStrings.is_ascii_byte (lower_byte c) = true /\
  GoStrings.upper_byte (lower_byte c) = c.
Proof.
  destruct c as [[] [] [] [] [] [] [] []]; vm_compute; intros H;
    first [discriminate H | split; reflexivity].
Qed.

(** [strings.ToUpper] maps the lowercase spelling of an uppercase code back
    to the code. *)
Lemma ToUpper_lowercased (unicode_upper : string -> string) code :
  uppercaseCode code = true ->
  GoStrings.ToUpper unicode_upper (lowercased code) = code.
Proof.
  intros Hup. unfold GoStrings.ToUpper.
  assert (GoStrings.all_bytes GoStrings.is_ascii_byte (lowercased code) = true
          /\ GoStrings.map_bytes GoStrings.upper_byte (lowercased code) = code)
    as [-> ->]; [|reflexivity].
  unfold lowercased, uppercaseCode in *.
  induction code as [|c code IH]; [by split|].
  cbn [GoStrings.all_bytes] in Hup. apply andb_prop in Hup as [Hc Hrest].
  destruct (upper_lower_byte c Hc) as [Ha Hu], (IH Hrest) as [IHa IHu].
  cbn [GoStrings.all_bytes GoStrings.map_bytes].
  by rewrite Ha, Hu, IHa, IHu.
Qed.

Section VerifyProperties.
Context {Resp : Type} (env : Env Resp) (s : Server).

Let normalized (userCode : string) : string :=
  GoStrings.ToUpper (unicode_upper env) userCode.

Let invalidPage (userCode : string) : Event :=
  TemplateDevice (getDeviceAuthURI env s) (normalized userCode) true.

Lemma verifyUserCode_not_found r userCode w :
  validVerifyRequest r userCode ->
  fault (store w) = None ->
  deviceRequests (store w) !! normalized userCode = None ->
  verifyUserCode env s r w =
    (tt, mkWorld (store w) (clock w) (ticks w)
           (resp w ++ [invalidPage userCode])
           (logs w ++ templateLog env (invalidPage userCode))).
Proof.
  intros [Hm Hp Hc Hne] Hf Hk.
  unfold verifyUserCode, invalidPage, normalized in *.
  rewrite Hm, Hp, Hc, (proj2 (String.eqb_neq _ _) Hne).
  unfold Store.GetDeviceRequest, Store.get, templates_device, templateLog.
  go_run. rewrite Hf, Hk. cbn.
  destruct (template_err env _); go_run; rewrite ?app_nil_r; reflexivity.
Qed.

(** A matching request whose expiry has passed: the lookup returned no
    error, which is not [ErrNotFound], so [server_error] is written before
    the page. *)
Lemma verifyUserCode_expired r userCode w dr :
  validVerifyRequest r userCode ->
  fault (store w) = None ->
  deviceRequests (store w) !! normalized userCode = Some dr ->
  After (clock w (ticks w)) (DeviceRequest.Expiry dr) = true ->
  verifyUserCode env s r w =
    (tt, mkWorld (store w) (clock w) (S (ticks w))
           (resp w ++ [TokenErr errServerError "" StatusInternalServerError;
                       invalidPage userCode])
           (logs w ++ Logged LError "failed to get device request: %v" None
                        :: templateLog env (invalidPage userCode))).
Proof.
  intros [Hm Hp Hc Hne] Hf Hk Hexp.
  unfold verifyUserCode, invalidPage, normalized in *.
  rewrite Hm, Hp, Hc, (proj2 (String.eqb_neq _ _) Hne).
  unfold Store.GetDeviceRequest, Store.get, templates_device, templateLog.
  go_run. rewrite Hf, Hk. cbn. rewrite Hexp. cbn.
  destruct (template_err env _); go_run; rewrite <- ?app_assoc; reflexivity.
Qed.

(** C8: a D3 request whose user code, once put in uppercase, is the key of a
    stored device request that has not expired is answered, when
    [url.Parse] accepts the [/auth] path of the issuer, by a single redirect
    with status 302 to that URL, whose query has [client_id] the client of
    the device request, [state] its user code, [response_type] [code],
    [redirect_uri] the issuer path joined with [/device/callback] and
    [scope] the scopes of the device request joined by spaces. *)
Theorem verifyUserCode_redirect r userCode w dr u :
  validVerifyRequest r userCode ->
  fault (store w) = None ->
  deviceRequests (store w) !! GoStrings.ToUpper (unicode_upper env) userCode
    = Some dr ->
  After (clock w (ticks w)) (DeviceRequest.Expiry dr) = false ->
  url_Parse env (path_Join env [URL.Path (issuerURL s); "/auth"]) = (u, None) ->
  let q := authQuery env s dr (URL_Query env u) in
  verifyUserCode env s r w =
    (tt, mkWorld (store w) (clock w) (S (ticks w))
           (resp w ++ [HttpRedirect
                         (URL_String env (URL.with_RawQuery (Values_Encode env q) u))
                         StatusFound])
           (logs w)) /\
  Values.Get q "client_id" = DeviceRequest.ClientID dr /\
  Values.Get q "state" = DeviceRequest.UserCode dr /\
  Values.Get q "response_type" = "code" /\
  Values.Get q "redirect_uri" =
    path_Join env [URL.Path (issuerURL s); "/device/callback"] /\
  Values.Get q "scope" = GoStrings.Join (DeviceRequest.Scopes dr) " ".
Proof.
  intros [Hm Hp Hc Hne] Hf Hk Hlive Hu q. split.
  - unfold verifyUserCode.
    rewrite Hm, Hp, Hc, (proj2 (String.eqb_neq _ _) Hne).
    unfold Store.GetDeviceRequest, Store.get.
    go_run. rewrite Hf, Hk. cbn. rewrite Hlive. cbn. rewrite Hu. cbn.
    reflexivity.
  - subst q. unfold authQuery.
    repeat split;
      repeat first [ apply Get_Set_eq
                   | rewrite Get_Set_ne by discriminate ].
Qed.

End VerifyProperties.

(** ** D4 and D5: the life of a device token *)

Lemma tokensChange_complete m m' code tok :
  tokensChange m m' ->
  m !! code = Some tok ->
  DeviceToken.Status tok = deviceTokenComplete ->
  exists tok', m' !! code = Some tok' /\
    DeviceToken.Status tok' = deviceTokenComplete /\
    DeviceToken.Token tok' = DeviceToken.Token tok /\
    DeviceToken.Expiry tok' = DeviceToken.Expiry tok.
Proof.
  intros [->|c tk Hc ->|c tk t p Hc ->|c tk body Hc Hst ->] Hk Hcomplete.
  - by exists tok.
  - destruct (decide (c = code)) as [->|Hne]; [congruence|].
    rewrite lookup_insert_ne by done. by exists tok.
  - destruct (decide (c = code)) as [->|Hne].
    + rewrite lookup_insert_eq. eexists; split; [reflexivity|].
      rewrite Hk in Hc. injection Hc as <-. by cbn.
    + rewrite lookup_insert_ne by done. by exists tok.
  - destruct (decide (c = code)) as [->|Hne].
    + rewrite Hk in Hc. injection Hc as <-. by destruct Hst.
    + rewrite lookup_insert_ne by done. by exists tok.
Qed.

Section TokenLife.
Context {Resp : Type} (env : Env Resp) (s : Server).

Lemma tokenPollUpdater_frame pollInterval t old w :
  tokenPollUpdater pollInterval t old w =
    ((DeviceToken.mk (DeviceToken.DeviceCode old) (DeviceToken.Status old)
        (DeviceToken.Token old) (DeviceToken.Expiry old) t pollInterval, None), w).
Proof. reflexivity. Qed.

Lemma tokenCompleteUpdater_rejects tr old w :
  DeviceToken.Status old = deviceTokenComplete ->
  tokenCompleteUpdater env tr old w = ((old, Some alreadyComplete), w).
Proof. intros Hst. unfold tokenCompleteUpdater. by rewrite Hst. Qed.

Lemma tokenCompleteUpdater_completes tr old body w :
  DeviceToken.Status old <> deviceTokenComplete ->
  json_MarshalIndent env tr "" "  " = (body, None) ->
  tokenCompleteUpdater env tr old w = ((completed body old, None), w).
Proof.
  intros Hst Hm. unfold tokenCompleteUpdater.
  by rewrite (proj2 (String.eqb_neq _ _) Hst), Hm.
Qed.

(** The conditional update of D4 on a record that is already complete. *)
Lemma attachDeviceToken_rejected deviceReq reqClient tr tok w :
  fault (store w) = None ->
  deviceTokens (store w) !! DeviceRequest.DeviceCode deviceReq = Some tok ->
  DeviceToken.Status tok = deviceTokenComplete ->
  attachDeviceToken env deviceReq reqClient tr w =
    (tt, mkWorld (store w) (clock w) (ticks w)
           (resp w ++ [RenderError StatusInternalServerError ""])
           (logs w ++ [Logged LError "failed to update device token: %v"
                         (Some alreadyComplete)])).
Proof.
  intros Hf Hk Hst.
  unfold attachDeviceToken, Store.UpdateDeviceToken, Store.update.
  go_unfold. rewrite Hf, Hk, (tokenCompleteUpdater_rejects _ _ _ Hst).
  reflexivity.
Qed.

(** The conditional update of D4 on a record that is not complete. *)
Lemma attachDeviceToken_attaches deviceReq reqClient tr body tok w :
  fault (store w) = None ->
  deviceTokens (store w) !! DeviceRequest.DeviceCode deviceReq = Some tok ->
  DeviceToken.Status tok <> deviceTokenComplete ->
  json_MarshalIndent env tr "" "  " = (body, None) ->
  attachDeviceToken env deviceReq reqClient tr w =
    (tt, mkWorld
           (Store.put_deviceTokens
              (<[DeviceRequest.DeviceCode deviceReq := completed body tok]>
                 (deviceTokens (store w))) (store w))
           (clock w) (ticks w)
           (resp w ++ [TemplateDeviceSuccess (Client.Name reqClient)])
           (logs w ++ templateLog env (TemplateDeviceSuccess (Client.Name reqClient)))).
Proof.
  intros Hf Hk Hst Hm.
  unfold attachDeviceToken, Store.UpdateDeviceToken, Store.update,
    templates_deviceSuccess, templateLog.
  go_unfold. rewrite Hf, Hk, (tokenCompleteUpdater_completes _ _ _ _ Hst Hm).
  cbn. destruct (template_err env _); go_run; rewrite ?app_nil_r; reflexivity.
Qed.

Ltac split_branch :=
  match goal with
  | |- context [match fault ?st with _ => _ end] => destruct (fault st) eqn:?
  | |- context [match ?m !! ?k with _ => _ end] => destruct (m !! k) eqn:?
  | |- context [match ParseFormErr ?r with _ => _ end] =>
      destruct (ParseFormErr r) eqn:?
  | |- context [json_MarshalIndent ?e ?a ?b ?c] =>
      destruct (json_MarshalIndent e a b c) as [? [?|]] eqn:?
  | |- context [url_Parse ?e ?a] => destruct (url_Parse e a) as [? [?|]] eqn:?
  | |- context [ParseBool ?a] => destruct (ParseBool a) as [? [?|]] eqn:?
  | |- context [match template_err ?e ?p with _ => _ end] =>
      destruct (template_err e p) eqn:?
  | |- context [if ?b then _ else _] => destruct b eqn:?
  | |- context [match ?x with _ => _ end] => is_var x; destruct x
  end.

Ltac go_cases tac := go_unfold; cbn; repeat (split_branch; go_unfold; cbn; tac).

Lemma handleDeviceToken_tokens r w :
  tokensChange (deviceTokens (store w))
    (deviceTokens (store (snd (handleDeviceToken r w)))).
Proof.
  unfold handleDeviceToken, Store.GetDeviceToken, Store.UpdateDeviceToken,
    Store.get, Store.update, tokenPollUpdater.
  go_cases idtac;
    first [ by apply tokens_same
          | eapply tokens_polled; [eassumption|reflexivity] ].
Qed.

Lemma handleDeviceToken_fault r w :
  fault (store (snd (handleDeviceToken r w))) = fault (store w).
Proof.
  unfold handleDeviceToken, Store.GetDeviceToken, Store.UpdateDeviceToken,
    Store.get, Store.update, tokenPollUpdater.
  go_cases idtac; congruence.
Qed.

Lemma attachDeviceToken_tokens deviceReq reqClient tr w :
  tokensChange (deviceTokens (store w))
    (deviceTokens (store (snd (attachDeviceToken env deviceReq reqClient tr w)))).
Proof.
  unfold attachDeviceToken, Store.UpdateDeviceToken, Store.update,
    tokenCompleteUpdater, templates_deviceSuccess.
  go_cases idtac;
    first [ by apply tokens_same
          | eapply tokens_completed;
            [eassumption | by apply String.eqb_neq | reflexivity] ].
Qed.

Lemma verifyUserCode_store r w :
  store (snd (verifyUserCode env s r w)) = store w.
Proof.
  unfold verifyUserCode, Store.GetDeviceRequest, Store.get, templates_device.
  go_cases idtac; reflexivity.
Qed.

Lemma handleDeviceExchange_store r w :
  store (snd (handleDeviceExchange env s r w)) = store w.
Proof.
  unfold handleDeviceExchange, templates_device.
  go_cases idtac; reflexivity.
Qed.

Lemma handleDeviceCallback_tokens r w :
  exchangeKeepsTokens env ->
  tokensChange (deviceTokens (store w))
    (deviceTokens (store (snd (handleDeviceCallback env r w)))).
Proof.
  intros Hx.
  unfold handleDeviceCallback, Store.GetAuthCode, Store.GetDeviceRequest,
    Store.GetClient, Store.GetDeviceToken, Store.get.
  go_unfold; cbn.
  repeat (first
    [ match goal with
      | |- context [exchangeAuthCode ?e ?a ?c ?w0] =>
          let H := fresh "Hkeep" in
          pose proof (Hx a c w0) as H;
          destruct (exchangeAuthCode e a c w0) as [[? ?] ?] eqn:?;
          cbn in H
      end
    | split_branch ]; go_unfold; cbn);
    try (by apply tokens_same).
  all: try (rewrite Hkeep; by apply tokens_same).
  all: try (rewrite <- Hkeep;
            match goal with
            | |- context [attachDeviceToken _ ?d ?c ?t ?w0] =>
                apply (attachDeviceToken_tokens d c t w0)
            end).
Qed.

Lemma Step_tokens w w' :
  exchangeKeepsTokens env ->
  Step env s w w' ->
  tokensChange (deviceTokens (store w)) (deviceTokens (store w')).
Proof.
  intros Hx [r w0|r w0|r w0|r w0|d w0|tok w0|w0 clk n evs lines].
  - apply handleDeviceToken_tokens.
  - by apply handleDeviceCallback_tokens.
  - apply tokens_same. by rewrite verifyUserCode_store.
  - apply tokens_same. by rewrite handleDeviceExchange_store.
  - apply tokens_same.
    unfold Store.CreateDeviceRequest, Store.create.
    destruct (fault (store w0)); [done|].
    by destruct (deviceRequests (store w0) !! DeviceRequest.UserCode d).
  - unfold Store.CreateDeviceToken, Store.create.
    destruct (fault (store w0)); [by apply tokens_same|].
    destruct (deviceTokens (store w0) !! _) eqn:Hk; [by apply tokens_same|].
    by eapply tokens_created.
  - by apply tokens_same.
Qed.

Lemma Steps_complete w w' code tok :
  exchangeKeepsTokens env ->
  Steps env s w w' ->
  deviceTokens (store w) !! code = Some tok ->
  DeviceToken.Status tok = deviceTokenComplete ->
  exists tok', deviceTokens (store w') !! code = Some tok' /\
    DeviceToken.Status tok' = deviceTokenComplete /\
    DeviceToken.Token tok' = DeviceToken.Token tok.
Proof.
  intros Hx Hsteps. revert tok.
  induction Hsteps as [w|w1 w2 w3 Hstep _ IH]; intros tok Hk Hst.
  - by exists tok.
  - destruct (tokensChange_complete _ _ code tok (Step_tokens _ _ Hx Hstep) Hk Hst)
      as (tok2 & Hk2 & Hst2 & Htok2 & _).
    destruct (IH tok2 Hk2 Hst2) as (tok3 & Hk3 & Hst3 & Htok3).
    exists tok3. repeat split; congruence.
Qed.

(** What D4 does once the lookups have succeeded. *)
Lemma handleDeviceCallback_found r w a d c :
  callbackFound r w a d c ->
  handleDeviceCallback env r w =
    (let (res, w2) := exchangeAuthCode env a c (tick 2 w) in
     if not_nil (snd res) then
       (logf LError "Could not exchange auth code for client %q: %v" (snd res) ;;
        renderError StatusInternalServerError "Failed to exchange auth code.") w2
     else
       ('(old, err) <- Store.GetDeviceToken (DeviceRequest.DeviceCode d) ;;
        bad <- failed_or_expired err (DeviceToken.Expiry old) ;;
        if bad then
          log_unless_not_found "failed to get device token: %v" err ;;
          renderError StatusInternalServerError "Invalid or expired device code."
        else attachDeviceToken env d c (fst res)) w2).
Proof.
  intros [Hvalid Hf Ha Hal Hd Hdl Hc]. cbn [Nat.add] in Hdl.
  unfold callbackRequestError, handleDeviceCallback in *.
  destruct (Method r =? MethodGet)%string; cbn [negb] in *; [|done].
  destruct (_ || _); [done|].
  destruct (Values.Get (Form r) "error" =? "")%string; cbn [negb] in *; [|done].
  unfold Store.GetAuthCode, Store.GetDeviceRequest, Store.GetClient, Store.get.
  unfold bind at 1. rewrite Hf, Ha.
  unfold bind at 1. unfold failed_or_expired at 1. cbn [not_nil].
  unfold bind at 1. unfold now at 1. unfold ret at 1. rewrite Hal.
  unfold bind at 1. cbn [store clock ticks]. rewrite Hf, Hd.
  unfold bind at 1. unfold failed_or_expired at 1. cbn [not_nil].
  unfold bind at 1. unfold now at 1. unfold ret at 1. cbn [store clock ticks].
  rewrite Hdl.
  unfold bind at 1. cbn [store clock ticks]. rewrite Hf, Hc. cbn [not_nil].
  unfold bind at 1. unfold tick. cbn [Nat.add].
  destruct (exchangeAuthCode env a c _) as [[tr err] w2].
  cbn [fst snd]. by destruct (not_nil err).
Qed.

(** Two completions of one device code, in the order in which their
    updates reach the storage. *)
Lemma attachDeviceToken_twice w code tok dA cA trA bodyA dB cB trB :
  fault (store w) = None ->
  deviceTokens (store w) !! code = Some tok ->
  DeviceToken.Status tok <> deviceTokenComplete ->
  DeviceRequest.DeviceCode dA = code ->
  DeviceRequest.DeviceCode dB = code ->
  json_MarshalIndent env trA "" "  " = (bodyA, None) ->
  let wA := snd (attachDeviceToken env dA cA trA w) in
  let wB := snd (attachDeviceToken env dB cB trB wA) in
  resp wA = (resp w ++ [TemplateDeviceSuccess (Client.Name cA)])%list /\
  deviceTokens (store wA) !! code = Some (completed bodyA tok) /\
  resp wB = (resp wA ++ [RenderError StatusInternalServerError ""])%list /\
  store wB = store wA.
Proof.
  intros Hf Hk Hst HA HB Hm wA wB. subst code.
  pose proof (attachDeviceToken_attaches dA cA trA bodyA tok w Hf Hk Hst Hm) as EA.
  assert (HkA : deviceTokens (store wA) !! DeviceRequest.DeviceCode dB
                = Some (completed bodyA tok)).
  { subst wA. rewrite EA, HB. cbn. by rewrite lookup_insert_eq. }
  assert (HfA : fault (store wA) = None) by (subst wA; by rewrite EA).
  pose proof (attachDeviceToken_rejected dB cB trB (completed bodyA tok) wA
                HfA HkA eq_refl) as EB.
  subst wB. rewrite EB. cbn [snd resp store].
  repeat split; try done.
  - subst wA. by rewrite EA.
  - by rewrite <- HB.
Qed.

(** Once a callback reaches the conditional update, D4 is that update, run
    after one more reading of the clock. *)
Lemma handleDeviceCallback_update r w a d c tr w2 tok :
  reachesUpdate env r w a d c tr w2 tok ->
  handleDeviceCallback env r w = attachDeviceToken env d c tr (tick 1 w2).
Proof.
  intros [Hfound Hex Hf Hk Hlive].
  rewrite (handleDeviceCallback_found r w a d c Hfound), Hex. cbn [fst snd not_nil].
  unfold Store.GetDeviceToken, Store.get.
  unfold bind at 1. rewrite Hf, Hk.
  unfold bind at 1. unfold failed_or_expired. cbn [not_nil].
  unfold bind at 1. unfold now at 1. unfold ret at 1. rewrite Hlive.
  reflexivity.
Qed.

(** D4 on a device token that is complete. *)
Lemma handleDeviceCallback_rejected r w a d c tr w2 tok :
  reachesUpdate env r w a d c tr w2 tok ->
  DeviceToken.Status tok = deviceTokenComplete ->
  handleDeviceCallback env r w =
    (tt, mkWorld (store w2) (clock w2) (S (ticks w2))
           (resp w2 ++ [RenderError StatusInternalServerError ""])
           (logs w2 ++ [Logged LError "failed to update device token: %v"
                          (Some alreadyComplete)])).
Proof.
  intros Hru Hst.
  rewrite (handleDeviceCallback_update r w a d c tr w2 tok Hru).
  destruct Hru as [_ _ Hf Hk _].
  by rewrite (attachDeviceToken_rejected d c tr tok (tick 1 w2) Hf Hk Hst).
Qed.

(** D4 on a device token that is not complete. *)
Lemma handleDeviceCallback_completes r w a d c tr w2 tok body :
  reachesUpdate env r w a d c tr w2 tok ->
  DeviceToken.Status tok <> deviceTokenComplete ->
  json_MarshalIndent env tr "" "  " = (body, None) ->
  handleDeviceCallback env r w =
    (tt, mkWorld
           (Store.put_deviceTokens
              (<[DeviceRequest.DeviceCode d := completed body tok]>
                 (deviceTokens (store w2))) (store w2))
           (clock w2) (S (ticks w2))
           (resp w2 ++ [TemplateDeviceSuccess (Client.Name c)])
           (logs w2 ++ templateLog env (TemplateDeviceSuccess (Client.Name c)))).
Proof.
  intros Hru Hst Hm.
  rewrite (handleDeviceCallback_update r w a d c tr w2 tok Hru).
  destruct Hru as [_ _ Hf Hk _].
  by rewrite (attachDeviceToken_attaches d c tr body tok (tick 1 w2) Hf Hk Hst Hm).
Qed.

(** Two callbacks for one device request, the second on the storage that
    the first left. *)
Lemma handleDeviceCallback_twice rA rB w v aA aB d cA cB trA trB w2 v2 tok tokB bodyA :
  exchangeKeepsTokens env ->
  reachesUpdate env rA w aA d cA trA w2 tok ->
  DeviceToken.Status tok <> deviceTokenComplete ->
  json_MarshalIndent env trA "" "  " = (bodyA, None) ->
  let wA := snd (handleDeviceCallback env rA w) in
  store v = store wA ->
  reachesUpdate env rB v aB d cB trB v2 tokB ->
  let wB := snd (handleDeviceCallback env rB v) in
  resp wA = (resp w2 ++ [TemplateDeviceSuccess (Client.Name cA)])%list /\
  deviceTokens (store wA) !! DeviceRequest.DeviceCode d = Some (completed bodyA tok) /\
  resp wB = (resp v2 ++ [RenderError StatusInternalServerError ""])%list /\
  store wB = store v2 /\
  deviceTokens (store wB) !! DeviceRequest.DeviceCode d = Some (completed bodyA tok).
Proof.
  intros Hx HA Hst Hm wA Hv HB wB.
  pose proof (handleDeviceCallback_completes rA w aA d cA trA w2 tok bodyA HA Hst Hm)
    as EA.
  assert (HkA : deviceTokens (store wA) !! DeviceRequest.DeviceCode d
                = Some (completed bodyA tok)).
  { subst wA. rewrite EA. cbn. by rewrite lookup_insert_eq. }
  assert (HtokB : tokB = completed bodyA tok).
  { pose proof (ru_token _ _ _ _ _ _ _ _ _ HB) as Hk.
    pose proof (Hx aB cB (tick 2 v)) as Hkeep.
    rewrite (ru_exchange _ _ _ _ _ _ _ _ _ HB) in Hkeep. cbn in Hkeep.
    rewrite Hkeep, Hv, HkA in Hk. by injection Hk. }
  subst tokB.
  pose proof (handleDeviceCallback_rejected rB v aB d cB trB v2 _ HB eq_refl) as EB.
  subst wB. rewrite EB. cbn [snd resp store].
  repeat split; try done.
  - subst wA. by rewrite EA.
  - exact (ru_token _ _ _ _ _ _ _ _ _ HB).
Qed.

Lemma responseStatus_app evs evs' :
  responseStatus evs = None ->
  responseStatus (evs ++ evs') = responseStatus evs'.
Proof.
  induction evs as [|e evs IH]; [done|]. cbn.
  destruct (eventStatus e); [done|exact IH].
Qed.

(** C1: a device token that is complete stays complete with the same token
    bytes through every request of the device flow (the token exchange being
    assumed not to write device tokens). The updater of the pending branch
    of D5 changes the poll interval and the last request time only; the
    updater of D4 rejects a record that is complete with the error
    [device token already complete]. A D4 request that reaches the update
    of a complete record logs that error, answers with [renderError] 500,
    which is the status of the response when nothing was written before,
    and leaves the storage as the token exchange left it; on a record that
    is not complete it stores the record as complete with the marshalled
    token response and renders the success page. So of two D4 requests for
    one device request, handled one after the other, the first attaches its
    token and the second is answered 500 with the record of the first left
    in the storage. D4 is its lookups followed by the conditional update,
    and of two such updates of one device code, in whichever order they
    reach the storage, the first attaches and the second is rejected with
    500 and changes nothing: this is the case of two requests that both
    read the record before either updates it. *)
Theorem completion_is_final :
  (forall w w' code tok,
      exchangeKeepsTokens env ->
      Steps env s w w' ->
      deviceTokens (store w) !! code = Some tok ->
      DeviceToken.Status tok = deviceTokenComplete ->
      exists tok', deviceTokens (store w') !! code = Some tok' /\
        DeviceToken.Status tok' = deviceTokenComplete /\
        DeviceToken.Token tok' = DeviceToken.Token tok) /\
  (forall pollInterval t old w,
      tokenPollUpdater pollInterval t old w =
        ((DeviceToken.mk (DeviceToken.DeviceCode old) (DeviceToken.Status old)
            (DeviceToken.Token old) (DeviceToken.Expiry old) t pollInterval,
          None), w)) /\
  (forall tr old w,
      DeviceToken.Status old = deviceTokenComplete ->
      tokenCompleteUpdater env tr old w = ((old, Some alreadyComplete), w)) /\
  (forall r w a d c tr w2 tok,
      reachesUpdate env r w a d c tr w2 tok ->
      DeviceToken.Status tok = deviceTokenComplete ->
      handleDeviceCallback env r w =
        (tt, mkWorld (store w2) (clock w2) (S (ticks w2))
               (resp w2 ++ [RenderError StatusInternalServerError ""])
               (logs w2 ++ [Logged LError "failed to update device token: %v"
                              (Some alreadyComplete)])) /\
      (responseStatus (resp w2) = None ->
       responseStatus (resp (snd (handleDeviceCallback env r w)))
         = Some StatusInternalServerError)) /\
  (forall r w a d c tr w2 tok body,
      reachesUpdate env r w a d c tr w2 tok ->
      DeviceToken.Status tok <> deviceTokenComplete ->
      json_MarshalIndent env tr "" "  " = (body, None) ->
      handleDeviceCallback env r w =
        (tt, mkWorld
               (Store.put_deviceTokens
                  (<[DeviceRequest.DeviceCode d := completed body tok]>
                     (deviceTokens (store w2))) (store w2))
               (clock w2) (S (ticks w2))
               (resp w2 ++ [TemplateDeviceSuccess (Client.Name c)])
               (logs w2 ++ templateLog env (TemplateDeviceSuccess (Client.Name c))))) /\
  (forall rA rB w v aA aB d cA cB trA trB w2 v2 tok tokB bodyA,
      exchangeKeepsTokens env ->
      reachesUpdate env rA w aA d cA trA w2 tok ->
      DeviceToken.Status tok <> deviceTokenComplete ->
      json_MarshalIndent env trA "" "  " = (bodyA, None) ->
      let wA := snd (handleDeviceCallback env rA w) in
      store v = store wA ->
      reachesUpdate env rB v aB d cB trB v2 tokB ->
      let wB := snd (handleDeviceCallback env rB v) in
      resp wA = (resp w2 ++ [TemplateDeviceSuccess (Client.Name cA)])%list /\
      deviceTokens (store wA) !! DeviceRequest.DeviceCode d
        = Some (completed bodyA tok) /\
      resp wB = (resp v2 ++ [RenderError StatusInternalServerError ""])%list /\
      store wB = store v2 /\
      deviceTokens (store wB) !! DeviceRequest.DeviceCode d
        = Some (completed bodyA tok)) /\
  (forall r w a d c tr w2 tok,
      reachesUpdate env r w a d c tr w2 tok ->
      handleDeviceCallback env r w = attachDeviceToken env d c tr (tick 1 w2)) /\
  (forall w code tok dA cA trA bodyA dB cB trB,
      fault (store w) = None ->
      deviceTokens (store w) !! code = Some tok ->
      DeviceToken.Status tok <> deviceTokenComplete ->
      DeviceRequest.DeviceCode dA = code ->
      DeviceRequest.DeviceCode dB = code ->
      json_MarshalIndent env trA "" "  " = (bodyA, None) ->
      let wA := snd (attachDeviceToken env dA cA trA w) in
      let wB := snd (attachDeviceToken env dB cB trB wA) in
      resp wA = (resp w ++ [TemplateDeviceSuccess (Client.Name cA)])%list /\
      deviceTokens (store wA) !! code = Some (completed bodyA tok) /\
      resp wB = (resp wA ++ [RenderError StatusInternalServerError ""])%list /\
      store wB = store wA).
Proof.
  split; [|split; [|split; [|split; [|split; [|split; [|split]]]]]].
  - intros w w' code tok. apply Steps_complete.
  - intros. apply tokenPollUpdater_frame.
  - intros tr old w. apply tokenCompleteUpdater_rejects.
  - intros r w a d c tr w2 tok Hru Hst.
    rewrite (handleDeviceCallback_rejected r w a d c tr w2 tok Hru Hst).
    split; [reflexivity|]. intros Hnone. cbn [snd resp].
    by rewrite (responseStatus_app _ _ Hnone).
  - intros r w a d c tr w2 tok body. apply handleDeviceCallback_completes.
  - intros rA rB w v aA aB d cA cB trA trB w2 v2 tok tokB bodyA.
    apply handleDeviceCallback_twice.
  - intros r w a d c tr w2 tok. apply handleDeviceCallback_update.
  - intros w code tok dA cA trA bodyA dB cB trB. apply attachDeviceToken_twice.
Qed.

End TokenLife.

(** ** The request limiter *)

Section LimiterProperties.
Context {Resp : Type} (env : Env Resp).

Lemma IsLimited_eq l r w :
  Limiter.IsLimited l r w = (limitedAt (clock w (ticks w)) r, tick 1 w).
Proof. reflexivity. Qed.

Lemma updater_eq l limit w :
  Limiter.updater env l limit w = ((advanced env l w limit, None), tick 3 w).
Proof. reflexivity. Qed.

Lemma UpdateRequest_stored l req limit w :
  fault (store w) = None ->
  requestLimits (store w) !! RequestLimit.Key req = Some limit ->
  Limiter.UpdateRequest env l req w =
    (None, storeLimit (RequestLimit.Key req) (advanced env l w limit) (tick 3 w)).
Proof.
  intros Hf Hk.
  unfold Limiter.UpdateRequest, Store.UpdateRequestLimit, Store.update.
  unfold bind at 1. rewrite Hf, Hk, updater_eq. reflexivity.
Qed.

Lemma baseSeconds_wrapped l :
  GoInt.wrap64 (Limiter.baseSeconds env l) = Limiter.baseSeconds env l.
Proof. apply wrap64_id, wrap64_range. Qed.

Lemma LimitedUpdates_interval l key n w w' r0 :
  Limiter.backoff l = true ->
  fault (store w) = None ->
  requestLimits (store w) !! key = Some r0 ->
  RequestLimit.Interval r0 = Limiter.baseSeconds env l ->
  LimitedUpdates env l key n w w' ->
  fault (store w') = None /\
  exists r, requestLimits (store w') !! key = Some r /\
    RequestLimit.Interval r =
      GoInt.wrap64 ((Z.of_nat n + 1) * Limiter.baseSeconds env l).
Proof.
  intros Hb Hf Hk Hi Hrun.
  induction Hrun as [w|n w w1 limit req _ IH Hk1 Hreq Hlim|n w w1 w2 _ IH Hk2 Hf2].
  - split; [done|]. exists r0. split; [done|].
    rewrite Hi. cbn. rewrite Z.mul_1_l. by rewrite baseSeconds_wrapped.
  - destruct (IH Hf Hk) as (Hf1 & r & Hr & Hint).
    rewrite Hk1 in Hr. injection Hr as <-. subst key.
    rewrite (UpdateRequest_stored l req limit w1 Hf1 Hk1).
    cbn [snd storeLimit store tick requestLimits fault Store.put_requestLimits].
    split; [done|]. eexists. split; [apply lookup_insert_eq|].
    unfold advanced. cbn [RequestLimit.Interval]. rewrite Hlim, Hb. cbn [andb].
    unfold GoInt.add. rewrite Hint, wrap64_add_l. f_equal. lia.
  - destruct (IH Hf Hk) as (Hf1 & r & Hr & Hint).
    split; [congruence|]. exists r. split; [congruence|done].
Qed.

(** C6: [UpdateRequest] replaces, in one step of the storage, the stored
    record of the key by a record whose interval is the stored interval plus
    the base interval (64-bit addition) when the stored record is limited
    and backoff is enabled, and the base interval otherwise, whose
    [LastSeen] is the next reading of the clock and whose [Expiry] is the
    reading after that plus the default expiry; no other key changes.
    Hence, with backoff enabled, [n] updates that each find the record
    limited, from a record whose interval is the base interval, leave the
    interval [(n+1) * base] (reduced to 64 bits; exactly [(n+1) * base] when
    that fits). *)
Theorem UpdateRequest_transformation l :
  (forall req limit w,
      fault (store w) = None ->
      requestLimits (store w) !! RequestLimit.Key req = Some limit ->
      let w' := snd (Limiter.UpdateRequest env l req w) in
      let t := ticks w in
      fst (Limiter.UpdateRequest env l req w) = None /\
      requestLimits (store w') !! RequestLimit.Key req =
        Some (RequestLimit.mk (RequestLimit.Key limit)
                (if limitedAt (clock w t) limit && Limiter.backoff l
                 then GoInt.add (RequestLimit.Interval limit) (Limiter.baseSeconds env l)
                 else Limiter.baseSeconds env l)
                (clock w (1 + t)%nat)
                (Add (clock w (2 + t)%nat) (Limiter.defaultExpireTime l))) /\
      (forall k, k <> RequestLimit.Key req ->
                 requestLimits (store w') !! k = requestLimits (store w) !! k)) /\
  (forall key n w w' r0,
      Limiter.backoff l = true ->
      fault (store w) = None ->
      requestLimits (store w) !! key = Some r0 ->
      RequestLimit.Interval r0 = Limiter.baseSeconds env l ->
      LimitedUpdates env l key n w w' ->
      exists r, requestLimits (store w') !! key = Some r /\
        RequestLimit.Interval r =
          GoInt.wrap64 ((Z.of_nat n + 1) * Limiter.baseSeconds env l) /\
        (GoInt.in_int64 ((Z.of_nat n + 1) * Limiter.baseSeconds env l) ->
         RequestLimit.Interval r = (Z.of_nat n + 1) * Limiter.baseSeconds env l)).
Proof.
  split.
  - intros req limit w Hf Hk w' t. subst w' t.
    rewrite (UpdateRequest_stored l req limit w Hf Hk).
    cbn [fst snd storeLimit store tick requestLimits Store.put_requestLimits].
    split; [done|]. split; [apply lookup_insert_eq|].
    intros k Hne. by apply lookup_insert_ne.
  - intros key n w w' r0 Hb Hf Hk Hi Hrun.
    destruct (LimitedUpdates_interval l key n w w' r0 Hb Hf Hk Hi Hrun)
      as (_ & r & Hr & Hint).
    exists r. repeat split; [done..|].
    intros Hrange. by rewrite Hint, wrap64_id.
Qed.

Lemma RequestLimitHandler_known lmt next r w req :
  fault (store w) = None ->
  requestLimits (store w) !! requestKey env r = Some req ->
  RequestLimit.Key req = requestKey env r ->
  RequestLimitHandler env lmt next r w =
    (if limitedAt (clock w (3 + ticks w)%nat) req
     then Limiter.ExecOnLimitReached lmt r (RequestLimit.Interval req)
     else next r)
      (storeLimit (requestKey env r) (advanced env lmt w req)
         (tick 4 (respond (rateHeaders r) w))).
Proof.
  intros Hf Hk Hkey.
  unfold RequestLimitHandler, LimitByRequest.
  change (GoStrings.Join _ "-") with (requestKey env r).
  remember (requestKey env r) as key eqn:Ekey. clear Ekey.
  unfold setResponseHeaders, Limiter.GetLastRequest, Store.GetRequestLimit,
    Store.get.
  go_run. rewrite Hf, Hk. cbn.
  match goal with
  | |- context [Limiter.UpdateRequest env lmt req ?w0] =>
      rewrite (UpdateRequest_stored lmt req req w0)
        by (cbn; first [exact Hf | by rewrite Hkey])
  end.
  rewrite Hkey. unfold Limiter.IsLimited. go_run.
  unfold storeLimit, tick, respond, advanced, limitedAt. cbn.
  rewrite <- !app_assoc. reflexivity.
Qed.

Lemma RequestLimitHandler_first lmt next r w :
  fault (store w) = None ->
  requestLimits (store w) !! requestKey env r = None ->
  (clock w (ticks w) <= clock w (5 + ticks w)%nat) ->
  RequestLimitHandler env lmt next r w =
    next r
      (storeLimit (requestKey env r)
         (RequestLimit.mk (requestKey env r) (Limiter.baseSeconds env lmt)
            (clock w (3 + ticks w)%nat)
            (Add (clock w (4 + ticks w)%nat) (Limiter.defaultExpireTime lmt)))
         (tick 6 (respond (rateHeaders r) w))).
Proof.
  intros Hf Hk Hclock.
  unfold RequestLimitHandler, LimitByRequest.
  change (GoStrings.Join _ "-") with (requestKey env r).
  remember (requestKey env r) as key eqn:Ekey. clear Ekey.
  unfold setResponseHeaders, Limiter.GetLastRequest, Store.GetRequestLimit,
    Store.CreateRequestLimit, Store.get, Store.create.
  go_run. rewrite Hf, Hk. cbn. rewrite Hf, Hk. cbn.
  match goal with
  | |- context [Limiter.UpdateRequest env lmt ?q ?w0] =>
      rewrite (UpdateRequest_stored lmt q q w0)
        by (cbn; first [exact Hf | apply lookup_insert_eq])
  end.
  unfold Limiter.IsLimited. go_run.
  unfold GoInt.mul, Add, Before. cbn [Z.mul].
  replace (GoInt.wrap64 0) with 0 by reflexivity. rewrite Z.add_0_r.
  replace (clock w (S (S (S (S (S (ticks w)))))) <? clock w (ticks w)) with false
    by (symmetry; apply Z.ltb_ge; exact Hclock).
  f_equal. unfold storeLimit, tick, respond, advanced, limitedAt. cbn.
  rewrite insert_insert_eq, <- !app_assoc. cbn.
  replace (if _ && Limiter.backoff lmt then _ else _) with (Limiter.baseSeconds env lmt);
    [reflexivity|].
  destruct (_ && _); [|reflexivity].
  unfold GoInt.add. rewrite Z.add_0_l. symmetry. apply baseSeconds_wrapped.
Qed.

(** C7: for a key that the storage knows, the middleware stores the
    advanced record and then decides on the record it read before the
    update: limited at the next reading of the clock, the on-limit hook runs
    with the interval of that record as delay and the wrapped handler does
    not run; otherwise the wrapped handler runs. For a key that the storage
    does not know, the record created has interval 0 and, the clock not
    running backwards, the wrapped handler runs. The storage is assumed
    available and keyed by the [Key] of its records. *)
Theorem RequestLimitHandler_decides lmt next r w :
  fault (store w) = None ->
  (forall req,
      requestLimits (store w) !! requestKey env r = Some req ->
      RequestLimit.Key req = requestKey env r ->
      let w' := storeLimit (requestKey env r) (advanced env lmt w req)
                  (tick 4 (respond (rateHeaders r) w)) in
      RequestLimitHandler env lmt next r w =
        if limitedAt (clock w (3 + ticks w)%nat) req
        then Limiter.ExecOnLimitReached lmt r (RequestLimit.Interval req) w'
        else next r w') /\
  (requestLimits (store w) !! requestKey env r = None ->
   clock w (ticks w) <= clock w (5 + ticks w)%nat ->
   RequestLimit.Interval (firstVisit lmt (requestKey env r) w) = 0 /\
   limitedAt (clock w (5 + ticks w)%nat) (firstVisit lmt (requestKey env r) w) = false /\
   RequestLimitHandler env lmt next r w =
     next r
       (storeLimit (requestKey env r)
          (RequestLimit.mk (requestKey env r) (Limiter.baseSeconds env lmt)
             (clock w (3 + ticks w)%nat)
             (Add (clock w (4 + ticks w)%nat) (Limiter.defaultExpireTime lmt)))
          (tick 6 (respond (rateHeaders r) w)))).
Proof.
  intros Hf. split.
  - intros req Hk Hkey w'. subst w'.
    rewrite (RequestLimitHandler_known lmt next r w req Hf Hk Hkey).
    by destruct (limitedAt _ _).
  - intros Hk Hclock. split; [reflexivity|]. split.
    + unfold limitedAt, firstVisit, GoInt.mul, Add, Before. cbn.
      replace (GoInt.wrap64 0) with 0 by reflexivity. rewrite Z.add_0_r.
      by apply Z.ltb_ge.
    + apply (RequestLimitHandler_first lmt next r w Hf Hk Hclock).
Qed.

(** C10: [ExecOnLimitReached] on a limiter whose hook is nil, as
    [NewRequestLimiter] leaves it, calls nothing and returns with the world
    as it was; a limited request for a known key on such a limiter ends
    after the update of the record, with the rate headers as the only calls
    on the response, whatever the wrapped handler is. *)
Theorem ExecOnLimitReached_nil_hook :
  (forall requestInterval expireDuration backoff r delaySeconds w,
      Limiter.ExecOnLimitReached
        (Limiter.NewRequestLimiter requestInterval expireDuration backoff)
        r delaySeconds w = (tt, w)) /\
  (forall l r delaySeconds w,
      Limiter.onLimitReached l = None ->
      Limiter.ExecOnLimitReached l r delaySeconds w = (tt, w)) /\
  (forall lmt next r w req,
      Limiter.onLimitReached lmt = None ->
      fault (store w) = None ->
      requestLimits (store w) !! requestKey env r = Some req ->
      RequestLimit.Key req = requestKey env r ->
      limitedAt (clock w (3 + ticks w)%nat) req = true ->
      RequestLimitHandler env lmt next r w =
        (tt, storeLimit (requestKey env r) (advanced env lmt w req)
               (tick 4 (respond (rateHeaders r) w)))).
Proof.
  split; [reflexivity|]. split.
  - intros l r d w Hnil. unfold Limiter.ExecOnLimitReached. by rewrite Hnil.
  - intros lmt next r w req Hnil Hf Hk Hkey Hlim.
    rewrite (RequestLimitHandler_known lmt next r w req Hf Hk Hkey), Hlim.
    unfold Limiter.ExecOnLimitReached. by rewrite Hnil.
Qed.

End LimiterProperties.

(** * Further properties of the handlers *)

Ltac branch :=
  match goal with
  | |- context [match fault ?st with _ => _ end] => destruct (fault st) eqn:?
  | |- context [match ?m !! ?k with _ => _ end] => destruct (m !! k) eqn:?
  | |- context [match ParseFormErr ?r with _ => _ end] =>
      destruct (ParseFormErr r) eqn:?
  | |- context [json_MarshalIndent ?e ?a ?b ?c] =>
      destruct (json_MarshalIndent e a b c) as [? [?|]] eqn:?
  | |- context [url_Parse ?e ?a] => destruct (url_Parse e a) as [? [?|]] eqn:?
  | |- context [ParseBool ?a] => destruct (ParseBool a) as [? [?|]] eqn:?
  | |- context [match template_err ?e ?p with _ => _ end] =>
      destruct (template_err e p) eqn:?
  | |- context [if ?b then _ else _] => destruct b eqn:?
  | |- context [match ?x with _ => _ end] => is_var x; destruct x
  end.

Ltac run_cases := go_unfold; cbn; repeat (branch; go_unfold; cbn).

(** ** D5 *)

(** X1: a D5 request that is not a POST, whose body does not parse, that
    has no device code or that has another grant type is answered with
    status 400 by the error of the first check it fails, and neither the
    storage nor the clock is read. *)
Theorem handleDeviceToken_invalid_request r w :
  invalidTokenRequest r ->
  let w' := snd (handleDeviceToken r w) in
  store w' = store w /\ ticks w' = ticks w /\
  resp w' = (resp w ++ [contentTypeJSON; tokenRequestError r])%list /\
  eventStatus (tokenRequestError r) = Some StatusBadRequest.
Proof.
  intros Hbad w'. subst w'.
  unfold handleDeviceToken, tokenRequestError.
  destruct (Method r =? MethodPost)%string eqn:Hm; cbn [negb].
  2:{ go_run. rewrite <- app_assoc. by repeat split. }
  destruct (ParseFormErr r) as [e|] eqn:Hp; cbn [not_nil].
  { go_run. rewrite <- app_assoc. by repeat split. }
  destruct (Values.Get (Form r) "device_code" =? "")%string eqn:Hc.
  { go_run. rewrite <- app_assoc. by repeat split. }
  destruct (Values.Get (PostForm r) "grant_type" =? grantTypeDeviceCode)%string
    eqn:Hg; cbn [negb].
  2:{ go_run. rewrite <- app_assoc. by repeat split. }
  exfalso. destruct Hbad as [H|[H|[H|H]]].
  - by apply String.eqb_eq in Hm.
  - done.
  - by apply String.eqb_neq in Hc.
  - by apply String.eqb_eq in Hg.
Qed.

(** X2: D5 never creates or deletes a device token and never writes another
    table: after any request the device tokens have the keys they had, and
    the device requests, the request limits, the auth codes, the clients and
    the availability of the storage are as before. *)
Theorem handleDeviceToken_frame r w :
  let w' := snd (handleDeviceToken r w) in
  dom (deviceTokens (store w')) = dom (deviceTokens (store w)) /\
  deviceRequests (store w') = deviceRequests (store w) /\
  requestLimits (store w') = requestLimits (store w) /\
  authCodes (store w') = authCodes (store w) /\
  clients (store w') = clients (store w) /\
  fault (store w') = fault (store w).
Proof.
  intros w'. subst w'.
  unfold handleDeviceToken, Store.GetDeviceToken, Store.UpdateDeviceToken,
    Store.get, Store.update, tokenPollUpdater.
  run_cases; repeat split;
    first [congruence | apply dom_insert_lookup_L; eauto].
Qed.

(** X3: once a token is complete, polls that each come at or after
    [last_request_time + poll_interval_seconds] and not after the expiry
    are all answered with the token bytes alone, and the storage stays as it
    was: the answer can be fetched any number of times. *)
Theorem polls_of_completed_token rs : forall w code tok,
  Forall (fun r => validTokenRequest r code) rs ->
  fault (store w) = None ->
  deviceTokens (store w) !! code = Some tok ->
  DeviceToken.Status tok = deviceTokenComplete ->
  (forall i, (i < length rs)%nat ->
     After (clock w (i + ticks w)%nat) (DeviceToken.Expiry tok) = false /\
     tooFast (clock w (i + ticks w)%nat) tok = false) ->
  serveAll handleDeviceToken rs w =
    (tt, mkWorld (store w) (clock w) (length rs + ticks w)
           (resp w ++ concat (replicate (length rs)
                                [contentTypeJSON; Write (DeviceToken.Token tok)]))
           (logs w)).
Proof.
  induction rs as [|r rs IH]; intros w code tok Hvalid Hf Hk Hst Htimes.
  - cbn. rewrite app_nil_r. by destruct w.
  - apply Forall_cons in Hvalid as [Hr Hrs].
    destruct (Htimes 0%nat ltac:(cbn; lia)) as [Hlive Hslow]. cbn in Hlive, Hslow.
    cbn [serveAll]. unfold bind.
    rewrite (handleDeviceToken_live r code w tok Hr Hf Hk Hlive).
    unfold polledWorld, slowDown. rewrite Hslow, Hst. cbn [String.eqb].
    change (deviceTokenComplete =? deviceTokenPending)%string with false.
    change (deviceTokenComplete =? deviceTokenComplete)%string with true.
    cbn iota.
    rewrite (IH _ code tok Hrs); cbn [store clock ticks resp logs]; try done.
    + rewrite <- app_assoc.
      replace (length rs + S (ticks w))%nat with (length (r :: rs) + ticks w)%nat
        by (cbn; lia).
      reflexivity.
    + intros i Hi.
      replace (i + S (ticks w))%nat with (S i + ticks w)%nat by lia.
      apply Htimes. cbn. lia.
Qed.

Lemma EarlyPolls_interval code n w w' tok0 :
  fault (store w) = None ->
  deviceTokens (store w) !! code = Some tok0 ->
  GoInt.in_int64 (DeviceToken.PollIntervalSeconds tok0) ->
  EarlyPolls code n w w' ->
  fault (store w') = None /\
  exists tok, deviceTokens (store w') !! code = Some tok /\
    DeviceToken.PollIntervalSeconds tok =
      GoInt.wrap64 (DeviceToken.PollIntervalSeconds tok0 + 5 * Z.of_nat n).
Proof.
  intros Hf Hk Hrange Hrun.
  induction Hrun as [w|n w w1 r tok _ IH Hr Hk1 Hst Hlive Hfast
                    |n w w1 w2 _ IH Hk2 Hf2].
  - split; [done|]. exists tok0. split; [done|].
    cbn. rewrite Z.add_0_r. symmetry. by apply wrap64_id.
  - destruct (IH Hf Hk) as (Hf1 & tok1 & Htok1 & Hint).
    rewrite Hk1 in Htok1. injection Htok1 as <-.
    rewrite (handleDeviceToken_live r code w1 tok Hr Hf1 Hk1 Hlive).
    unfold polledWorld. rewrite Hst. cbn.
    split; [done|]. eexists. split; [apply lookup_insert_eq|].
    unfold polled, prospectiveInterval. rewrite Hfast. cbn.
    unfold GoInt.add. rewrite Hint, wrap64_add_l. f_equal. lia.
  - destruct (IH Hf Hk) as (Hf1 & tok1 & Htok1 & Hint).
    split; [congruence|]. exists tok1. split; [congruence|done].
Qed.

(** X4: every early poll of a pending token raises the stored poll interval
    by 5 seconds (in 64 bits), so after [n] early polls in a row it is the
    first interval plus [5 * n]; the first poll of the pending token that
    respects the stored interval is answered [authorization_pending] alone
    and stores the interval 5 again. *)
Theorem early_polls_raise_interval code :
  (forall n w w' tok0,
      fault (store w) = None ->
      deviceTokens (store w) !! code = Some tok0 ->
      GoInt.in_int64 (DeviceToken.PollIntervalSeconds tok0) ->
      EarlyPolls code n w w' ->
      exists tok, deviceTokens (store w') !! code = Some tok /\
        DeviceToken.PollIntervalSeconds tok =
          GoInt.wrap64 (DeviceToken.PollIntervalSeconds tok0 + 5 * Z.of_nat n)) /\
  (forall r w tok,
      validTokenRequest r code ->
      fault (store w) = None ->
      deviceTokens (store w) !! code = Some tok ->
      DeviceToken.Status tok = deviceTokenPending ->
      After (clock w (ticks w)) (DeviceToken.Expiry tok) = false ->
      tooFast (clock w (ticks w)) tok = false ->
      let w' := snd (handleDeviceToken r w) in
      resp w' = (resp w ++ [contentTypeJSON;
                            TokenErr deviceTokenPending "" StatusUnauthorized])%list /\
      DeviceToken.PollIntervalSeconds <$> deviceTokens (store w') !! code = Some 5 /\
      DeviceToken.LastRequestTime <$> deviceTokens (store w') !! code
        = Some (clock w (ticks w))).
Proof.
  split.
  - intros n w w' tok0 Hf Hk Hrange Hrun.
    by destruct (EarlyPolls_interval code n w w' tok0 Hf Hk Hrange Hrun) as [_ H].
  - intros r w tok Hr Hf Hk Hst Hlive Hslow w'. subst w'.
    rewrite (handleDeviceToken_live r code w tok Hr Hf Hk Hlive).
    unfold polledWorld, slowDown, polled, prospectiveInterval.
    rewrite Hslow, Hst. cbn. rewrite lookup_insert_eq. by repeat split.
Qed.

(** ** D4 *)

Section CallbackProperties.
Context {Resp : Type} (env : Env Resp).

(** X5: a D4 request that is not a GET, that lacks [state] or [code], or
    that carries [error] is answered with status 400 and nothing else
    happens; the check of [state] and [code] comes first, so the message of
    an [error] is reported only when both are present. *)
Theorem handleDeviceCallback_invalid_request r w ev :
  callbackRequestError r = Some ev ->
  handleDeviceCallback env r w = (tt, respond [ev] w) /\
  eventStatus ev = Some StatusBadRequest /\
  (Method r = MethodGet ->
   Values.Get (Form r) "code" = "" ->
   ev = RenderError StatusBadRequest "Request was missing parameters").
Proof.
  unfold callbackRequestError, handleDeviceCallback.
  destruct (Method r =? MethodGet)%string eqn:Hm; cbn [negb].
  2:{ intros [= <-]. split; [reflexivity|]. split; [reflexivity|].
      intros Hget. by apply String.eqb_neq in Hm. }
  destruct ((Values.Get (Form r) "state" =? "")%string
            || (Values.Get (Form r) "code" =? "")%string) eqn:Hsc.
  { intros [= <-]. by repeat split. }
  destruct (Values.Get (Form r) "error" =? "")%string eqn:He; cbn [negb];
    [done|].
  intros [= <-]. split; [reflexivity|]. split; [reflexivity|].
  intros _ Hcode. rewrite Hcode in Hsc. cbn in Hsc.
  by rewrite orb_true_r in Hsc.
Qed.

(** X6: when the storage is down, or the auth code, the device request or
    the client is missing or expired, D4 answers with the error of the first
    lookup that fails (status 400 for the auth code, also when the storage
    is down; 500 for the device request and the client) and the storage is
    unchanged; the token exchange is not called, whatever the environment. *)
Theorem handleDeviceCallback_lookup_fails r w ev :
  callbackRequestError r = None ->
  callbackLookupError r w = Some ev ->
  let w' := snd (handleDeviceCallback env r w) in
  store w' = store w /\
  resp w' = (resp w ++ [ev])%list /\
  forall (env' : Env Resp),
    handleDeviceCallback env' r w = handleDeviceCallback env r w.
Proof.
  intros Hvalid Hlookup w'. subst w'.
  unfold callbackRequestError, callbackLookupError, handleDeviceCallback in *.
  destruct (Method r =? MethodGet)%string; cbn [negb] in *; [|done].
  destruct (_ || _); [done|].
  destruct (Values.Get (Form r) "error" =? "")%string; cbn [negb] in *; [|done].
  unfold Store.GetAuthCode, Store.GetDeviceRequest, Store.GetClient, Store.get.
  go_unfold. cbn.
  destruct (fault (store w)) eqn:Hf.
  { injection Hlookup as <-. cbn. by repeat split. }
  destruct (authCodes (store w) !! _) eqn:Ha.
  2:{ injection Hlookup as <-. cbn. by repeat split. }
  cbn. destruct (After _ (AuthCode.Expiry _)) eqn:Hal.
  { injection Hlookup as <-. cbn. by repeat split. }
  cbn. rewrite Hf. destruct (deviceRequests (store w) !! _) eqn:Hd.
  2:{ injection Hlookup as <-. cbn. by repeat split. }
  cbn. destruct (After _ (DeviceRequest.Expiry _)) eqn:Hdl.
  { injection Hlookup as <-. cbn. by repeat split. }
  cbn. rewrite Hf. destruct (clients (store w) !! _) eqn:Hc; [done|].
  injection Hlookup as <-. cbn. by repeat split.
Qed.

(** X7: when the auth code, the device request and the client are found
    and live, the exchange succeeds, the device token is found, live and not
    complete, and the token response marshals, D4 stores the token as
    complete with the marshalled response as its bytes, changes nothing
    else of the record, and renders the success page with the name of the
    client. *)
Theorem handleDeviceCallback_attaches r w a d c tr w2 tok body :
  callbackFound r w a d c ->
  exchangeAuthCode env a c (tick 2 w) = ((tr, None), w2) ->
  fault (store w2) = None ->
  deviceTokens (store w2) !! DeviceRequest.DeviceCode d = Some tok ->
  After (clock w2 (ticks w2)) (DeviceToken.Expiry tok) = false ->
  DeviceToken.Status tok <> deviceTokenComplete ->
  json_MarshalIndent env tr "" "  " = (body, None) ->
  handleDeviceCallback env r w =
    (tt, mkWorld
           (Store.put_deviceTokens
              (<[DeviceRequest.DeviceCode d := completed body tok]>
                 (deviceTokens (store w2))) (store w2))
           (clock w2) (S (ticks w2))
           (resp w2 ++ [TemplateDeviceSuccess (Client.Name c)])
           (logs w2 ++ templateLog env (TemplateDeviceSuccess (Client.Name c)))).
Proof.
  intros Hfound Hex Hf Hk Hlive Hst Hm.
  rewrite (handleDeviceCallback_found env r w a d c Hfound), Hex. cbn [fst snd not_nil].
  unfold Store.GetDeviceToken, Store.get.
  unfold bind at 1. rewrite Hf, Hk.
  unfold bind at 1. unfold failed_or_expired. cbn [not_nil].
  unfold bind at 1. unfold now at 1. unfold ret at 1. rewrite Hlive.
  match goal with
  | |- attachDeviceToken _ _ _ _ ?W = _ =>
      rewrite (attachDeviceToken_attaches env d c tr body tok W Hf Hk Hst Hm)
  end.
  reflexivity.
Qed.

(** X8: once the lookups have succeeded, D4 answers 500 and attaches
    nothing, the storage staying as the exchange left it, when the exchange
    fails, when the device token is missing or expired (the auth code has
    then been exchanged all the same) and when the token response does not
    marshal, in which case the error page is written twice. *)
Theorem handleDeviceCallback_fails_after_lookups r w a d c :
  callbackFound r w a d c ->
  let res := exchangeAuthCode env a c (tick 2 w) in
  let w2 := snd res in
  let w' := snd (handleDeviceCallback env r w) in
  (snd (fst res) <> None ->
   store w' = store w2 /\
   resp w' = (resp w2 ++ [RenderError StatusInternalServerError
                            "Failed to exchange auth code."])%list) /\
  (snd (fst res) = None ->
   fault (store w2) = None ->
   match deviceTokens (store w2) !! DeviceRequest.DeviceCode d with
   | None => True
   | Some tok => After (clock w2 (ticks w2)) (DeviceToken.Expiry tok) = true
   end ->
   store w' = store w2 /\
   resp w' = (resp w2 ++ [RenderError StatusInternalServerError
                            "Invalid or expired device code."])%list) /\
  (forall tok body e,
   snd (fst res) = None ->
   fault (store w2) = None ->
   deviceTokens (store w2) !! DeviceRequest.DeviceCode d = Some tok ->
   After (clock w2 (ticks w2)) (DeviceToken.Expiry tok) = false ->
   DeviceToken.Status tok <> deviceTokenComplete ->
   json_MarshalIndent env (fst (fst res)) "" "  " = (body, Some e) ->
   store w' = store w2 /\
   resp w' = (resp w2 ++ [RenderError StatusInternalServerError "";
                          RenderError StatusInternalServerError ""])%list).
Proof.
  intros Hfound res w2 w'. subst w'.
  rewrite (handleDeviceCallback_found env r w a d c Hfound).
  fold res. destruct res as [[tr err] w3] eqn:Hres. subst w2. cbn [fst snd].
  split; [|split].
  - intros Herr. destruct err; [|done]. cbn [not_nil]. go_run. split; reflexivity.
  - intros -> Hf Hk. cbn [not_nil].
    unfold Store.GetDeviceToken, Store.get. go_run. rewrite Hf.
    destruct (deviceTokens (store w3) !! _) as [tok|]; cbn;
      [rewrite Hk; cbn|]; split; reflexivity.
  - intros tok body e -> Hf Hk Hlive Hst Hm. cbn [not_nil].
    unfold Store.GetDeviceToken, Store.get, attachDeviceToken,
      Store.UpdateDeviceToken, Store.update, tokenCompleteUpdater.
    go_run. rewrite Hf, Hk. cbn. rewrite Hlive. cbn. rewrite Hf, Hk.
    rewrite (proj2 (String.eqb_neq _ _) Hst), Hm. go_run.
    rewrite <- app_assoc. split; reflexivity.
Qed.

End CallbackProperties.

(** ** D2 and D3 *)

Lemma ParseBool_true str : fst (ParseBool str) = true <-> spellsTrue str.
Proof.
  unfold ParseBool, spellsTrue. cbn [In].
  repeat match goal with
         | |- context [(str =? ?c)%string] =>
             destruct (String.eqb_spec str c) as [->|?]; cbn [orb fst]
         end.
  all: split; intros H; try reflexivity; try (cbn; tauto); try discriminate.
  all: try (exfalso; intuition congruence).
Qed.

Section PageProperties.
Context {Resp : Type} (env : Env Resp) (s : Server).

(** X9: a D3 request that is not a POST, whose body does not parse or that
    has no user code is answered with status 400 by the error of the first
    check it fails; the storage and the clock are not read. *)
Theorem verifyUserCode_invalid_request r w ev :
  verifyRequestError r = Some ev ->
  let w' := snd (verifyUserCode env s r w) in
  store w' = store w /\ ticks w' = ticks w /\
  resp w' = (resp w ++ [ev])%list /\
  eventStatus ev = Some StatusBadRequest.
Proof.
  intros Hev w'. subst w'. unfold verifyRequestError, verifyUserCode in *.
  destruct (Method r =? MethodPost)%string; cbn [negb] in *.
  2:{ injection Hev as <-. by repeat split. }
  destruct (ParseFormErr r); cbn [not_nil] in *.
  { injection Hev as <-. by repeat split. }
  destruct (Values.Get (Form r) "user_code" =? "")%string; [|done].
  injection Hev as <-. by repeat split.
Qed.

(** X10: D2 and D3 only read: whatever the request, the storage after
    them is the storage before, and the clock is read at most once. *)
Theorem pages_do_not_write r w :
  store (snd (verifyUserCode env s r w)) = store w /\
  (ticks (snd (verifyUserCode env s r w)) <= S (ticks w))%nat /\
  store (snd (handleDeviceExchange env s r w)) = store w /\
  ticks (snd (handleDeviceExchange env s r w)) = ticks w.
Proof.
  split; [apply verifyUserCode_store|].
  split; [|split; [apply handleDeviceExchange_store|]].
  - unfold verifyUserCode, Store.GetDeviceRequest, Store.get, templates_device.
    run_cases; lia.
  - unfold handleDeviceExchange, templates_device. run_cases; reflexivity.
Qed.

(** X11: D3 reads the user code through [strings.ToUpper] only: two
    requests that pass the validation and whose user codes have the same
    uppercase form are answered alike, so a code typed in lowercase gets
    what its uppercase spelling gets. *)
Theorem verifyUserCode_ignores_case r1 r2 code1 code2 w :
  validVerifyRequest r1 code1 ->
  validVerifyRequest r2 code2 ->
  GoStrings.ToUpper (unicode_upper env) code1
    = GoStrings.ToUpper (unicode_upper env) code2 ->
  verifyUserCode env s r1 w = verifyUserCode env s r2 w.
Proof.
  intros [Hm1 Hp1 Hc1 Hne1] [Hm2 Hp2 Hc2 Hne2] Hup.
  unfold verifyUserCode.
  rewrite Hm1, Hp1, Hc1, Hm2, Hp2, Hc2, Hup.
  by rewrite (proj2 (String.eqb_neq _ _) Hne1), (proj2 (String.eqb_neq _ _) Hne2).
Qed.

(** X12: when the storage is down D3 writes [server_error] with status 500
    and then renders the user-code page with [invalid = true]; when the
    device request is found and live but [url.Parse] refuses the [/auth]
    path, D3 answers 500 [Invalid auth URI.] and no redirect is sent. *)
Theorem verifyUserCode_failures r code w :
  validVerifyRequest r code ->
  let w' := snd (verifyUserCode env s r w) in
  let upper := GoStrings.ToUpper (unicode_upper env) code in
  (forall msg,
      fault (store w) = Some msg ->
      resp w' = (resp w ++
                   [TokenErr errServerError "" StatusInternalServerError;
                    TemplateDevice (getDeviceAuthURI env s) upper true])%list) /\
  (forall dr u e,
      fault (store w) = None ->
      deviceRequests (store w) !! upper = Some dr ->
      After (clock w (ticks w)) (DeviceRequest.Expiry dr) = false ->
      url_Parse env (path_Join env [URL.Path (issuerURL s); "/auth"]) = (u, Some e) ->
      resp w' = (resp w ++ [RenderError StatusInternalServerError
                              "Invalid auth URI."])%list).
Proof.
  intros [Hm Hp Hc Hne] w' upper. subst w' upper.
  unfold verifyUserCode.
  rewrite Hm, Hp, Hc, (proj2 (String.eqb_neq _ _) Hne).
  unfold Store.GetDeviceRequest, Store.get, templates_device. split.
  - intros msg Hf. go_run. rewrite Hf. cbn.
    destruct (template_err env _); go_run; by rewrite <- app_assoc.
  - intros dr u e Hf Hk Hlive Hu. go_run. rewrite Hf, Hk. cbn.
    rewrite Hlive. cbn. rewrite Hu. reflexivity.
Qed.

(** The page of D2 for a GET. *)
Lemma handleDeviceExchange_get r w :
  Method r = MethodGet ->
  exists invalid,
    resp (snd (handleDeviceExchange env s r w)) =
      (resp w ++
         [TemplateDevice
            (path_Join env [URL.Path (issuerURL s); "/device/auth/verify_code"])
            (Values.Get (URLQuery r) "user_code") invalid])%list /\
    (invalid = true <-> spellsTrue (Values.Get (URLQuery r) "invalid")).
Proof.
  unfold handleDeviceExchange, templates_device.
  intros ->. cbn [String.eqb].
  change (MethodGet =? MethodGet)%string with true. cbn iota.
  pose proof (ParseBool_true (Values.Get (URLQuery r) "invalid")) as Htrue.
  unfold ParseBool in *.
  repeat match goal with
         | |- context [if ?b then _ else _] =>
             destruct b; cbn [not_nil fst] in *
         end.
  all: eexists; (split; [go_run; by destruct (template_err env _)|]);
    exact Htrue.
Qed.

(** X13: D2 answers a request that is not a GET with status 400; for a GET
    it renders the user-code page once, posting to the verification path of
    the issuer, filled with the [user_code] of the query, and flagged
    invalid exactly when the [invalid] parameter is one of [1], [t], [T],
    [TRUE], [true], [True]: a parameter that does not parse counts as
    false. *)
Theorem handleDeviceExchange_page r w :
  let w' := snd (handleDeviceExchange env s r w) in
  (Method r <> MethodGet ->
   resp w' = (resp w ++ [RenderError StatusBadRequest
                           "Requested resource does not exist."])%list) /\
  (Method r = MethodGet ->
   exists invalid,
     resp w' = (resp w ++
                  [TemplateDevice
                     (path_Join env [URL.Path (issuerURL s);
                                     "/device/auth/verify_code"])
                     (Values.Get (URLQuery r) "user_code") invalid])%list /\
     (invalid = true <-> spellsTrue (Values.Get (URLQuery r) "invalid"))).
Proof.
  intros w'. subst w'. split.
  - intros Hm. unfold handleDeviceExchange.
    by rewrite (proj2 (String.eqb_neq _ _) Hm).
  - apply handleDeviceExchange_get.
Qed.

(** X14: for a user code that matches no device request, D3 writes what D2
    writes for a GET whose query has the uppercase code as [user_code] and
    an [invalid] parameter that reads as true. *)
Theorem verifyUserCode_unknown_is_page r code w r2 :
  validVerifyRequest r code ->
  fault (store w) = None ->
  deviceRequests (store w) !! GoStrings.ToUpper (unicode_upper env) code = None ->
  Method r2 = MethodGet ->
  Values.Get (URLQuery r2) "user_code" = GoStrings.ToUpper (unicode_upper env) code ->
  spellsTrue (Values.Get (URLQuery r2) "invalid") ->
  resp (snd (verifyUserCode env s r w)) = resp (snd (handleDeviceExchange env s r2 w)).
Proof.
  intros Hv Hf Hk Hget Hcode Htrue.
  rewrite (verifyUserCode_not_found env s r code w Hv Hf Hk). cbn [snd resp].
  destruct (handleDeviceExchange_get r2 w Hget) as (invalid & -> & Hinv).
  rewrite Hcode. by rewrite (proj2 Hinv Htrue).
Qed.

End PageProperties.

(** ** The limiter *)

Lemma limitsKeyed_insert st key r :
  limitsKeyed st ->
  RequestLimit.Key r = key ->
  limitsKeyed (Store.put_requestLimits (<[key := r]> (requestLimits st)) st).
Proof.
  intros Hkeyed Hr k r'. cbn. destruct (decide (key = k)) as [->|Hne].
  - rewrite lookup_insert_eq. by intros [= <-].
  - rewrite lookup_insert_ne by done. apply Hkeyed.
Qed.

Lemma dash_split a : forall a' x x',
  noDash a = true -> noDash a' = true ->
  (a ++ "-" ++ x)%string = (a' ++ "-" ++ x')%string ->
  a = a' /\ x = x'.
Proof.
  unfold noDash.
  induction a as [|c a IH]; intros [|c' a'] x x' Ha Ha' Heq; simpl in *.
  - injection Heq as Heq. by split.
  - injection Heq as Hc _. subst c'. by rewrite Ascii.eqb_refl in Ha'.
  - injection Heq as Hc _. subst c. by rewrite Ascii.eqb_refl in Ha.
  - injection Heq as Hc Heq. subst c'.
    apply andb_prop in Ha as [_ Ha]. apply andb_prop in Ha' as [_ Ha'].
    destruct (IH a' x x' Ha Ha' Heq) as [-> ->]. by split.
Qed.

Section LimiterMore.
Context {Resp : Type} (env : Env Resp).

(** X15: on an available storage [GetLastRequest] never fails and returns
    the record the storage then holds under the key: the stored record, with
    nothing written and the clock not read, for a key that is known; a new
    record of interval 0, created under the key with no other key touched,
    for a key that is not. Asked again at once, it returns the same record
    and writes nothing. *)
Theorem GetLastRequest_round_trip l key w :
  fault (store w) = None ->
  let res := Limiter.GetLastRequest l key w in
  let req := fst (fst res) in
  let w1 := snd res in
  snd (fst res) = None /\
  requestLimits (store w1) !! key = Some req /\
  Limiter.GetLastRequest l key w1 = ((req, None), w1) /\
  (forall r, requestLimits (store w) !! key = Some r -> req = r /\ w1 = w) /\
  (requestLimits (store w) !! key = None ->
   req = firstVisit l key w /\
   RequestLimit.Interval req = 0 /\
   forall k, k <> key -> requestLimits (store w1) !! k = requestLimits (store w) !! k).
Proof.
  intros Hf res req w1. subst req w1 res.
  unfold Limiter.GetLastRequest, Store.GetRequestLimit, Store.CreateRequestLimit,
    Store.get, Store.create, firstVisit.
  go_run. rewrite Hf.
  destruct (requestLimits (store w) !! key) as [r|] eqn:Hk; cbn.
  - rewrite Hf, Hk. cbn.
    split; [done|]. split; [done|]. split; [done|]. split; [|done].
    intros r' [= <-]. by destruct w.
  - rewrite Hf, Hk. cbn. rewrite Hf, lookup_insert_eq. cbn.
    split; [done|]. split; [done|]. split; [done|].
    split; [done|]. intros _. split; [done|]. split; [done|].
    intros k Hne. by apply lookup_insert_ne.
Qed.

(** X16: when the storage is down [GetLastRequest] returns its error with
    nothing created and the clock not read, and [UpdateRequest] returns the
    error, logs it and stores nothing; [UpdateRequest] for a key that the
    storage does not know returns [ErrNotFound] and stores nothing. *)
Theorem limiter_storage_errors l w :
  (forall msg key,
      fault (store w) = Some msg ->
      Limiter.GetLastRequest l key w
        = ((RequestLimit.zero, Some (ErrOther msg)), w)) /\
  (forall msg req,
      fault (store w) = Some msg ->
      fst (Limiter.UpdateRequest env l req w) = Some (ErrOther msg) /\
      store (snd (Limiter.UpdateRequest env l req w)) = store w /\
      ticks (snd (Limiter.UpdateRequest env l req w)) = ticks w) /\
  (forall req,
      fault (store w) = None ->
      requestLimits (store w) !! RequestLimit.Key req = None ->
      fst (Limiter.UpdateRequest env l req w) = Some ErrNotFound /\
      store (snd (Limiter.UpdateRequest env l req w)) = store w /\
      ticks (snd (Limiter.UpdateRequest env l req w)) = ticks w).
Proof.
  unfold Limiter.GetLastRequest, Limiter.UpdateRequest, Store.GetRequestLimit,
    Store.UpdateRequestLimit, Store.get, Store.update.
  split; [|split].
  - intros msg key Hf. go_run. by rewrite Hf.
  - intros msg req Hf. go_run. by rewrite Hf.
  - intros req Hf Hk. go_run. by rewrite Hf, Hk.
Qed.

(** X17: for an interval whose nanoseconds fit 64 bits (at most
    9223372036 s in absolute value) [IsLimited] holds exactly when the
    clock reads strictly less than [LastSeen] plus the interval: at the end
    of the interval the record is not limited, and a record of interval 0 is
    limited only by a clock that reads before its [LastSeen]. *)
Theorem IsLimited_exact l r w :
  intervalFits (RequestLimit.Interval r) ->
  (fst (Limiter.IsLimited l r w) = true <->
   clock w (ticks w) < RequestLimit.LastSeen r + RequestLimit.Interval r * 1000000000) /\
  snd (Limiter.IsLimited l r w) = tick 1 w.
Proof.
  intros Hfit. split; [|reflexivity].
  unfold Limiter.IsLimited, intervalFits in *. cbn.
  unfold Before, Add, GoInt.mul, Second.
  rewrite wrap64_id by (unfold GoInt.in_int64; lia).
  apply Z.ltb_lt.
Qed.

(** X18: [GetLastRequest] and [UpdateRequest] keep the table of request
    limits keyed: when every record is filed under its [Key] before the
    call, so it is after. *)
Theorem limiter_keeps_limits_keyed l w :
  limitsKeyed (store w) ->
  (forall key, limitsKeyed (store (snd (Limiter.GetLastRequest l key w)))) /\
  (forall req, limitsKeyed (store (snd (Limiter.UpdateRequest env l req w)))).
Proof.
  intros Hkeyed. split.
  - intros key.
    unfold Limiter.GetLastRequest, Store.GetRequestLimit,
      Store.CreateRequestLimit, Store.get, Store.create.
    go_run. destruct (fault (store w)) eqn:Hf; cbn; [done|].
    destruct (requestLimits (store w) !! key) eqn:Hk; cbn; [done|].
    rewrite Hf, Hk. cbn. by apply limitsKeyed_insert.
  - intros req.
    unfold Limiter.UpdateRequest, Store.UpdateRequestLimit, Store.update.
    unfold bind at 1.
    destruct (fault (store w)) eqn:Hf; [done|].
    destruct (requestLimits (store w) !! RequestLimit.Key req) as [limit|] eqn:Hk;
      [|done].
    rewrite updater_eq. cbn. apply limitsKeyed_insert; [done|].
    cbn. by apply Hkeyed.
Qed.

End LimiterMore.

(** ** The middleware *)

Section MiddlewareMore.
Context {Resp : Type} (env : Env Resp).

(** X19: when the storage is down the middleware adds the rate headers,
    logs the failure and answers 500; neither the on-limit hook nor the
    wrapped handler runs, nothing is stored and the clock is not read. *)
Theorem RequestLimitHandler_storage_down lmt next r w msg :
  fault (store w) = Some msg ->
  RequestLimitHandler env lmt next r w =
    (tt, mkWorld (store w) (clock w) (ticks w)
           (resp w ++ rateHeaders r ++ [RenderError StatusInternalServerError ""])
           (logs w ++ [Logged LError "Unexpected error getting request limit: %v"
                         (Some (ErrOther msg))])).
Proof.
  intros Hf.
  unfold RequestLimitHandler, LimitByRequest, setResponseHeaders,
    Limiter.GetLastRequest, Store.GetRequestLimit, Store.get.
  go_run. rewrite Hf. cbn. unfold rateHeaders. by rewrite <- !app_assoc.
Qed.

(** X20: the second request of a key. A first request for a key that the
    storage does not know is forwarded with a record of the base interval
    stored; a later request for the same key that finds this record is
    decided on it: when the clock at the decision reads less than the
    [LastSeen] the first request stored plus the base interval, the hook
    runs with the base interval as delay and the wrapped handler does not
    run; otherwise the wrapped handler runs. *)
Theorem RequestLimitHandler_second_request lmt next r w :
  fault (store w) = None ->
  requestLimits (store w) !! requestKey env r = None ->
  clock w (ticks w) <= clock w (5 + ticks w)%nat ->
  let first :=
    RequestLimit.mk (requestKey env r) (Limiter.baseSeconds env lmt)
      (clock w (3 + ticks w)%nat)
      (Add (clock w (4 + ticks w)%nat) (Limiter.defaultExpireTime lmt)) in
  let forwarded :=
    storeLimit (requestKey env r) first (tick 6 (respond (rateHeaders r) w)) in
  RequestLimitHandler env lmt next r w = next r forwarded /\
  forall w1,
    fault (store w1) = None ->
    requestLimits (store w1) !! requestKey env r = Some first ->
    let w2 := storeLimit (requestKey env r) (advanced env lmt w1 first)
                (tick 4 (respond (rateHeaders r) w1)) in
    RequestLimitHandler env lmt next r w1 =
      if clock w1 (3 + ticks w1)%nat <?
           clock w (3 + ticks w)%nat
           + GoInt.mul (Limiter.baseSeconds env lmt) Second
      then Limiter.ExecOnLimitReached lmt r (Limiter.baseSeconds env lmt) w2
      else next r w2.
Proof.
  intros Hf Hk Hclock first forwarded. split.
  - apply (RequestLimitHandler_first env lmt next r w Hf Hk Hclock).
  - intros w1 Hf1 Hstored w2.
    rewrite (RequestLimitHandler_known env lmt next r w1 first Hf1 Hstored eq_refl).
    subst w2. unfold limitedAt, Before, Add.
    cbn [RequestLimit.LastSeen RequestLimit.Interval first].
    by destruct (_ <? _).
Qed.

(** X21: the key of the middleware separates requests: when the methods
    and the client addresses contain no [-], two requests have the same key
    only if they have the same method, the same client address and the same
    path. *)
Theorem requestKey_injective r1 r2 :
  noDash (Method r1) = true -> noDash (Method r2) = true ->
  noDash (GetIP env r1) = true -> noDash (GetIP env r2) = true ->
  requestKey env r1 = requestKey env r2 ->
  Method r1 = Method r2 /\ GetIP env r1 = GetIP env r2 /\ URLPath r1 = URLPath r2.
Proof.
  intros Hm1 Hm2 Hi1 Hi2 Hkey. unfold requestKey in Hkey. cbn in Hkey.
  destruct (dash_split _ _ _ _ Hm1 Hm2 Hkey) as [Hm Hrest].
  destruct (dash_split _ _ _ _ Hi1 Hi2 Hrest) as [Hi Hp].
  by repeat split.
Qed.

End MiddlewareMore.

(** ** D1 *)

Section DeviceCodeProperties.
Context {Resp : Type} (env : Env Resp) (s : Server).
Context (encodeJSON : DeviceCodeResponse.t -> string).
Context (errorText : error -> string).

Local Abbreviation D1 := (handleDeviceCode env s encodeJSON errorText).

(** The storage after a D1 that created both records. *)
Lemma handleDeviceCode_stores drawn r w :
  deviceCodeFresh drawn r w ->
  store (snd (D1 drawn r w)) =
    Store.put_deviceTokens
      (<[Drawn.NewDeviceCode drawn := tokenCreated s drawn]> (deviceTokens (store w)))
      (Store.put_deviceRequests
         (<[Drawn.NewUserCode drawn := requestCreated s drawn r]>
            (deviceRequests (store w))) (store w)) /\
  ticks (snd (D1 drawn r w)) = ticks w.
Proof.
  intros [Hm Hp Hf Hu Hd]. unfold handleDeviceCode.
  rewrite Hm, Hp. cbn [String.eqb].
  change (MethodPost =? MethodPost)%string with true. cbn iota.
  unfold Store.CreateDeviceRequest, Store.CreateDeviceToken, Store.create.
  go_run. rewrite Hf, Hu. cbn. rewrite Hf, Hd. cbn.
  destruct (url_Parse env _) as [u [e|]]; cbn; by split.
Qed.

(** X22: a D1 request that parses, on an available storage in which the
    user code and the device code drawn are free, creates the device request
    under the user code and the device token under the device code: the two
    carry the same device code and the same expiry (the first reading of
    the wall clock plus the validity), the token is pending with no token
    bytes and a poll interval of 5 seconds; no other record changes, and the
    injected clock is not read. *)
Theorem handleDeviceCode_creates drawn r w :
  deviceCodeFresh drawn r w ->
  let w' := snd (D1 drawn r w) in
  let expiry := Add (Drawn.Now1 drawn) (deviceRequestsValidFor s) in
  deviceRequests (store w') !! Drawn.NewUserCode drawn =
    Some (DeviceRequest.mk (Drawn.NewUserCode drawn) (Drawn.NewDeviceCode drawn)
            (Values.Get (Form r) "client_id") (default [] (Form r !! "scope"))
            expiry) /\
  deviceTokens (store w') !! Drawn.NewDeviceCode drawn =
    Some (DeviceToken.mk (Drawn.NewDeviceCode drawn) deviceTokenPending ""
            expiry (Drawn.Now2 drawn) 5) /\
  (forall k, k <> Drawn.NewUserCode drawn ->
             deviceRequests (store w') !! k = deviceRequests (store w) !! k) /\
  (forall k, k <> Drawn.NewDeviceCode drawn ->
             deviceTokens (store w') !! k = deviceTokens (store w) !! k) /\
  requestLimits (store w') = requestLimits (store w) /\
  ticks w' = ticks w.
Proof.
  intros Hfresh w' expiry. subst w' expiry.
  destruct (handleDeviceCode_stores drawn r w Hfresh) as [-> ->]. cbn.
  rewrite !lookup_insert_eq. repeat split.
  - intros k Hne. by apply lookup_insert_ne.
  - intros k Hne. by apply lookup_insert_ne.
Qed.

(** X23: the answer of a D1 that created both records, when [url.Parse]
    accepts the issuer URL: one body, the encoding of a response that
    carries the two codes drawn, the interval 5, the validity in seconds, the
    issuer URL with [device] joined to its path as verification URI, and as
    complete URI the same URL with a query whose [user_code] is the user
    code. *)
Theorem handleDeviceCode_answer drawn r w u :
  deviceCodeFresh drawn r w ->
  url_Parse env (URL_String env (issuerURL s)) = (u, None) ->
  let page := URL_with_Path (path_Join env [URL.Path u; "device"]) u in
  let q := Values.Set_ "user_code" (Drawn.NewUserCode drawn) (URL_Query env page) in
  resp (snd (D1 drawn r w)) =
    (resp w ++
     [Write (encodeJSON
               (DeviceCodeResponse.mk (Drawn.NewDeviceCode drawn)
                  (Drawn.NewUserCode drawn)
                  (URL_String env page)
                  (URL_String env (URL.with_RawQuery (Values_Encode env q) page))
                  (GoInt.wrap64 (Duration_Seconds env (deviceRequestsValidFor s)))
                  5))])%list /\
  Values.Get q "user_code" = Drawn.NewUserCode drawn.
Proof.
  intros [Hm Hp Hf Hu Hd] Hparse page q. subst page q.
  unfold handleDeviceCode.
  rewrite Hm, Hp. cbn [String.eqb].
  change (MethodPost =? MethodPost)%string with true. cbn iota.
  unfold Store.CreateDeviceRequest, Store.CreateDeviceToken, Store.create.
  go_run. rewrite Hf, Hu. cbn. rewrite Hf, Hd. cbn. rewrite Hparse. cbn.
  split; [reflexivity|apply Get_Set_eq].
Qed.

(** X24: the failures of D1 once the form has parsed. When the storage is
    down or the user code drawn is taken, the answer is 500 and nothing is
    stored. When the user code is free and the device code drawn is taken,
    the answer is 500 and the device request stays stored without a device
    token. When both records are stored and [url.Parse] refuses the issuer
    URL, the answer is 500 and both records stay stored. *)
Theorem handleDeviceCode_failures drawn r w :
  Method r = MethodPost ->
  ParseFormErr r = None ->
  let w' := snd (D1 drawn r w) in
  ((fault (store w) <> None \/
    (fault (store w) = None /\
     deviceRequests (store w) !! Drawn.NewUserCode drawn <> None)) ->
   store w' = store w /\
   resp w' = (resp w ++ [TokenErr errServerError "Could not create device request"
                           StatusInternalServerError])%list) /\
  (fault (store w) = None ->
   deviceRequests (store w) !! Drawn.NewUserCode drawn = None ->
   deviceTokens (store w) !! Drawn.NewDeviceCode drawn <> None ->
   deviceRequests (store w') !! Drawn.NewUserCode drawn
     = Some (requestCreated s drawn r) /\
   deviceTokens (store w') = deviceTokens (store w) /\
   resp w' = (resp w ++ [TokenErr errServerError "Could not create device token"
                           StatusInternalServerError])%list) /\
  (forall u e,
   deviceCodeFresh drawn r w ->
   url_Parse env (URL_String env (issuerURL s)) = (u, Some e) ->
   deviceRequests (store w') !! Drawn.NewUserCode drawn
     = Some (requestCreated s drawn r) /\
   deviceTokens (store w') !! Drawn.NewDeviceCode drawn = Some (tokenCreated s drawn) /\
   resp w' = (resp w ++ [RenderError StatusInternalServerError ""])%list).
Proof.
  intros Hm Hp w'. subst w'. unfold handleDeviceCode.
  rewrite Hm, Hp. cbn [String.eqb].
  change (MethodPost =? MethodPost)%string with true. cbn iota.
  unfold Store.CreateDeviceRequest, Store.CreateDeviceToken, Store.create.
  go_run. split; [|split].
  - intros [Hf|[Hf Hu]].
    + destruct (fault (store w)); [|done]. cbn. by split.
    + rewrite Hf. destruct (deviceRequests (store w) !! _); [|done]. cbn. by split.
  - intros Hf Hu Hd. rewrite Hf, Hu. cbn. rewrite Hf.
    destruct (deviceTokens (store w) !! _); [|done]. cbn.
    rewrite lookup_insert_eq. by repeat split.
  - intros u e [_ _ Hf Hu Hd] Hparse.
    rewrite Hf, Hu. cbn. rewrite Hf, Hd. cbn. rewrite Hparse. cbn.
    rewrite !lookup_insert_eq. by repeat split.
Qed.

(** X25: a D1 request that is not a POST gets two error answers on the same
    response, the error page and then [invalid_request], both with status
    400; a POST whose form does not parse gets [invalid_request] with status
    400. In both cases nothing is stored. *)
Theorem handleDeviceCode_invalid_request drawn r w :
  let w' := snd (D1 drawn r w) in
  (Method r <> MethodPost ->
   store w' = store w /\
   resp w' = (resp w ++
                [RenderError StatusBadRequest "Invalid device code request type";
                 TokenErr errInvalidRequest "Invalid device code request type"
                   StatusBadRequest])%list) /\
  (forall err,
   Method r = MethodPost ->
   ParseFormErr r = Some err ->
   store w' = store w /\
   resp w' = (resp w ++
                [TokenErr errInvalidRequest
                   ("Could not parse Device Request body: " ++ errorText err)
                   StatusBadRequest])%list).
Proof.
  intros w'. subst w'. unfold handleDeviceCode. split.
  - intros Hm. rewrite (proj2 (String.eqb_neq _ _) Hm). go_run.
    rewrite <- app_assoc. by split.
  - intros err -> ->. by split.
Qed.

(** X26: the device that D1 registered can be polled with the device code
    D1 answered. A poll that reads the injected clock not after the expiry
    finds the token pending: it is answered [slow_down] and then
    [authorization_pending] when the clock reads less than 5 seconds after
    the second reading of the wall clock by D1, and [authorization_pending]
    alone otherwise. *)
Theorem handleDeviceCode_then_poll drawn r w poll clk n :
  deviceCodeFresh drawn r w ->
  validTokenRequest poll (Drawn.NewDeviceCode drawn) ->
  After (clk n) (Add (Drawn.Now1 drawn) (deviceRequestsValidFor s)) = false ->
  let w1 := mkWorld (store (snd (D1 drawn r w))) clk n [] [] in
  resp (snd (handleDeviceToken poll w1)) =
    if clk n <? Drawn.Now2 drawn + 5000000000
    then [contentTypeJSON;
          TokenErr deviceTokenSlowDown "" StatusBadRequest;
          TokenErr deviceTokenPending "" StatusUnauthorized]
    else [contentTypeJSON; TokenErr deviceTokenPending "" StatusUnauthorized].
Proof.
  intros Hfresh Hpoll Hlive w1.
  destruct (handleDeviceCode_stores drawn r w Hfresh) as [Hstore _].
  assert (Hf1 : fault (store w1) = None).
  { subst w1. cbn. rewrite Hstore. cbn. apply Hfresh. }
  assert (Hk1 : deviceTokens (store w1) !! Drawn.NewDeviceCode drawn
                = Some (tokenCreated s drawn)).
  { subst w1. cbn. rewrite Hstore. cbn. apply lookup_insert_eq. }
  rewrite (handleDeviceToken_live poll _ w1 (tokenCreated s drawn) Hpoll Hf1 Hk1 Hlive).
  unfold polledWorld, slowDown, tooFast, tokenCreated, seconds. cbn.
  change (GoInt.mul Second 5) with 5000000000.
  unfold Before, Add. by destruct (_ <? _).
Qed.

(** X27: the user code that D1 answered opens the login. A D3 request
    whose user code has that code as uppercase form, and that reads the
    injected clock not after the expiry, is redirected with status 302 to
    the [/auth] URL with a query that carries the client and the scopes
    posted to D1, joined by spaces, and the user code as [state]. *)
Theorem handleDeviceCode_then_verify drawn r w verify code clk n u :
  deviceCodeFresh drawn r w ->
  validVerifyRequest verify code ->
  GoStrings.ToUpper (unicode_upper env) code = Drawn.NewUserCode drawn ->
  After (clk n) (Add (Drawn.Now1 drawn) (deviceRequestsValidFor s)) = false ->
  url_Parse env (path_Join env [URL.Path (issuerURL s); "/auth"]) = (u, None) ->
  let w1 := mkWorld (store (snd (D1 drawn r w))) clk n [] [] in
  exists q,
    resp (snd (verifyUserCode env s verify w1)) =
      [HttpRedirect (URL_String env (URL.with_RawQuery (Values_Encode env q) u))
         StatusFound] /\
    Values.Get q "client_id" = Values.Get (Form r) "client_id" /\
    Values.Get q "scope" = GoStrings.Join (default [] (Form r !! "scope")) " " /\
    Values.Get q "state" = Drawn.NewUserCode drawn.
Proof.
  intros Hfresh [Hm Hp Hc Hne] Hup Hlive Hparse w1.
  destruct (handleDeviceCode_stores drawn r w Hfresh) as [Hstore _].
  exists (authQuery env s (requestCreated s drawn r) (URL_Query env u)).
  split.
  - unfold verifyUserCode.
    rewrite Hm, Hp, Hc, (proj2 (String.eqb_neq _ _) Hne), Hup.
    unfold Store.GetDeviceRequest, Store.get. go_run.
    rewrite Hstore. cbn. rewrite (dc_store _ _ _ Hfresh), lookup_insert_eq. cbn.
    rewrite Hlive. cbn. rewrite Hparse. reflexivity.
  - unfold authQuery.
    repeat split;
      repeat first [ apply Get_Set_eq
                   | rewrite Get_Set_ne by discriminate ].
Qed.

End DeviceCodeProperties.

Module Scenario.
Import Fixture.

Lemma pollRequest_valid : validTokenRequest pollRequest "dev1".
Proof. by split. Defined.

(** S1: the poll after the wait is answered [authorization_pending]. *)
Example poll_pending_passes :
  response (handleDeviceToken pollRequest) (world (storageWith pending1) [sec 6])
  = [contentTypeJSON; TokenErr deviceTokenPending "" StatusUnauthorized].
Proof. vm_compute. reflexivity. Qed.

(** S1: the callback attaches the token, and the poll that follows after
    the interval gets its bytes with status 200. *)
Example callback_then_poll :
  let w0 := world (storageWith pending1) [sec 2; sec 2; sec 2; sec 6] in
  let w1 := exec (handleDeviceCallback env (callbackRequest "ac1")) w0 in
  resp w1 = [TemplateDeviceSuccess "Client One"] /\
  deviceTokens (store w1) !! "dev1" = Some (completed "token for ac1" pending1) /\
  response (handleDeviceToken pollRequest) w1 =
    [contentTypeJSON; Write "token for ac1"] /\
  responseStatus (response (handleDeviceToken pollRequest) w1) = Some StatusOK.
Proof. by vm_compute. Qed.

(** S5, one callback after the other: the second is answered 500 and the
    token of the first stays. *)
Example callback_twice :
  let w0 := world (storageWith pending1) [sec 2] in
  let w1 := exec (handleDeviceCallback env (callbackRequest "ac1")) w0 in
  let w2 := exec (handleDeviceCallback env (callbackRequest "ac2")) w1 in
  resp w2 = [TemplateDeviceSuccess "Client One";
             RenderError StatusInternalServerError ""] /\
  deviceTokens (store w2) !! "dev1" = Some (completed "token for ac1" pending1).
Proof. by vm_compute. Qed.

(** S2 as the code runs it: after one early poll the interval grows by 5 at
    every poll that comes 5 or 6 seconds after the previous one. *)
Example polls_after_an_early_poll :
  let w0 := world (storageWith pending1) [sec 1; sec 7; sec 12] in
  let w1 := exec (handleDeviceToken pollRequest) w0 in
  let w2 := exec (handleDeviceToken pollRequest) w1 in
  let w3 := exec (handleDeviceToken pollRequest) w2 in
  let early := [contentTypeJSON;
                TokenErr deviceTokenSlowDown "" StatusBadRequest;
                TokenErr deviceTokenPending "" StatusUnauthorized] in
  resp w3 = (early ++ early ++ early)%list /\
  deviceTokens (store w3) !! "dev1" =
    Some (DeviceToken.mk "dev1" deviceTokenPending "" (sec 600) (sec 12) 20).
Proof. by vm_compute. Qed.

(** C2: a D5 call at 601 s on a token stored with expiry 600 s, a lookup
    that succeeds on an expired record, is answered [server_error] with
    status 500 where the claim has [expired_token] with status 400. *)
Theorem expired_token_answered_server_error :
  let w := world (storageWith pending1) [sec 601] in
  deviceTokens (store w) !! "dev1" = Some pending1 /\
  After (clock w (ticks w)) (DeviceToken.Expiry pending1) = true /\
  response (handleDeviceToken pollRequest) w =
    [contentTypeJSON;
     TokenErr errServerError "Device code not found" StatusInternalServerError] /\
  responseStatus (response (handleDeviceToken pollRequest) w) =
    Some StatusInternalServerError.
Proof. vm_compute. repeat split; reflexivity. Qed.

(** C3: a D5 call on a completed token that comes before
    [last_request_time + poll_interval_seconds] writes [slow_down] with
    status 400 and then the token bytes: the status of the response is 400
    where the claim has 200. *)
Theorem complete_token_polled_too_fast :
  let w := world (storageWith complete1) [sec 1] in
  tooFast (clock w (ticks w)) complete1 = true /\
  response (handleDeviceToken pollRequest) w =
    [contentTypeJSON;
     TokenErr deviceTokenSlowDown "" StatusBadRequest;
     Write (DeviceToken.Token complete1)] /\
  responseStatus (response (handleDeviceToken pollRequest) w) =
    Some StatusBadRequest.
Proof. vm_compute. repeat split; reflexivity. Qed.

(** C4 fails as stated: a pending token with interval 5 polled at 1 s is
    rejected with [slow_down] and stored with interval 10. *)
Lemma slow_down_changes_stored_interval :
  let w := world (storageWith pending1) [sec 1] in
  let w' := snd (handleDeviceToken pollRequest w) in
  In (TokenErr deviceTokenSlowDown "" StatusBadRequest) (resp w') /\
  DeviceToken.PollIntervalSeconds <$> deviceTokens (store w) !! "dev1" = Some 5 /\
  DeviceToken.PollIntervalSeconds <$> deviceTokens (store w') !! "dev1" = Some 10 /\
  ~ (DeviceToken.PollIntervalSeconds <$> deviceTokens (store w') !! "dev1" =
     DeviceToken.PollIntervalSeconds <$> deviceTokens (store w) !! "dev1").
Proof. vm_compute. repeat split; auto; discriminate. Qed.

Lemma slow_down_interval_persisted_witness :
  let w := world (storageWith pending1) [sec 1] in
  let w' := snd (handleDeviceToken pollRequest w) in
  validTokenRequest pollRequest "dev1" /\
  deviceTokens (store w) !! "dev1" = Some pending1 /\
  After (clock w (ticks w)) (DeviceToken.Expiry pending1) = false /\
  tooFast (clock w (ticks w)) pending1 = true /\
  deviceTokens (store w') !! "dev1" =
    Some (DeviceToken.mk "dev1" deviceTokenPending "" (sec 600) (sec 1) 10).
Proof.
  intros w w'. split; [exact pollRequest_valid|]. repeat (split; [reflexivity|]).
  apply (slow_down_interval_persisted pollRequest "dev1" w pending1
           pollRequest_valid); reflexivity.
Defined.

(** C5 fails as stated: a completed token polled at 6 s keeps the
    [last_request_time] 0 it had. *)
Lemma poll_of_complete_keeps_last_request_time :
  let w := world (storageWith complete1) [sec 6] in
  let w' := snd (handleDeviceToken pollRequest w) in
  clock w (ticks w) = sec 6 /\
  resp w' = [contentTypeJSON; Write (DeviceToken.Token complete1)] /\
  DeviceToken.LastRequestTime <$> deviceTokens (store w') !! "dev1" = Some 0 /\
  ~ (DeviceToken.LastRequestTime <$> deviceTokens (store w') !! "dev1" =
     Some (clock w (ticks w))).
Proof. vm_compute. repeat split; auto; discriminate. Qed.

Lemma poll_advances_last_request_time_witness :
  let w := world (storageWith pending1) [sec 1] in
  let w' := snd (handleDeviceToken pollRequest w) in
  validTokenRequest pollRequest "dev1" /\
  deviceTokens (store w) !! "dev1" = Some pending1 /\
  After (clock w (ticks w)) (DeviceToken.Expiry pending1) = false /\
  In (TokenErr deviceTokenSlowDown "" StatusBadRequest) (resp w') /\
  DeviceToken.LastRequestTime <$> deviceTokens (store w') !! "dev1" = Some (sec 1).
Proof.
  intros w w'. split; [exact pollRequest_valid|]. repeat (split; [reflexivity|]).
  split; [vm_compute; auto|].
  apply (poll_advances_last_request_time pollRequest "dev1" w pending1
           pollRequest_valid); reflexivity.
Defined.

(** C9: a D3 call at 601 s for the user code of a device request stored
    with expiry 600 s, a matching request that is expired, writes
    [server_error] with status 500 before it renders the user-code page with
    [invalid = true]: the response is not the page of D2, which a code
    that matches no request gets. *)
Theorem expired_user_code_answered_server_error :
  let w := world (storageWith pending1) [sec 601] in
  let page := TemplateDevice "/dex/device/auth/verify_code" "BCDFGHJK" true in
  deviceRequests (store w) !! "BCDFGHJK" = Some request1 /\
  After (clock w (ticks w)) (DeviceRequest.Expiry request1) = true /\
  response (verifyUserCode env server verifyRequest) w =
    [TokenErr errServerError "" StatusInternalServerError; page] /\
  responseStatus (response (verifyUserCode env server verifyRequest) w) =
    Some StatusInternalServerError /\
  response (verifyUserCode env server verifyRequest) (world emptyStorage [sec 601])
    = [page] /\
  response (handleDeviceExchange env server
              (get_ "/dex/device" [("user_code", "BCDFGHJK"); ("invalid", "true")])) w
    = [page].
Proof. vm_compute. repeat split; reflexivity. Qed.

Lemma verifyRequest_valid : validVerifyRequest verifyRequest "bcdfghjk".
Proof. by split. Defined.

(** S1 and S6: the user code typed in lowercase is redirected to [/auth]. *)
Lemma verifyUserCode_redirect_witness :
  let w := world (storageWith pending1) [sec 10] in
  GoStrings.ToUpper (unicode_upper env) "bcdfghjk" = "BCDFGHJK" /\
  deviceRequests (store w) !! "BCDFGHJK" = Some request1 /\
  verifyUserCode env server verifyRequest w =
    (tt, mkWorld (store w) (clock w) 1
           [HttpRedirect
              ("/dex/auth?client_id=c1&redirect_uri=%2Fdex%2Fdevice%2Fcallback" ++
               "&response_type=code&scope=openid+email&state=BCDFGHJK")
              StatusFound]
           []).
Proof.
  intros w. split; [reflexivity|]. split; [reflexivity|].
  destruct (verifyUserCode_redirect env server verifyRequest "bcdfghjk" w request1
              (URL.mk "" "" "/dex/auth" "") verifyRequest_valid
              eq_refl eq_refl eq_refl eq_refl) as [Hredirect _].
  rewrite Hredirect. vm_compute. reflexivity.
Defined.

(** C8 fails as stated: for the issuer [https://dex.example.com/dex], the
    lowercase user code of a stored device request that has not expired is
    redirected with status 302 to [/auth] with a [redirect_uri] that is the
    path [/dex/device/callback], without scheme and host, where the claim
    has the issuer followed by [/device/callback]. *)
Lemma redirect_uri_is_a_path :
  let w := world (storageWith pending1) [sec 10] in
  let q := authQuery env1 server request1 empty in
  URL_String env1 (issuerURL server) = "https://dex.example.com/dex" /\
  deviceRequests (store w) !! GoStrings.ToUpper (unicode_upper env1) "bcdfghjk"
    = Some request1 /\
  After (clock w (ticks w)) (DeviceRequest.Expiry request1) = false /\
  response (verifyUserCode env1 server verifyRequest) w =
    [HttpRedirect ("/dex/auth?" ++ Values_Encode env1 q) StatusFound] /\
  Values_Encode env1 q =
    "client_id=c1&redirect_uri=%2Fdex%2Fdevice%2Fcallback" ++
    "&response_type=code&scope=openid+email&state=BCDFGHJK" /\
  Values.Get q "redirect_uri" = "/dex/device/callback" /\
  claimedRedirectURI env1 server = "https://dex.example.com/dex/device/callback" /\
  Values.Get q "redirect_uri" <> claimedRedirectURI env1 server.
Proof. vm_compute. repeat split; try reflexivity. discriminate. Qed.

Lemma exchange_keeps_tokens : exchangeKeepsTokens env.
Proof. intros a c w. reflexivity. Defined.

Lemma callback_found :
  callbackFound (callbackRequest "ac1") (world (storageWith pending1) [sec 2])
    (AuthCode.mk "ac1" (sec 300)) request1 (Client.mk "c1" "Client One").
Proof. split; by vm_compute. Defined.

Lemma callback_reaches_update :
  let w := world (storageWith pending1) [sec 2] in
  reachesUpdate env (callbackRequest "ac1") w
    (AuthCode.mk "ac1" (sec 300)) request1 (Client.mk "c1" "Client One")
    "token for ac1" (tick 2 w) pending1.
Proof. split; [exact callback_found|by vm_compute..]. Defined.

(** The second callback, on the storage that the first left and a response
    of its own. *)
Lemma second_callback_reaches_update :
  let w := world (storageWith pending1) [sec 2] in
  let wA := snd (handleDeviceCallback env (callbackRequest "ac1") w) in
  let v := mkWorld (store wA) (clock wA) (ticks wA) [] [] in
  reachesUpdate env (callbackRequest "ac2") v
    (AuthCode.mk "ac2" (sec 300)) request1 (Client.mk "c1" "Client One")
    "token for ac2" (tick 2 v) (completed "token for ac1" pending1).
Proof. split; [split|..]; by vm_compute. Defined.

(** S5: two callbacks for [dev1], one after the other; two updates that
    race; then the token is polled and a third completion is tried. *)
Lemma completion_is_final_witness :
  let client := Client.mk "c1" "Client One" in
  let w := world (storageWith pending1) [sec 2] in
  let wA := snd (handleDeviceCallback env (callbackRequest "ac1") w) in
  let v := mkWorld (store wA) (clock wA) (ticks wA) [] [] in
  let wB := snd (handleDeviceCallback env (callbackRequest "ac2") v) in
  let uA := snd (attachDeviceToken env request1 client "token A" w) in
  let uB := snd (attachDeviceToken env request1 client "token B" uA) in
  let wC := snd (handleDeviceCallback env (callbackRequest "ac2")
                   (snd (handleDeviceToken pollRequest wB))) in
  (resp wA = [TemplateDeviceSuccess "Client One"] /\
   deviceTokens (store wA) !! "dev1" = Some (completed "token for ac1" pending1) /\
   resp wB = [RenderError StatusInternalServerError ""] /\
   responseStatus (resp wB) = Some StatusInternalServerError /\
   store wB = store wA /\
   deviceTokens (store wB) !! "dev1" = Some (completed "token for ac1" pending1)) /\
  (resp uA = [TemplateDeviceSuccess "Client One"] /\
   deviceTokens (store uA) !! "dev1" = Some (completed "token A" pending1) /\
   resp uB = [TemplateDeviceSuccess "Client One";
              RenderError StatusInternalServerError ""] /\
   store uB = store uA) /\
  exists tok, deviceTokens (store wC) !! "dev1" = Some tok /\
    DeviceToken.Status tok = deviceTokenComplete /\
    DeviceToken.Token tok = "token for ac1".
Proof.
  intros client w wA v wB uA uB wC.
  destruct (completion_is_final env server)
    as (Hfinal & _ & _ & Hrejected & _ & Hsequence & _ & Hrace).
  split; [|split].
  - destruct (Hsequence (callbackRequest "ac1") (callbackRequest "ac2") w v
                (AuthCode.mk "ac1" (sec 300)) (AuthCode.mk "ac2" (sec 300))
                request1 client client "token for ac1" "token for ac2"
                (tick 2 w) (tick 2 v) pending1 (completed "token for ac1" pending1)
                "token for ac1" exchange_keeps_tokens callback_reaches_update
                ltac:(discriminate) eq_refl eq_refl second_callback_reaches_update)
      as (HrA & HkA & HrB & HsB & HkB).
    destruct (Hrejected (callbackRequest "ac2") v
                (AuthCode.mk "ac2" (sec 300)) request1 client "token for ac2"
                (tick 2 v) (completed "token for ac1" pending1)
                second_callback_reaches_update eq_refl) as [_ Hstatus].
    split; [exact HrA|]. split; [exact HkA|]. split; [exact HrB|].
    split; [exact (Hstatus eq_refl)|]. split; [exact HsB|exact HkB].
  - pose proof (Hrace w "dev1" pending1 request1 client
                  "token A" "token A" request1 client
                  "token B" eq_refl eq_refl ltac:(discriminate) eq_refl eq_refl
                  eq_refl) as H.
    vm_compute in H. vm_compute. exact H.
  - assert (Hk : deviceTokens (store wB) !! "dev1"
                 = Some (completed "token for ac1" pending1))
      by (vm_compute; reflexivity).
    assert (Hsteps : Steps env server wB wC).
    { eapply steps_cons; [apply (step_poll env server pollRequest)|].
      eapply steps_cons; [apply (step_callback env server (callbackRequest "ac2"))|].
      apply steps_nil. }
    exact (Hfinal wB wC "dev1" _ exchange_keeps_tokens Hsteps Hk eq_refl).
Defined.

(** Two updates one second apart, each inside the interval: 5, 10, 15. *)
Lemma UpdateRequest_transformation_witness :
  let w := world storageLimited [sec 1; sec 1; sec 1; sec 2] in
  let w1 := snd (Limiter.UpdateRequest env limiter limit1 w) in
  let w2 := snd (Limiter.UpdateRequest env limiter limit1 w1) in
  let base := Limiter.baseSeconds env limiter in
  (base = 5 /\
   RequestLimit.Interval <$> requestLimits (store w) !! pollKey = Some 5 /\
   RequestLimit.Interval <$> requestLimits (store w1) !! pollKey = Some 10 /\
   RequestLimit.Interval <$> requestLimits (store w2) !! pollKey = Some 15) /\
  exists r, requestLimits (store w2) !! pollKey = Some r /\
    RequestLimit.Interval r = GoInt.wrap64 ((Z.of_nat 2 + 1) * base) /\
    (GoInt.in_int64 ((Z.of_nat 2 + 1) * base) ->
     RequestLimit.Interval r = (Z.of_nat 2 + 1) * base).
Proof.
  intros w w1 w2 base. split; [by vm_compute|].
  destruct (UpdateRequest_transformation env limiter) as [_ Hrun].
  pose (limit2 := RequestLimit.mk pollKey 10 (sec 1) (sec 61)).
  assert (Hf : fault (store w) = None) by (vm_compute; reflexivity).
  assert (Hk0 : requestLimits (store w) !! pollKey = Some limit1)
    by (vm_compute; reflexivity).
  assert (Hl0 : limitedAt (clock w (ticks w)) limit1 = true)
    by (vm_compute; reflexivity).
  assert (Hk1 : requestLimits (store w1) !! pollKey = Some limit2)
    by (vm_compute; reflexivity).
  assert (Hl1 : limitedAt (clock w1 (ticks w1)) limit2 = true)
    by (vm_compute; reflexivity).
  assert (Hb : RequestLimit.Interval limit1 = base) by (vm_compute; reflexivity).
  pose proof (limited_update env limiter pollKey 0 w w limit1 limit1
                (limited_none env limiter pollKey w) Hk0 eq_refl Hl0) as H1.
  pose proof (limited_update env limiter pollKey 1 w w1 limit2 limit1
                H1 Hk1 eq_refl Hl1) as H2.
  exact (Hrun pollKey 2%nat w w2 limit1 eq_refl Hf Hk0 Hb H2).
Defined.

(** A first request is forwarded; a request inside the interval of a known
    key runs the hook with the interval read before the update. *)
Lemma RequestLimitHandler_decides_witness :
  let w := world emptyStorage [sec 1] in
  let v := world storageLimited [sec 1] in
  let lmt := Limiter.SetOnLimitReached limiter tooManyRequests in
  fault (store w) = None /\
  resp (snd (RequestLimitHandler env lmt next pollRequest w)) =
    (rateHeaders pollRequest ++
     [contentTypeJSON;
      TokenErr deviceTokenExpired "Invalid or expired device code parameter."
        StatusBadRequest])%list /\
  resp (snd (RequestLimitHandler env lmt next pollRequest v)) =
    (rateHeaders pollRequest ++
     [HeaderSet "Retry-After" "5"; RenderError 429 ""])%list /\
  RequestLimit.Interval <$> requestLimits
       (store (snd (RequestLimitHandler env lmt next pollRequest v))) !! pollKey
    = Some 10.
Proof.
  intros w v lmt. split; [reflexivity|]. split.
  - destruct (RequestLimitHandler_decides env lmt next pollRequest w eq_refl)
      as [_ Hfirst].
    destruct Hfirst as (_ & _ & ->);
      [reflexivity | vm_compute; discriminate | by vm_compute].
  - destruct (RequestLimitHandler_decides env lmt next pollRequest v eq_refl)
      as [Hknown _].
    rewrite (Hknown limit1 eq_refl eq_refl). by vm_compute.
Defined.

(** Without a hook the limited request ends with the rate headers alone. *)
Lemma ExecOnLimitReached_nil_hook_witness :
  let v := world storageLimited [sec 1] in
  Limiter.ExecOnLimitReached limiter pollRequest 5 v = (tt, v) /\
  resp (snd (RequestLimitHandler env limiter next pollRequest v))
    = rateHeaders pollRequest.
Proof.
  intros v.
  destruct (ExecOnLimitReached_nil_hook env) as (Hnew & _ & Hmiddle).
  split; [apply Hnew|].
  rewrite (Hmiddle limiter next pollRequest v limit1 eq_refl eq_refl eq_refl
             eq_refl eq_refl).
  reflexivity.
Defined.

(** *** Instances of the further properties *)

Lemma handleDeviceToken_invalid_request_witness :
  let r := get_ "/dex/device/token" [("device_code", "dev1")] in
  let w := world (storageWith pending1) [sec 1] in
  invalidTokenRequest r /\
  resp (snd (handleDeviceToken r w)) =
    [contentTypeJSON;
     RenderError StatusBadRequest "Requested resource does not exist."] /\
  store (snd (handleDeviceToken r w)) = store w.
Proof.
  intros r w.
  assert (H : invalidTokenRequest r) by (left; discriminate).
  destruct (handleDeviceToken_invalid_request r w H) as (Hs & _ & Hr & _).
  split; [exact H|]. split; [exact Hr|exact Hs].
Defined.

(** Three polls of the completed token, at 5 s, 5 s and 6 s. *)
Lemma polls_of_completed_token_witness :
  let w := world (storageWith complete1) [sec 5; sec 5; sec 6] in
  let answer := [contentTypeJSON; Write "{token}"] in
  serveAll handleDeviceToken [pollRequest; pollRequest; pollRequest] w =
    (tt, mkWorld (store w) (clock w) 3 (answer ++ answer ++ answer) []).
Proof.
  intros w answer.
  apply (polls_of_completed_token [pollRequest; pollRequest; pollRequest] w
           "dev1" complete1).
  - repeat (apply Forall_cons; split; [exact pollRequest_valid|]).
    apply Forall_nil_2.
  - reflexivity.
  - reflexivity.
  - reflexivity.
  - intros i Hi. cbn in Hi.
    destruct i as [|[|[|i]]]; [by vm_compute..|lia].
Defined.

(** Two early polls, at 1 s and at 2 s: the interval goes from 5 to 15. *)
Lemma early_polls_raise_interval_witness :
  let w := world (storageWith pending1) [sec 1; sec 2; sec 20] in
  let w1 := snd (handleDeviceToken pollRequest w) in
  let w2 := snd (handleDeviceToken pollRequest w1) in
  let w3 := snd (handleDeviceToken pollRequest w2) in
  (exists tok, deviceTokens (store w2) !! "dev1" = Some tok /\
     DeviceToken.PollIntervalSeconds tok =
       GoInt.wrap64 (DeviceToken.PollIntervalSeconds pending1 + 5 * Z.of_nat 2)) /\
  DeviceToken.PollIntervalSeconds <$> deviceTokens (store w3) !! "dev1" = Some 5.
Proof.
  intros w w1 w2 w3.
  destruct (early_polls_raise_interval "dev1") as [Hearly Htimely].
  pose (tok1 := DeviceToken.mk "dev1" deviceTokenPending "" (sec 600) (sec 1) 10).
  pose (tok2 := DeviceToken.mk "dev1" deviceTokenPending "" (sec 600) (sec 2) 15).
  assert (Hk0 : deviceTokens (store w) !! "dev1" = Some pending1)
    by (vm_compute; reflexivity).
  assert (Hk1 : deviceTokens (store w1) !! "dev1" = Some tok1)
    by (vm_compute; reflexivity).
  assert (Hk2 : deviceTokens (store w2) !! "dev1" = Some tok2)
    by (vm_compute; reflexivity).
  assert (Hf2 : fault (store w2) = None) by (vm_compute; reflexivity).
  assert (Hfast0 : tooFast (clock w (ticks w)) pending1 = true)
    by (vm_compute; reflexivity).
  assert (Hfast1 : tooFast (clock w1 (ticks w1)) tok1 = true)
    by (vm_compute; reflexivity).
  assert (Hlive2 : After (clock w2 (ticks w2)) (DeviceToken.Expiry tok2) = false)
    by (vm_compute; reflexivity).
  assert (Hslow2 : tooFast (clock w2 (ticks w2)) tok2 = false)
    by (vm_compute; reflexivity).
  pose proof (early_poll "dev1" 0 w w pollRequest pending1 (early_none "dev1" w)
                pollRequest_valid Hk0 eq_refl eq_refl Hfast0) as H1.
  pose proof (early_poll "dev1" 1 w w1 pollRequest tok1 H1
                pollRequest_valid Hk1 eq_refl eq_refl Hfast1) as H2.
  split.
  - assert (Hrange : GoInt.in_int64 (DeviceToken.PollIntervalSeconds pending1))
      by (vm_compute; split; [discriminate|reflexivity]).
    exact (Hearly 2%nat w w2 pending1 eq_refl Hk0 Hrange H2).
  - apply (Htimely pollRequest w2 tok2 pollRequest_valid Hf2 Hk2 eq_refl Hlive2 Hslow2).
Defined.

(** An error redirect of the login that has no [code]. *)
Lemma handleDeviceCallback_invalid_request_witness :
  let r := get_ "/dex/device/callback"
             [("state", "BCDFGHJK"); ("error", "access_denied");
              ("error_description", "the user said no")] in
  let w := world (storageWith pending1) [sec 2] in
  handleDeviceCallback env r w =
    (tt, respond [RenderError StatusBadRequest "Request was missing parameters"] w).
Proof.
  intros r w.
  apply (handleDeviceCallback_invalid_request env r w
           (RenderError StatusBadRequest "Request was missing parameters")).
  reflexivity.
Defined.

(** A callback with an auth code that the storage does not know. *)
Lemma handleDeviceCallback_lookup_fails_witness :
  let r := callbackRequest "unknown" in
  let w := world (storageWith pending1) [sec 2] in
  store (snd (handleDeviceCallback env r w)) = store w /\
  resp (snd (handleDeviceCallback env r w)) =
    [RenderError StatusBadRequest "Invalid or expired auth code."].
Proof.
  intros r w.
  destruct (handleDeviceCallback_lookup_fails env r w
              (RenderError StatusBadRequest "Invalid or expired auth code.")
              eq_refl eq_refl) as (Hs & Hr & _).
  split; [exact Hs|exact Hr].
Defined.

Lemma handleDeviceCallback_attaches_witness :
  let w := world (storageWith pending1) [sec 2] in
  let w' := snd (handleDeviceCallback env (callbackRequest "ac1") w) in
  deviceTokens (store w') !! "dev1" = Some (completed "token for ac1" pending1) /\
  resp w' = [TemplateDeviceSuccess "Client One"].
Proof.
  intros w w'. subst w'.
  rewrite (handleDeviceCallback_attaches env (callbackRequest "ac1") w
             (AuthCode.mk "ac1" (sec 300)) request1 (Client.mk "c1" "Client One")
             "token for ac1" (tick 2 w) pending1 "token for ac1"
             callback_found eq_refl eq_refl eq_refl eq_refl
             ltac:(discriminate) eq_refl).
  by vm_compute.
Defined.

Lemma callback_found_no_token :
  callbackFound (callbackRequest "ac1") (world storageNoToken [sec 2])
    (AuthCode.mk "ac1" (sec 300)) request1 (Client.mk "c1" "Client One").
Proof. split; by vm_compute. Defined.

(** A callback for a device request whose token is gone. *)
Lemma handleDeviceCallback_fails_after_lookups_witness :
  let w := world storageNoToken [sec 2] in
  let w' := snd (handleDeviceCallback env (callbackRequest "ac1") w) in
  store w' = store w /\
  resp w' = [RenderError StatusInternalServerError "Invalid or expired device code."].
Proof.
  intros w w'. subst w'.
  destruct (handleDeviceCallback_fails_after_lookups env (callbackRequest "ac1") w
              (AuthCode.mk "ac1" (sec 300)) request1 (Client.mk "c1" "Client One")
              callback_found_no_token) as (_ & Hgone & _).
  apply (Hgone eq_refl eq_refl I).
Defined.

Lemma verifyUserCode_invalid_request_witness :
  let r := post "/dex/device/auth/verify_code" [] in
  let w := world (storageWith pending1) [sec 2] in
  resp (snd (verifyUserCode env server r w)) =
    [RenderError StatusBadRequest "No user code received"] /\
  store (snd (verifyUserCode env server r w)) = store w.
Proof.
  intros r w.
  destruct (verifyUserCode_invalid_request env server r w
              (RenderError StatusBadRequest "No user code received") eq_refl)
    as (Hs & _ & Hr & _).
  split; [exact Hr|exact Hs].
Defined.

Lemma upperRequest_valid :
  validVerifyRequest (post "/dex/device/auth/verify_code" [("user_code", "BCDFGHJK")])
    "BCDFGHJK".
Proof. by split. Defined.

(** S6: the lowercase and the uppercase spelling are answered alike. *)
Lemma verifyUserCode_ignores_case_witness :
  let w := world (storageWith pending1) [sec 2] in
  verifyUserCode env server verifyRequest w =
  verifyUserCode env server
    (post "/dex/device/auth/verify_code" [("user_code", "BCDFGHJK")]) w.
Proof.
  intros w.
  apply (verifyUserCode_ignores_case env server _ _ "bcdfghjk" "BCDFGHJK" w
           verifyRequest_valid upperRequest_valid).
  reflexivity.
Defined.

Lemma verifyUserCode_failures_witness :
  let w := world storageDown [sec 2] in
  resp (snd (verifyUserCode env server verifyRequest w)) =
    [TokenErr errServerError "" StatusInternalServerError;
     TemplateDevice "/dex/device/auth/verify_code" "BCDFGHJK" true].
Proof.
  intros w.
  destruct (verifyUserCode_failures env server verifyRequest "bcdfghjk" w
              verifyRequest_valid) as [Hdown _].
  apply (Hdown "connection refused"). reflexivity.
Defined.

(** An [invalid] parameter that does not parse counts as false. *)
Lemma handleDeviceExchange_page_witness :
  let r := get_ "/dex/device" [("user_code", "BCDFGHJK"); ("invalid", "yes")] in
  let w := world emptyStorage [sec 2] in
  resp (snd (handleDeviceExchange env server r w)) =
    [TemplateDevice "/dex/device/auth/verify_code" "BCDFGHJK" false].
Proof.
  intros r w.
  destruct (handleDeviceExchange_page env server r w) as [_ Hget].
  destruct (Hget eq_refl) as (invalid & Hr & Hiff).
  destruct invalid; [|exact Hr].
  exfalso. destruct (proj1 Hiff eq_refl) as [H|[H|[H|[H|[H|[H|[]]]]]]];
    discriminate H.
Defined.

Lemma verifyUserCode_unknown_is_page_witness :
  let r2 := get_ "/dex/device" [("user_code", "BCDFGHJK"); ("invalid", "true")] in
  let w := world emptyStorage [sec 2] in
  resp (snd (verifyUserCode env server verifyRequest w)) =
  resp (snd (handleDeviceExchange env server r2 w)).
Proof.
  intros r2 w.
  apply (verifyUserCode_unknown_is_page env server verifyRequest "bcdfghjk" w r2
           verifyRequest_valid); try reflexivity.
  unfold spellsTrue. cbn. tauto.
Defined.

Lemma GetLastRequest_round_trip_witness :
  let w := world emptyStorage [sec 1; sec 2] in
  let res := Limiter.GetLastRequest limiter pollKey w in
  fst res = (RequestLimit.mk pollKey 0 (sec 1) (sec 62), None) /\
  Limiter.GetLastRequest limiter pollKey (snd res) = (fst res, snd res).
Proof.
  intros w res.
  destruct (GetLastRequest_round_trip limiter pollKey w eq_refl)
    as (_ & _ & Hagain & _ & _).
  split; [by vm_compute|].
  subst res. rewrite Hagain. by vm_compute.
Defined.

Lemma limiter_storage_errors_witness :
  let w := world storageDown [sec 1] in
  Limiter.GetLastRequest limiter pollKey w
    = ((RequestLimit.zero, Some (ErrOther "connection refused")), w) /\
  fst (Limiter.UpdateRequest env limiter limit1 (world emptyStorage [sec 1]))
    = Some ErrNotFound.
Proof.
  intros w.
  destruct (limiter_storage_errors env limiter w) as (Hget & _ & _).
  destruct (limiter_storage_errors env limiter (world emptyStorage [sec 1]))
    as (_ & _ & Hupdate).
  split; [apply (Hget _ pollKey eq_refl)|].
  apply (Hupdate limit1 eq_refl eq_refl).
Defined.

(** At the end of its 5 s the record is not limited any more. *)
Lemma IsLimited_exact_witness :
  intervalFits (RequestLimit.Interval limit1) /\
  fst (Limiter.IsLimited limiter limit1 (world emptyStorage [sec 4])) = true /\
  fst (Limiter.IsLimited limiter limit1 (world emptyStorage [sec 5])) = false.
Proof.
  assert (Hfit : intervalFits (RequestLimit.Interval limit1))
    by (vm_compute; split; discriminate).
  split; [exact Hfit|]. split.
  - apply (IsLimited_exact limiter limit1 (world emptyStorage [sec 4]) Hfit).
    by vm_compute.
  - destruct (fst (Limiter.IsLimited limiter limit1 (world emptyStorage [sec 5])))
      eqn:Hl; [|reflexivity].
    apply (IsLimited_exact limiter limit1 (world emptyStorage [sec 5]) Hfit) in Hl.
    by vm_compute in Hl.
Defined.

Lemma storageLimited_keyed : limitsKeyed storageLimited.
Proof.
  intros k r H. cbn in H.
  apply lookup_singleton_Some in H as [<- <-]. reflexivity.
Defined.

Lemma limiter_keeps_limits_keyed_witness :
  limitsKeyed
    (store (snd (Limiter.UpdateRequest env limiter limit1
                   (world storageLimited [sec 1])))) /\
  limitsKeyed
    (store (snd (Limiter.GetLastRequest limiter "GET-10.0.0.1-/dex/device"
                   (world storageLimited [sec 1])))).
Proof.
  destruct (limiter_keeps_limits_keyed env limiter (world storageLimited [sec 1])
              storageLimited_keyed) as [Hget Hupdate].
  split; [apply Hupdate|apply Hget].
Defined.

Lemma RequestLimitHandler_storage_down_witness :
  let w := world storageDown [sec 1] in
  resp (snd (RequestLimitHandler env limiter next pollRequest w)) =
    (rateHeaders pollRequest ++ [RenderError StatusInternalServerError ""])%list.
Proof.
  intros w.
  by rewrite (RequestLimitHandler_storage_down env limiter next pollRequest w
                "connection refused" eq_refl).
Defined.

(** A second request 2 s after the first, with a hook: it is rejected with
    the base interval as delay. *)
Lemma RequestLimitHandler_second_request_witness :
  let lmt := Limiter.SetOnLimitReached limiter tooManyRequests in
  let w := world emptyStorage [sec 1; sec 1; sec 1; sec 1; sec 1; sec 1; sec 1; sec 3] in
  let w1 := snd (RequestLimitHandler env lmt next pollRequest w) in
  let w2 := snd (RequestLimitHandler env lmt next pollRequest
                   (mkWorld (store w1) (clock w1) (ticks w1) [] [])) in
  resp w2 = (rateHeaders pollRequest ++
             [HeaderSet "Retry-After" "5"; RenderError 429 ""])%list.
Proof.
  intros lmt w w1 w2.
  assert (Hclock : clock w (ticks w) <= clock w (5 + ticks w)%nat)
    by (vm_compute; discriminate).
  destruct (RequestLimitHandler_second_request env lmt next pollRequest w
              eq_refl eq_refl Hclock) as [_ Hsecond].
  subst w2.
  rewrite (Hsecond (mkWorld (store w1) (clock w1) (ticks w1) [] []));
    by vm_compute.
Defined.

Lemma requestKey_injective_witness :
  let r2 := post "/dex/device/token" [] in
  requestKey env pollRequest = pollKey /\
  Method pollRequest = Method r2 /\ URLPath pollRequest = URLPath r2.
Proof.
  intros r2. split; [reflexivity|].
  destruct (requestKey_injective env pollRequest r2 eq_refl eq_refl eq_refl
              eq_refl eq_refl) as (Hm & _ & Hp).
  split; [exact Hm|exact Hp].
Defined.

Lemma codeRequest_fresh :
  deviceCodeFresh drawn1 codeRequest (world emptyStorage [sec 1]).
Proof. split; reflexivity. Defined.

(** S1: the records and the answer of D1 for a validity of 600 s. *)
Lemma handleDeviceCode_creates_witness :
  let w' := snd (D1' drawn1 codeRequest (world emptyStorage [sec 1])) in
  deviceRequests (store w') !! "BCDFGHJK" =
    Some (DeviceRequest.mk "BCDFGHJK" "dev1" "c1" ["openid"] (sec 600)) /\
  deviceTokens (store w') !! "dev1" = Some pending1.
Proof.
  intros w'.
  destruct (handleDeviceCode_creates env1 server encodeJSON errorText drawn1
              codeRequest (world emptyStorage [sec 1]) codeRequest_fresh)
    as (Hr & Ht & _).
  split; [exact Hr|exact Ht].
Defined.

Lemma handleDeviceCode_answer_witness :
  resp (snd (D1' drawn1 codeRequest (world emptyStorage [sec 1]))) =
    [Write "dev1 BCDFGHJK https://dex.example.com/dex/device?user_code=BCDFGHJK 600 5"].
Proof.
  destruct (handleDeviceCode_answer env1 server encodeJSON errorText drawn1
              codeRequest (world emptyStorage [sec 1])
              (URL.mk "https" "dex.example.com" "/dex" "")
              codeRequest_fresh eq_refl) as [Hr _].
  unfold D1'. rewrite Hr. by vm_compute.
Defined.

(** A device code that is taken: the device request stays without token. *)
Lemma handleDeviceCode_failures_witness :
  let drawn := Drawn.mk "dev1" "QRSTVWXZ" 0 0 in
  let w := world (storageWith pending1) [sec 1] in
  let w' := snd (D1' drawn codeRequest w) in
  deviceRequests (store w') !! "QRSTVWXZ"
    = Some (DeviceRequest.mk "QRSTVWXZ" "dev1" "c1" ["openid"] (sec 600)) /\
  deviceTokens (store w') = deviceTokens (store w) /\
  resp w' = [TokenErr errServerError "Could not create device token"
               StatusInternalServerError].
Proof.
  intros drawn w w'.
  destruct (handleDeviceCode_failures env1 server encodeJSON errorText drawn
              codeRequest w eq_refl eq_refl) as (_ & Htaken & _).
  apply (Htaken eq_refl eq_refl). discriminate.
Defined.

Lemma handleDeviceCode_invalid_request_witness :
  let w := world emptyStorage [sec 1] in
  resp (snd (D1' drawn1 (get_ "/dex/device/code" []) w)) =
    [RenderError StatusBadRequest "Invalid device code request type";
     TokenErr errInvalidRequest "Invalid device code request type" StatusBadRequest]
  /\
  resp (snd (D1' drawn1 (unparsed codeRequest) w)) =
    [TokenErr errInvalidRequest
       "Could not parse Device Request body: invalid semicolon separator in query"
       StatusBadRequest].
Proof.
  intros w.
  destruct (handleDeviceCode_invalid_request env1 server encodeJSON errorText drawn1
              (get_ "/dex/device/code" []) w) as [Hget _].
  destruct (handleDeviceCode_invalid_request env1 server encodeJSON errorText drawn1
              (unparsed codeRequest) w) as [_ Hbad].
  split.
  - apply Hget. discriminate.
  - apply (Hbad _ eq_refl eq_refl).
Defined.

(** S2: the device polls 1 s after D1, then 6 s after D1. *)
Lemma handleDeviceCode_then_poll_witness :
  let w' := snd (D1' drawn1 codeRequest (world emptyStorage [sec 1])) in
  resp (snd (handleDeviceToken pollRequest
               (mkWorld (store w') (clockOf [sec 1]) 0 [] []))) =
    [contentTypeJSON; TokenErr deviceTokenSlowDown "" StatusBadRequest;
     TokenErr deviceTokenPending "" StatusUnauthorized] /\
  resp (snd (handleDeviceToken pollRequest
               (mkWorld (store w') (clockOf [sec 6]) 0 [] []))) =
    [contentTypeJSON; TokenErr deviceTokenPending "" StatusUnauthorized].
Proof.
  intros w'. split.
  - apply (handleDeviceCode_then_poll env1 server encodeJSON errorText drawn1
             codeRequest (world emptyStorage [sec 1]) pollRequest (clockOf [sec 1]) 0
             codeRequest_fresh pollRequest_valid eq_refl).
  - apply (handleDeviceCode_then_poll env1 server encodeJSON errorText drawn1
             codeRequest (world emptyStorage [sec 1]) pollRequest (clockOf [sec 6]) 0
             codeRequest_fresh pollRequest_valid eq_refl).
Defined.

(** S1: the user types the code D1 answered, in lowercase. *)
Lemma handleDeviceCode_then_verify_witness :
  let w' := snd (D1' drawn1 codeRequest (world emptyStorage [sec 1])) in
  exists q,
    resp (snd (verifyUserCode env1 server verifyRequest
                 (mkWorld (store w') (clockOf [sec 30]) 0 [] []))) =
      [HttpRedirect (URL_String env1
                       (URL.with_RawQuery (Values_Encode env1 q)
                          (URL.mk "" "" "/dex/auth" "")))
         StatusFound] /\
    Values.Get q "client_id" = "c1" /\
    Values.Get q "scope" = "openid" /\
    Values.Get q "state" = "BCDFGHJK".
Proof.
  intros w'.
  apply (handleDeviceCode_then_verify env1 server encodeJSON errorText drawn1
           codeRequest (world emptyStorage [sec 1]) verifyRequest "bcdfghjk"
           (clockOf [sec 30]) 0 (URL.mk "" "" "/dex/auth" "")
           codeRequest_fresh verifyRequest_valid eq_refl eq_refl eq_refl).
Defined.

End Scenario.
